(** * Similarity retrieval and ranking of the link suggestion tool

    A shallow embedding of [utils/embeddings.py] (class [EmbeddingsManager])
    and [utils/similarity.py] (class [SimilaritySearcher]), with the policy
    constants of [config.py].

    Conventions of the embedding:
    - Scores. In the first part a Python [float] score is an exact rational
      ([Q]); equality of scores is [Qeq] ([==]), the record fields hold the
      unreduced fraction the arithmetic of the source produces. That part
      carries the statements that do not turn on rounding. The module
      [Binary64] has the search with the scores as binary64 floats, and the
      module [Service] has it with the store as a service whose state a
      call may change; the statements about the values of the scores, the
      order of the ranking and repeated calls are made there.
    - Python [int] arguments ([k], [top_k], [max_chars]) are integers ([Z]),
      negative values included, with Python's slice semantics written out.
    - A metadata [dict] is a finite map from keys to strings; [d.get(key)] is
      the lookup [d !! key] and yields [None] for an absent key.
    - A raised exception is the [Raise] case of [result]; [try]/[except]
      blocks are matches on it.
    - The vector store (langchain's Chroma) lives outside the repository: the
      model takes what it returns as fields of a record, so every statement
      below holds for whatever the store answers. *)

From Stdlib Require Import QArith ZArith Lia Lqa Sorted Floats.
From stdpp Require Import gmap strings list.

Local Open Scope Z_scope.

(** ** Policy constants ([config.py]) *)

Module Config.
Definition TOP_K_RESULTS : Z := 10.
Definition FINAL_SUGGESTIONS : Z := 5.
Definition MIN_SIMILARITY_THRESHOLD : Q := (5 # 10)%Q.
End Config.

(** ** Data *)

(** Exceptions that can reach a handler of the modelled code. *)
Inductive exn : Type :=
| ValueError (msg : string)
| IndexError
| AttributeError
| StoreError (msg : string).

Inductive result (A : Type) : Type :=
| Ok (a : A)
| Raise (e : exn).
Arguments Ok {A} a.
Arguments Raise {A} e.

Definition bind {A B : Type} (r : result A) (f : A -> result B) : result B :=
  match r with
  | Ok a => f a
  | Raise e => Raise e
  end.

Notation "x <- r ;; k" := (bind r (fun x => k))
  (at level 100, r at next level, right associativity).

(** langchain's [Document]: the embedded text and its metadata dict. *)
Record Document : Type := mkDocument {
  page_content : string;
  metadata : gmap string string
}.

(** The dict returned by [vectorstore.get()]: two parallel lists. *)
Record GetResult : Type := mkGetResult {
  metadatas : list (gmap string string);
  documents : list string
}.

(** The vector store as the code sees it.
    - [truth] is the Python truth value of the store object, tested by
      [if not self.vectorstore]; the class is defined outside the repository,
      so the value is left free.
    - [get] is the full scan.
    - [similarity_search_with_score text n] is the nearest-neighbour query:
      it returns (document, cosine distance) pairs or raises. *)
Record Chroma : Type := mkChroma {
  truth : bool;
  get : GetResult;
  similarity_search_with_score : string -> Z -> result (list (Document * Q))
}.

(** [EmbeddingsManager]: the only field the modelled methods read or write
    is [self.vectorstore], [None] until a store is built or loaded. *)
Record EmbeddingsManager : Type := mkManager {
  vectorstore : option Chroma
}.

(** A scraped post: the dict with keys ['url'], ['title'], ['content']. *)
Record ScrapedPost : Type := mkScraped {
  post_url : string;
  post_title : string;
  post_content : string
}.

(** A result dict of [search_similar]; [find_similar_posts] adds the key
    ['rank'] afterwards, so [rank] is [None] while the key is absent. *)
Record Post : Type := mkPost {
  url : option string;
  title : option string;
  content : string;
  similarity : Q;
  rank : option Z
}.

(** ** Python helpers *)

(** [l[:k]] for a list. *)
Definition slice_to {A : Type} (k : Z) (l : list A) : list A :=
  if 0 <=? k then firstn (Z.to_nat k) l
  else firstn (length l - Z.to_nat (- k)) l.

(** [s[:k]] for a string. *)
Definition str_slice_to (k : Z) (s : string) : string :=
  if 0 <=? k then String.substring 0 (Z.to_nat k) s
  else String.substring 0 (String.length s - Z.to_nat (- k)) s.

(** [len(s)] *)
Definition len (s : string) : Z := Z.of_nat (String.length s).

(** Truth value of an optional string: [None] and [""] are falsy. *)
Definition str_truthy (o : option string) : bool :=
  match o with
  | None => false
  | Some s => negb (String.eqb s "")
  end.

(** [md.get('url') == query_url] *)
Definition url_is (md : gmap string string) (query_url : string) : bool :=
  bool_decide (md !! "url"%string = Some query_url).

(** The scan [for i, md in enumerate(metadatas): if md.get('url') == u]:
    index of the first record whose url is [u], counting from [i]. *)
Fixpoint first_match (u : string) (mds : list (gmap string string)) (i : nat)
  : option nat :=
  match mds with
  | [] => None
  | md :: rest => if url_is md u then Some i else first_match u rest (S i)
  end.

(** [all_docs['documents'][i]], raising [IndexError] out of range. *)
Definition document_at (all_docs : GetResult) (i : nat) : result string :=
  match documents all_docs !! i with
  | Some d => Ok d
  | None => Raise IndexError
  end.

(** ** [EmbeddingsManager.search_similar] *)

(** [similarity = 1 - (score / 2)] *)
Definition to_similarity (score : Q) : Q := (1 - score / 2)%Q.

(** The dict the loop appends for a neighbour:
    [{'url': ..., 'title': ..., 'content': ..., 'similarity': similarity}]. *)
Definition post_of (doc : Document) (score : Q) : Post :=
  {| url := metadata doc !! "url"%string;
     title := metadata doc !! "title"%string;
     content := page_content doc;
     similarity := to_similarity score;
     rank := None |}.

(** The loop over the neighbours: skip the query post, convert the distance,
    apply the threshold, append. *)
Fixpoint similar_posts_loop (query_url : string) (results : list (Document * Q))
  : list Post :=
  match results with
  | [] => []
  | (doc, score) :: rest =>
      if url_is (metadata doc) query_url then similar_posts_loop query_url rest
      else
        let similarity := to_similarity score in
        if Qle_bool Config.MIN_SIMILARITY_THRESHOLD similarity then
          post_of doc score :: similar_posts_loop query_url rest
        else similar_posts_loop query_url rest
  end.

(** [list.sort(key=lambda x: x['similarity'], reverse=True)]: Python's sort
    is stable, also under [reverse=True]; a stable sort is determined by its
    key order, here written as an insertion sort. *)
Fixpoint insert_desc (x : Post) (l : list Post) : list Post :=
  match l with
  | [] => [x]
  | y :: l' =>
      if Qle_bool (similarity y) (similarity x) then x :: y :: l'
      else y :: insert_desc x l'
  end.

Fixpoint sort_desc (l : list Post) : list Post :=
  match l with
  | [] => []
  | x :: l' => insert_desc x (sort_desc l')
  end.

(** The query text: the stored text of the first record with the url, or
    [None] when no record has it. *)
Definition resolve (all_docs : GetResult) (query_url : string)
  : result (option string) :=
  match first_match query_url (metadatas all_docs) 0 with
  | None => Ok None
  | Some i => d <- document_at all_docs i ;; Ok (Some d)
  end.

Definition not_initialized : exn :=
  ValueError "Vectorstore not initialized. Load or create one first.".

Definition url_not_found (query_url : string) : exn :=
  ValueError ("URL not found in database: " +:+ query_url).

Definition search_similar (self : EmbeddingsManager) (query_url : string)
    (k : option Z) : result (list Post) :=
  let k := default Config.TOP_K_RESULTS k in
  match vectorstore self with
  | None => Raise not_initialized
  | Some vs =>
      if negb (truth vs) then Raise not_initialized
      else
        let all_docs := get vs in
        query_doc <- resolve all_docs query_url ;;
        if negb (str_truthy query_doc) then Raise (url_not_found query_url)
        else
          let text := default ""%string query_doc in
          results <- similarity_search_with_score vs text (k + 1) ;;
          let similar_posts := similar_posts_loop query_url results in
          Ok (slice_to k (sort_desc similar_posts))
  end.

(** ** [SimilaritySearcher] *)

(** The searcher keeps a reference to the manager it was created with. *)
Record SimilaritySearcher : Type := mkSearcher {
  embeddings_manager : EmbeddingsManager
}.

Definition create_searcher (em : EmbeddingsManager) : SimilaritySearcher :=
  {| embeddings_manager := em |}.

(** [result['rank'] = i] *)
Definition set_rank (i : Z) (r : Post) : Post :=
  {| url := url r; title := title r; content := content r;
     similarity := similarity r; rank := Some i |}.

(** [for i, result in enumerate(results, i0): result['rank'] = i] *)
Fixpoint add_ranks (i : Z) (results : list Post) : list Post :=
  match results with
  | [] => []
  | r :: rest => set_rank i r :: add_ranks (i + 1) rest
  end.

Definition find_similar_posts (self : SimilaritySearcher) (query_url : string)
    (top_k : option Z) : list Post :=
  let top_k := default Config.FINAL_SUGGESTIONS top_k in
  match search_similar (embeddings_manager self) query_url (Some top_k) with
  | Ok results =>
      match results with
      | [] => []
      | _ => add_ranks 1 results
      end
  | Raise (ValueError _) => []
  | Raise _ => []
  end.

(** [self.embeddings_manager.vectorstore.get()]: attribute access on [None]
    raises [AttributeError]. *)
Definition vectorstore_get (self : SimilaritySearcher) : result GetResult :=
  match vectorstore (embeddings_manager self) with
  | None => Raise AttributeError
  | Some vs => Ok (get vs)
  end.

(** [content[:max_chars] + "..." if len(content) > max_chars else content] *)
Definition snippet (content : string) (max_chars : Z) : string :=
  if len content >? max_chars then str_slice_to max_chars content +:+ "..."
  else content.

Definition get_post_context (self : SimilaritySearcher) (url : string)
    (max_chars : option Z) : option string :=
  let max_chars := default 500 max_chars in
  let body :=
    all_docs <- vectorstore_get self ;;
    match first_match url (metadatas all_docs) 0 with
    | Some i =>
        content <- document_at all_docs i ;;
        Ok (Some (snippet content max_chars))
    | None => Ok None
    end in
  match body with
  | Ok r => r
  | Raise _ => None
  end.

Definition validate_url (self : SimilaritySearcher) (url : string) : bool :=
  let body :=
    all_docs <- vectorstore_get self ;;
    match first_match url (metadatas all_docs) 0 with
    | Some _ => Ok true
    | None => Ok false
    end in
  match body with
  | Ok r => r
  | Raise _ => false
  end.

(** [[url for url in urls if url]] *)
Fixpoint keep_truthy (urls : list (option string)) : list string :=
  match urls with
  | [] => []
  | u :: rest =>
      if str_truthy u then default ""%string u :: keep_truthy rest
      else keep_truthy rest
  end.

Definition get_all_urls (self : SimilaritySearcher) : list string :=
  let body :=
    all_docs <- vectorstore_get self ;;
    let urls := map (fun md : gmap string string => md !! "url"%string)
                    (metadatas all_docs) in
    Ok (keep_truthy urls) in
  match body with
  | Ok r => r
  | Raise _ => []
  end.

(** ** Ingestion ([create_documents], [build_vectorstore], [add_posts]) *)

Definition newline : string := String (Ascii.ascii_of_nat 10) EmptyString.

(** [Document(page_content=f"{title}\n\n{content}", metadata={...})] *)
Definition create_document (post : ScrapedPost) : Document :=
  {| page_content := post_title post +:+ newline +:+ newline +:+ post_content post;
     metadata := <["url"%string := post_url post]>
                 (<["title"%string := post_title post]>
                  (<["source"%string := "blog_post"%string]> ∅)) |}.

Definition create_documents (posts : list ScrapedPost) : list Document :=
  map create_document posts.

(** [[documents[i:i + size] for i in range(0, len(documents), size)]];
    [fuel] bounds the number of batches. *)
Fixpoint batches {A : Type} (fuel size : nat) (l : list A) : list (list A) :=
  match fuel with
  | O => []
  | S fuel' =>
      match l with
      | [] => []
      | _ => firstn size l :: batches fuel' size (skipn size l)
      end
  end.

Section Ingestion.

(** The two writing operations of the store. They embed the documents
    with the external provider; the model leaves both free. In Python
    [add_documents] updates the store object in place, here it returns
    the updated store. [from_documents] is the call
    [Chroma.from_documents(documents=..., persist_directory=...,
    collection_name=...)] with the directory and the collection name of
    the configuration: the store it returns is the persisted collection
    with the documents added, so what it holds depends on what the
    directory held. A build is followed to its end: a call of the library
    that raises, as [from_documents] does for an empty list, leaves the
    method with the exception, and the model says nothing of a build in
    which that happens. *)
Variable from_documents : list Document -> Chroma.
Variable add_documents : Chroma -> list Document -> Chroma.

(** One round of the batch loop of [build_vectorstore]. *)
Definition build_batch (v : option Chroma) (batch : list Document)
  : option Chroma :=
  match v with
  | None => Some (from_documents batch)
  | Some vs => Some (add_documents vs batch)
  end.

Definition build_vectorstore (self : EmbeddingsManager)
    (posts : list ScrapedPost) (show_progress : bool) : EmbeddingsManager :=
  let documents := create_documents posts in
  if show_progress then
    let batch_size := 10%nat in
    {| vectorstore :=
         fold_left build_batch
           (batches (length documents) batch_size documents)
           (vectorstore self) |}
  else {| vectorstore := Some (from_documents documents) |}.

Definition add_posts (self : EmbeddingsManager) (new_posts : list ScrapedPost)
  : EmbeddingsManager :=
  match vectorstore self with
  | None => build_vectorstore self new_posts true
  | Some vs =>
      if negb (truth vs) then build_vectorstore self new_posts true
      else {| vectorstore := Some (add_documents vs (create_documents new_posts)) |}
  end.

(** ** A session: calls made one after the other on one manager

    The searcher reads the manager it refers to at the time of the call,
    so a call sees every earlier write. *)
Inductive call : Type :=
| FindSimilarPosts (query_url : string) (top_k : option Z)
| GetPostContext (url : string) (max_chars : option Z)
| ValidateUrl (url : string)
| GetAllUrls
| BuildVectorstore (posts : list ScrapedPost) (show_progress : bool)
| AddPosts (new_posts : list ScrapedPost).

Inductive reply : Type :=
| Posts (l : list Post)
| PostContext (c : option string)
| Valid (b : bool)
| Urls (l : list string)
| Done.

Definition run (em : EmbeddingsManager) (c : call)
  : reply * EmbeddingsManager :=
  match c with
  | FindSimilarPosts q k => (Posts (find_similar_posts (create_searcher em) q k), em)
  | GetPostContext u n => (PostContext (get_post_context (create_searcher em) u n), em)
  | ValidateUrl u => (Valid (validate_url (create_searcher em) u), em)
  | GetAllUrls => (Urls (get_all_urls (create_searcher em)), em)
  | BuildVectorstore posts b => (Done, build_vectorstore em posts b)
  | AddPosts posts => (Done, add_posts em posts)
  end.

(** State after a sequence of calls. *)
Definition run_all (em : EmbeddingsManager) (cs : list call)
  : EmbeddingsManager :=
  fold_left (fun em c => snd (run em c)) cs em.

End Ingestion.

(** ** The search in binary64

    The scores of the program are Python floats: the distances the library
    returns, the similarity computed from them, the threshold it is
    compared with and the keys of the sort. This module is the search with
    the scores as Rocq's primitive floats, which are the same binary64
    numbers with the same operations (rounding to nearest, ties to even).
    Whatever is not a score is taken from above. *)

Module Binary64.

(** [similarity = 1 - (score / 2)] *)
Definition to_similarity (score : float) : float := (1 - score / 2)%float.

Definition MIN_SIMILARITY_THRESHOLD : float := 0.5%float.

(** [similarity >= Config.MIN_SIMILARITY_THRESHOLD] *)
Definition passes (score : float) : bool :=
  PrimFloat.leb MIN_SIMILARITY_THRESHOLD (to_similarity score).

(** The vector store, with the distances as floats. *)
Record Chroma : Type := mkChroma {
  truth : bool;
  get : GetResult;
  similarity_search_with_score :
    string -> Z -> result (list (Document * float))
}.

Record EmbeddingsManager : Type := mkManager {
  vectorstore : option Chroma
}.

Record Post : Type := mkPost {
  url : option string;
  title : option string;
  content : string;
  similarity : float;
  rank : option Z
}.

Definition post_of (doc : Document) (score : float) : Post :=
  {| url := metadata doc !! "url"%string;
     title := metadata doc !! "title"%string;
     content := page_content doc;
     similarity := to_similarity score;
     rank := None |}.

Fixpoint similar_posts_loop (query_url : string)
    (results : list (Document * float)) : list Post :=
  match results with
  | [] => []
  | (doc, score) :: rest =>
      if url_is (metadata doc) query_url then similar_posts_loop query_url rest
      else
        let similarity := to_similarity score in
        if PrimFloat.leb MIN_SIMILARITY_THRESHOLD similarity then
          post_of doc score :: similar_posts_loop query_url rest
        else similar_posts_loop query_url rest
  end.

(** [list.sort(key=lambda x: x['similarity'], reverse=True)]. Python
    compares the keys with [<] and keeps entries of equal key in their
    order, also under [reverse=True]. A key that passed the threshold is
    not a NaN, so the keys of [similar_posts] are totally ordered and the
    stable sort is the one arrangement written here as an insertion sort:
    an entry goes in front of the first later entry whose key is not
    above its own. *)
Fixpoint insert_desc (x : Post) (l : list Post) : list Post :=
  match l with
  | [] => [x]
  | y :: l' =>
      if PrimFloat.leb (similarity y) (similarity x) then x :: y :: l'
      else y :: insert_desc x l'
  end.

Fixpoint sort_desc (l : list Post) : list Post :=
  match l with
  | [] => []
  | x :: l' => insert_desc x (sort_desc l')
  end.

Definition search_similar (self : EmbeddingsManager) (query_url : string)
    (k : option Z) : result (list Post) :=
  let k := default Config.TOP_K_RESULTS k in
  match vectorstore self with
  | None => Raise not_initialized
  | Some vs =>
      if negb (truth vs) then Raise not_initialized
      else
        let all_docs := get vs in
        query_doc <- resolve all_docs query_url ;;
        if negb (str_truthy query_doc) then Raise (url_not_found query_url)
        else
          let text := default ""%string query_doc in
          results <- similarity_search_with_score vs text (k + 1) ;;
          let similar_posts := similar_posts_loop query_url results in
          Ok (slice_to k (sort_desc similar_posts))
  end.

Record SimilaritySearcher : Type := mkSearcher {
  embeddings_manager : EmbeddingsManager
}.

Definition create_searcher (em : EmbeddingsManager) : SimilaritySearcher :=
  {| embeddings_manager := em |}.

Definition set_rank (i : Z) (r : Post) : Post :=
  {| url := url r; title := title r; content := content r;
     similarity := similarity r; rank := Some i |}.

Fixpoint add_ranks (i : Z) (results : list Post) : list Post :=
  match results with
  | [] => []
  | r :: rest => set_rank i r :: add_ranks (i + 1) rest
  end.

Definition find_similar_posts (self : SimilaritySearcher) (query_url : string)
    (top_k : option Z) : list Post :=
  let top_k := default Config.FINAL_SUGGESTIONS top_k in
  match search_similar (embeddings_manager self) query_url (Some top_k) with
  | Ok results =>
      match results with
      | [] => []
      | _ => add_ranks 1 results
      end
  | Raise (ValueError _) => []
  | Raise _ => []
  end.

(** *** Words for the statements *)

(** Scores in rank order never increase. *)
Definition descending (l : list Post) : Prop :=
  StronglySorted
    (fun a b => PrimFloat.leb (similarity b) (similarity a) = true) l.

(** The entries of a list whose score equals [s]. *)
Definition with_score (s : float) (l : list Post) : list Post :=
  List.filter (fun r => PrimFloat.eqb (similarity r) s) l.

(** The dict before the key ['rank'] was added. *)
Definition clear_rank (r : Post) : Post :=
  {| url := url r; title := title r; content := content r;
     similarity := similarity r; rank := None |}.

(** The key of an entry can be compared: it is not a NaN. *)
Definition comparable (r : Post) : Prop :=
  PrimFloat.leb (similarity r) (similarity r) = true.

(** The number a float stands for; [None] for an infinity and for a
    NaN. *)
Definition exact (x : float) : option Q :=
  match Prim2SF x with
  | S754_zero _ => Some 0%Q
  | S754_finite s m e =>
      Some (inject_Z (if s then Z.neg m else Z.pos m) * Qpower 2 e)%Q
  | _ => None
  end.

(** The float [x] is the number [q]. *)
Definition stands_for (x : float) (q : Q) : Prop :=
  exists q', exact x = Some q' /\ (q' == q)%Q.

End Binary64.

(** ** Example stores *)

Module Examples.

Definition meta (u t : string) : gmap string string :=
  <["url"%string := u]> (<["title"%string := t]> ∅).

Definition docA : Document := mkDocument "text of a" (meta "a" "A").
Definition docB : Document := mkDocument "text of b" (meta "b" "B").
Definition docC : Document := mkDocument "text of c" (meta "c" "C").

(** Documents a, b, c; the neighbours of a's text come back at cosine
    distances 0.2, 0.8 and 1.4, cut to the number asked for. *)
Definition store_abc : Chroma :=
  {| truth := true;
     get := {| metadatas := map metadata [docA; docB; docC];
               documents := map page_content [docA; docB; docC] |};
     similarity_search_with_score := fun text n =>
       if String.eqb text "text of a" then
         Ok (slice_to n [(docA, 2 # 10); (docB, 8 # 10); (docC, 14 # 10)]%Q)
       else Ok [] |}.

Definition searcher_abc : SimilaritySearcher :=
  create_searcher {| vectorstore := Some store_abc |}.

(** No store built or loaded. *)
Definition searcher_none : SimilaritySearcher :=
  create_searcher {| vectorstore := None |}.

(** The same documents with b exactly at the threshold (distance 1,
    score 0.5) and c just below it (distance 1.2, score 0.4). *)
Definition store_edge : Chroma :=
  {| truth := true;
     get := get store_abc;
     similarity_search_with_score := fun text n =>
       Ok (slice_to n [(docA, 0); (docB, 1); (docC, 12 # 10)]%Q) |}.

(** A store whose record for url "a" holds the empty text. *)
Definition docBlank : Document := mkDocument "" (meta "a" "A").

Definition store_blank : Chroma :=
  {| truth := true;
     get := {| metadatas := map metadata [docBlank; docB];
               documents := map page_content [docBlank; docB] |};
     similarity_search_with_score := fun text n =>
       Ok [(docBlank, 0); (docB, 8 # 10)]%Q |}.

(** Writing operations for the sessions of the examples: the store keeps
    the documents in insertion order and answers every query with the
    documents stored, all at distance 1. *)
Definition store_of (docs : list Document) : Chroma :=
  {| truth := negb (Nat.eqb (length docs) 0);
     get := {| metadatas := map metadata docs;
               documents := map page_content docs |};
     similarity_search_with_score := fun text n =>
       Ok (slice_to n (map (fun d => (d, 1%Q)) docs)) |}.

Definition from_documents_ex (docs : list Document) : Chroma := store_of docs.

Definition add_documents_ex (vs : Chroma) (docs : list Document) : Chroma :=
  {| truth := truth vs || negb (Nat.eqb (length docs) 0);
     get := {| metadatas := metadatas (get vs) ++ map metadata docs;
               documents := documents (get vs) ++ map page_content docs |};
     similarity_search_with_score := fun text n =>
       match similarity_search_with_score vs text n with
       | Ok l => Ok (slice_to n (l ++ map (fun d => (d, 1%Q)) docs))
       | Raise e => Raise e
       end |}.

End Examples.

(** The documents a, b, c in a store with float distances: the neighbours
    of a's text are [neighbours], cut to the number asked for. *)
Module Examples64.

Definition store_with (neighbours : list (Document * float))
  : Binary64.Chroma :=
  {| Binary64.truth := true;
     Binary64.get := get Examples.store_abc;
     Binary64.similarity_search_with_score := fun text n =>
       if String.eqb text "text of a" then Ok (slice_to n neighbours)
       else Ok [] |}.

Definition searcher_with (neighbours : list (Document * float))
  : Binary64.SimilaritySearcher :=
  Binary64.create_searcher
    {| Binary64.vectorstore := Some (store_with neighbours) |}.

(** The scenario of the three documents, at distances 0.2, 0.8, 1.4. *)
#[local] Set Warnings "-inexact-float".
Definition neighbours_abc : list (Document * float) :=
  [(Examples.docA, 0.2%float); (Examples.docB, 0.8%float);
   (Examples.docC, 1.4%float)].

(** Two neighbours so close to the query that both scores round to 1:
    b at distance 2^-59, c at the smaller distance 2^-60, retrieved in
    this order. *)
Definition neighbours_close : list (Document * float) :=
  [(Examples.docA, 0%float); (Examples.docB, 0x1p-59%float);
   (Examples.docC, 0x1p-60%float)].

(** A distance just below 0, -2^-23, as the rounding of [1 - cos] leaves
    it for a neighbour with the direction of the query. *)
Definition neighbours_negative : list (Document * float) :=
  [(Examples.docA, 0%float); (Examples.docB, (-0x1p-23)%float)].

End Examples64.

(** ** The store as a service

    The vector store and the embedding provider behind it live outside
    the program. A call on [self.vectorstore] is a request: its answer
    depends on the state of those services when it is made, and it may
    leave them in another state. In this module a method takes the state
    of the world before it runs and returns its result with the state
    after it. The scores are floats. *)

Module Service.

Section Calls.

(** The state of the store and of the provider. *)
Variable World : Type.

(** A reference to a store object, the value of [self.vectorstore]. *)
Variable Store : Type.

(** The requests of the reading methods: the truth value of the store
    object ([if not self.vectorstore]), [vectorstore.get()] and
    [vectorstore.similarity_search_with_score(text, k=n)]. Each answers
    or raises. *)
Variable store_truth : Store -> World -> result bool * World.
Variable store_get : Store -> World -> result GetResult * World.
Variable store_search :
  Store -> string -> Z -> World -> result (list (Document * float)) * World.

(** A computation that makes requests. *)
Definition io (A : Type) : Type := World -> result A * World.

Definition io_ret {A : Type} (a : A) : io A := fun w => (Ok a, w).

Definition io_raise {A : Type} (e : exn) : io A := fun w => (Raise e, w).

Definition io_bind {A B : Type} (m : io A) (f : A -> io B) : io B :=
  fun w =>
    match m w with
    | (Ok a, w') => f a w'
    | (Raise e, w') => (Raise e, w')
    end.

(** A result computed without a request. *)
Definition io_lift {A : Type} (r : result A) : io A := fun w => (r, w).

(** [try: ... except Exception: return d] *)
Definition io_catch {A : Type} (m : io A) (d : A) : World -> A * World :=
  fun w =>
    match m w with
    | (Ok a, w') => (a, w')
    | (Raise _, w') => (d, w')
    end.

Local Notation "x <~ m ;; k" := (io_bind m (fun x => k))
  (at level 100, m at next level, right associativity).

Record EmbeddingsManager : Type := mkManager {
  vectorstore : option Store
}.

Definition search_similar (self : EmbeddingsManager) (query_url : string)
    (k : option Z) : io (list Binary64.Post) :=
  let k := default Config.TOP_K_RESULTS k in
  match vectorstore self with
  | None => io_raise not_initialized
  | Some vs =>
      truthy <~ store_truth vs ;;
      if negb truthy then io_raise not_initialized
      else
        all_docs <~ store_get vs ;;
        query_doc <~ io_lift (resolve all_docs query_url) ;;
        if negb (str_truthy query_doc) then
          io_raise (url_not_found query_url)
        else
          let text := default ""%string query_doc in
          results <~ store_search vs text (k + 1) ;;
          let similar_posts := Binary64.similar_posts_loop query_url results in
          io_ret (slice_to k (Binary64.sort_desc similar_posts))
  end.

Record SimilaritySearcher : Type := mkSearcher {
  embeddings_manager : EmbeddingsManager
}.

Definition find_similar_posts (self : SimilaritySearcher) (query_url : string)
    (top_k : option Z) : World -> list Binary64.Post * World :=
  let top_k := default Config.FINAL_SUGGESTIONS top_k in
  io_catch
    (results <~ search_similar (embeddings_manager self) query_url
                  (Some top_k) ;;
     match results with
     | [] => io_ret []
     | _ => io_ret (Binary64.add_ranks 1 results)
     end)
    [].

(** [self.embeddings_manager.vectorstore.get()] *)
Definition vectorstore_get (self : SimilaritySearcher) : io GetResult :=
  match vectorstore (embeddings_manager self) with
  | None => io_raise AttributeError
  | Some vs => store_get vs
  end.

Definition get_post_context (self : SimilaritySearcher) (url : string)
    (max_chars : option Z) : World -> option string * World :=
  let max_chars := default 500 max_chars in
  io_catch
    (all_docs <~ vectorstore_get self ;;
     match first_match url (metadatas all_docs) 0 with
     | Some i =>
         content <~ io_lift (document_at all_docs i) ;;
         io_ret (Some (snippet content max_chars))
     | None => io_ret None
     end)
    None.

Definition validate_url (self : SimilaritySearcher) (url : string)
  : World -> bool * World :=
  io_catch
    (all_docs <~ vectorstore_get self ;;
     match first_match url (metadatas all_docs) 0 with
     | Some _ => io_ret true
     | None => io_ret false
     end)
    false.

Definition get_all_urls (self : SimilaritySearcher)
  : World -> list string * World :=
  io_catch
    (all_docs <~ vectorstore_get self ;;
     let urls := map (fun md : gmap string string => md !! "url"%string)
                     (metadatas all_docs) in
     io_ret (keep_truthy urls))
    [].

(** *** A session of reading calls *)

Inductive read : Type :=
| FindSimilarPosts (query_url : string) (top_k : option Z)
| GetPostContext (url : string) (max_chars : option Z)
| ValidateUrl (url : string)
| GetAllUrls.

Inductive answer : Type :=
| Posts (l : list Binary64.Post)
| PostContext (c : option string)
| Valid (b : bool)
| Urls (l : list string).

Definition run (self : SimilaritySearcher) (c : read)
  : World -> answer * World :=
  fun w =>
    match c with
    | FindSimilarPosts q k =>
        let (l, w') := find_similar_posts self q k w in (Posts l, w')
    | GetPostContext u n =>
        let (c, w') := get_post_context self u n w in (PostContext c, w')
    | ValidateUrl u =>
        let (b, w') := validate_url self u w in (Valid b, w')
    | GetAllUrls =>
        let (l, w') := get_all_urls self w in (Urls l, w')
    end.

(** The world after a sequence of calls. *)
Definition run_all (self : SimilaritySearcher) (cs : list read) (w : World)
  : World :=
  fold_left (fun w c => snd (run self c w)) cs w.

(** *** What a store is asked to respect

    [contents] is what the store holds, as far as its answers go. A
    request reads when its answer is the same in two states of the world
    that hold the same, and it leaves what the store holds as it was.
    Whatever else a request changes in the world (a cache, a counter, a
    log of the provider) is free. *)
Variable Contents : Type.
Variable contents : World -> Contents.

Definition reads {A : Type} (m : World -> A * World) : Prop :=
  forall w w',
    contents w = contents w' ->
    fst (m w) = fst (m w') /\ contents (snd (m w)) = contents w.

End Calls.

Arguments io_ret {World A} a.
Arguments io_raise {World A} e.
Arguments io_bind {World A B} m f.
Arguments io_lift {World A} r.
Arguments io_catch {World A} m d.
Arguments vectorstore {Store} self : rename.
Arguments embeddings_manager {Store} self : rename.
Arguments search_similar {World Store}.
Arguments find_similar_posts {World Store}.
Arguments vectorstore_get {World Store}.
Arguments get_post_context {World Store}.
Arguments validate_url {World Store}.
Arguments get_all_urls {World Store}.
Arguments run {World Store}.
Arguments run_all {World Store}.
Arguments reads {World Contents} contents {A} m.

End Service.

(** A world for the examples: the neighbours the store answers for the
    text of a, and the number of requests it has served. *)
Module ServiceExamples.

Definition World : Type := list (Document * float) * nat.

Definition served (w : World) : World := (fst w, S (snd w)).

Definition store_truth (vs : unit) (w : World) : result bool * World :=
  (Ok true, served w).

Definition store_get (vs : unit) (w : World) : result GetResult * World :=
  (Ok (get Examples.store_abc), served w).

Definition store_search (vs : unit) (text : string) (n : Z) (w : World)
  : result (list (Document * float)) * World :=
  (if String.eqb text "text of a" then Ok (slice_to n (fst w)) else Ok [],
   served w).

(** A store that is written between any two requests: every request
    served moves the neighbour b further away. *)
Definition drifting_search (vs : unit) (text : string) (n : Z) (w : World)
  : result (list (Document * float)) * World :=
  (Ok [(Examples.docB,
        (PrimFloat.of_uint63 (Uint63.of_Z (Z.of_nat (snd w))) / 16)%float)],
   served w).

Definition searcher : Service.SimilaritySearcher unit :=
  {| Service.embeddings_manager := {| Service.vectorstore := Some tt |} |}.

End ServiceExamples.


(** ** More of the code: loading, enrichment, scraping, the page

    The rest of [utils/embeddings.py], [utils/llm_processor.py],
    [utils/scraper.py] and the search handler of [app.py]. A Python [str]
    is a list of characters with code points below 256. Whatever belongs to
    a library (the persisted collection, the language model, the prompt
    templates, the crawler, the sitemap request) is a variable of the
    section that uses it. *)

Module ScraperConfig.
Definition MAX_CONTENT_LENGTH : Z := 10000.
Definition MAX_CONCURRENT_REQUESTS : Z := 5.
End ScraperConfig.

(** *** Strings *)

(** [c.isspace()] for a code point below 256. *)
Definition is_space (c : Ascii.ascii) : bool :=
  let n := Ascii.nat_of_ascii c in
  (((9 <=? n) && (n <=? 13)) || ((28 <=? n) && (n <=? 32))
   || (n =? 133) || (n =? 160))%nat.

Fixpoint lstrip_with (p : Ascii.ascii -> bool) (s : string) : string :=
  match s with
  | EmptyString => EmptyString
  | String c s' => if p c then lstrip_with p s' else s
  end.

Fixpoint rstrip_with (p : Ascii.ascii -> bool) (s : string) : string :=
  match s with
  | EmptyString => EmptyString
  | String c s' =>
      match rstrip_with p s' with
      | EmptyString => if p c then EmptyString else String c EmptyString
      | r => String c r
      end
  end.

(** [s.strip()] *)
Definition strip (s : string) : string :=
  rstrip_with is_space (lstrip_with is_space s).

(** [s.strip(c)] for a one-character argument. *)
Definition strip_char (c : Ascii.ascii) (s : string) : string :=
  rstrip_with (Ascii.eqb c) (lstrip_with (Ascii.eqb c) s).

Definition double_quote : Ascii.ascii := Ascii.ascii_of_nat 34.
Definition single_quote : Ascii.ascii := Ascii.ascii_of_nat 39.

(** First and last character of a string. *)
Definition first_char (s : string) : option Ascii.ascii :=
  match s with
  | EmptyString => None
  | String c _ => Some c
  end.

Fixpoint last_char (s : string) : option Ascii.ascii :=
  match s with
  | EmptyString => None
  | String c EmptyString => Some c
  | String _ s' => last_char s'
  end.

(** Truth value of a string. *)
Definition nonempty (s : string) : bool := negb (String.eqb s "").

(** [u in urls] *)
Definition elem (u : string) (urls : list string) : bool :=
  existsb (String.eqb u) urls.

(** *** [load_vectorstore], [get_or_create_vectorstore],
        [initialize_database] *)

Definition no_vectorstore : exn :=
  ValueError
    "No existing vectorstore found and no posts provided to create one".

(** Truth value of [None] or a store object. *)
Definition store_truthy (v : option Chroma) : bool :=
  match v with
  | None => false
  | Some vs => truth vs
  end.

(** Truth value of [None] or a list. *)
Definition posts_truthy (posts : option (list ScrapedPost)) : bool :=
  match posts with
  | Some (_ :: _) => true
  | _ => false
  end.

Section Persistence.

Variable from_documents : list Document -> Chroma.
Variable add_documents : Chroma -> list Document -> Chroma.

(** [Chroma(persist_directory=..., ...)]: the persisted collection, or the
    exception the constructor raises. *)
Variable open_collection : result Chroma.

(** [vs._collection.count()] *)
Variable collection_count : Chroma -> result Z.

(** Returns the value of [load_vectorstore] and the manager afterwards:
    [self.vectorstore] is assigned as soon as the constructor returns, also
    when the method then answers [None]. *)
Definition load_vectorstore (self : EmbeddingsManager)
  : option Chroma * EmbeddingsManager :=
  match open_collection with
  | Raise _ => (None, self)
  | Ok vs =>
      let self' := {| vectorstore := Some vs |} in
      match collection_count vs with
      | Raise _ => (None, self')
      | Ok count => if count >? 0 then (Some vs, self') else (None, self')
      end
  end.

Definition get_or_create_vectorstore (self : EmbeddingsManager)
    (posts : option (list ScrapedPost))
  : result (option Chroma) * EmbeddingsManager :=
  let (existing, self1) := load_vectorstore self in
  if store_truthy existing then (Ok existing, self1)
  else if posts_truthy posts then
    let self2 :=
      build_vectorstore from_documents add_documents self1
        (default [] posts) true in
    (Ok (vectorstore self2), self2)
  else (Raise no_vectorstore, self1).

Definition initialize_database (posts : option (list ScrapedPost))
    (force_rebuild : bool) : result EmbeddingsManager :=
  let manager := {| vectorstore := None |} in
  if force_rebuild && posts_truthy posts then
    Ok (build_vectorstore from_documents add_documents manager
          (default [] posts) true)
  else
    match get_or_create_vectorstore manager posts with
    | (Ok _, manager') => Ok manager'
    | (Raise e, _) => Raise e
    end.

End Persistence.

(** *** [LLMProcessor] *)

(** [similar_post.copy()] with the keys ['reason'] and ['anchor_text']
    added. *)
Record Suggestion : Type := mkSuggestion {
  post : Post;
  reason : string;
  anchor_text : option string
}.

Definition fallback_reason : string :=
  "These posts cover related topics and would benefit from internal linking.".

(** What [process_all_suggestions] can end with. *)
Inductive outcome (A : Type) : Type :=
| Returned (a : A)
| TypeError.
Arguments Returned {A} a.
Arguments TypeError {A}.

Section Enrichment.

(** [self.reason_prompt.format(...)], [self.anchor_prompt.format(...)] and
    [self.llm.invoke(prompt).content]; each may raise. A title read from a
    result dict may be [None]. *)
Variable reason_prompt_format :
  string -> string -> option string -> string -> result string.
Variable anchor_prompt_format : string -> option string -> result string.
Variable llm_invoke : string -> result string.

Definition generate_reason (target_title target_excerpt : string)
    (similar_title : option string) (similar_excerpt : string) : string :=
  let body :=
    formatted_prompt <-
      reason_prompt_format target_title target_excerpt
        similar_title similar_excerpt ;;
    content <- llm_invoke formatted_prompt ;;
    Ok (strip content) in
  match body with
  | Ok reason => reason
  | Raise _ => fallback_reason
  end.

Definition generate_anchor_text (target_context : string)
    (similar_title : option string) : option string :=
  let body :=
    formatted_prompt <- anchor_prompt_format target_context similar_title ;;
    content <- llm_invoke formatted_prompt ;;
    let anchor_text := strip content in
    Ok (strip_char single_quote (strip_char double_quote anchor_text)) in
  match body with
  | Ok anchor_text => Some anchor_text
  | Raise _ => similar_title
  end.

(** [target_post] is a dict of strings read with [.get(key, '')];
    [similar_post] is a result dict of the search, whose keys are all
    present. *)
Definition process_similar_post (target_post : gmap string string)
    (similar_post : Post) : Suggestion :=
  let target_excerpt :=
    str_slice_to 300 (default ""%string (target_post !! "content"%string)) in
  let similar_excerpt := str_slice_to 300 (content similar_post) in
  let reason :=
    generate_reason (default ""%string (target_post !! "title"%string))
      target_excerpt (title similar_post) similar_excerpt in
  let anchor_text := generate_anchor_text target_excerpt (title similar_post) in
  {| post := similar_post; reason := reason; anchor_text := anchor_text |}.

(** The loop of [process_all_suggestions]. The progress line slices the
    title, [similar_post.get('title', 'Unknown')[:50]], which raises
    [TypeError] for a title that is [None]. *)
Fixpoint process_all_suggestions (target_post : gmap string string)
    (similar_posts : list Post) : outcome (list Suggestion) :=
  match similar_posts with
  | [] => Returned []
  | similar_post :: rest =>
      match title similar_post with
      | None => TypeError
      | Some _ =>
          let enhanced := process_similar_post target_post similar_post in
          match process_all_suggestions target_post rest with
          | Returned enhanced_results => Returned (enhanced :: enhanced_results)
          | TypeError => TypeError
          end
      end
  end.

(** *** The search handler of [app.py]

    What the page shows after the button is pressed, for the manager of
    the session and the text of the input field. *)
Inductive page : Type :=
| EnterUrl
| UrlNotFound (available : list string) (more : option Z)
| NoSimilarPosts
| Suggestions (enhanced_results : list Suggestion)
| Uncaught.

(** [for metadata in metadatas: if metadata.get('url') == url_input:
    target_title = metadata.get('title'); break] *)
Fixpoint target_title_of (url_input : string)
    (mds : list (gmap string string)) : option string :=
  match mds with
  | [] => None
  | md :: rest =>
      if url_is md url_input then md !! "title"%string
      else target_title_of url_input rest
  end.

(** [x or y] for an optional string and a string. *)
Definition or_else (x : option string) (y : string) : string :=
  if str_truthy x then default ""%string x else y.

Definition find_button (manager : EmbeddingsManager) (url_input : string)
  : page :=
  let searcher := create_searcher manager in
  let all_urls := get_all_urls searcher in
  if negb (nonempty url_input) then EnterUrl
  else if negb (elem url_input all_urls) then
    UrlNotFound (slice_to 10 all_urls)
      (if Z.of_nat (length all_urls) >? 10
       then Some (Z.of_nat (length all_urls) - 10) else None)
  else
    let similar_posts := find_similar_posts searcher url_input None in
    match similar_posts with
    | [] => NoSimilarPosts
    | _ =>
        let target_context := get_post_context searcher url_input None in
        match vectorstore manager with
        | None => Uncaught
        | Some vs =>
            let target_title := target_title_of url_input (metadatas (get vs)) in
            let target_post : gmap string string :=
              <["title"%string := or_else target_title url_input]>
              (<["content"%string := or_else target_context ""]> ∅) in
            match process_all_suggestions target_post similar_posts with
            | Returned enhanced_results => Suggestions enhanced_results
            | TypeError => Uncaught
            end
        end
    end.

End Enrichment.

(** *** [BlogScraper] *)

(** What the crawler's result object offers of what the code reads:
    [result.success], [result.metadata] (a dict whose values may be
    [None], or [None] itself) and [result.markdown] (a string or [None]).
    The class of the result ([CrawlResult] of crawl4ai) declares no
    attribute [title]. *)
Record CrawlResult : Type := mkCrawlResult {
  success : bool;
  crawl_metadata : option (gmap string (option string));
  markdown : option string
}.

(** [result.title]: reading an attribute the class does not declare raises
    [AttributeError]. *)
Definition crawl_title (r : CrawlResult) : result (option string) :=
  Raise AttributeError.

(** [result.metadata.get('title', '').strip() or result.title or
    "Untitled"]. [.get] on [None] and [.strip()] on [None] raise
    [AttributeError]; when the stripped title is empty, [or] goes on to
    read [result.title]. *)
Definition extract_title (r : CrawlResult) : result string :=
  match crawl_metadata r with
  | None => Raise AttributeError
  | Some md =>
      match md !! "title"%string with
      | Some None => Raise AttributeError
      | t =>
          let stripped := strip (default ""%string (default None t)) in
          if nonempty stripped then Ok stripped
          else
            title <- crawl_title r ;;
            if str_truthy title then Ok (default ""%string title)
            else Ok "Untitled"%string
      end
  end.

(** [content = result.markdown.strip()], cut to [max_content_length];
    [.strip()] on [None] raises [AttributeError]. *)
Definition extract_content (r : CrawlResult) : result string :=
  match markdown r with
  | None => Raise AttributeError
  | Some text =>
      let content := strip text in
      if len content >? ScraperConfig.MAX_CONTENT_LENGTH
      then Ok (str_slice_to ScraperConfig.MAX_CONTENT_LENGTH content)
      else Ok content
  end.

(** [peak_memory] after [log_memory] reads [current_mem]. *)
Definition log_memory (peak_memory current_mem : Z) : Z :=
  if current_mem >? peak_memory then current_mem else peak_memory.

Section Scraper.

(** [crawler.arun(url=url, config=..., session_id=f"blog_session_{n}")]
    as [asyncio.gather(..., return_exceptions=True)] hands it back: a
    result or the exception of the task. *)
Variable arun : string -> Z -> result CrawlResult.

(** The request for the sitemap and its parse: the texts of the [<loc>]
    elements in document order, or the exception raised on the way. *)
Variable sitemap_locs : result (list (option string)).

Definition fetch_sitemap_urls : list string :=
  match sitemap_locs with
  | Ok locs => keep_truthy locs
  | Raise _ => []
  end.

(** The loop over the results of one batch; [n] is [i + j], the number in
    the session id of the first url. Appends to [results]; an exception of
    the extraction leaves the method. *)
Fixpoint process_batch (batch : list string) (n : Z)
    (results : list ScrapedPost) : result (list ScrapedPost) :=
  match batch with
  | [] => Ok results
  | url :: rest =>
      match arun url n with
      | Raise _ => process_batch rest (n + 1) results
      | Ok r =>
          if success r then
            title <- extract_title r ;;
            content <- extract_content r ;;
            process_batch rest (n + 1)
              (results ++ [{| post_url := url; post_title := title;
                              post_content := content |}])
          else process_batch rest (n + 1) results
      end
  end.

(** The loop over the batches, [i] the index of the first url of the
    batch. *)
Fixpoint scrape_batches (bs : list (list string)) (i : Z)
    (results : list ScrapedPost) : result (list ScrapedPost) :=
  match bs with
  | [] => Ok results
  | batch :: rest =>
      results' <- process_batch batch i results ;;
      scrape_batches rest (i + ScraperConfig.MAX_CONCURRENT_REQUESTS) results'
  end.

Definition scrape_all (urls : list string) : result (list ScrapedPost) :=
  scrape_batches
    (batches (length urls) (Z.to_nat ScraperConfig.MAX_CONCURRENT_REQUESTS) urls)
    0 [].

Definition scrape_all_posts : result (list ScrapedPost) :=
  let urls := fetch_sitemap_urls in
  match urls with
  | [] => Ok []
  | _ => scrape_all urls
  end.

End Scraper.

(** *** What the round trips ask of the store *)

(** The records a list of documents adds to the full scan. *)
Definition records (docs : list Document) : GetResult :=
  {| metadatas := map metadata docs; documents := map page_content docs |}.

(** The two writing operations keep what they are given: the full scan of
    a store lists the documents written to it, in the order of writing. *)
Definition keeps_documents (from_documents : list Document -> Chroma)
    (add_documents : Chroma -> list Document -> Chroma) : Prop :=
  (forall docs, get (from_documents docs) = records docs)
  /\ (forall vs docs,
        get (add_documents vs docs) =
        {| metadatas := metadatas (get vs) ++ map metadata docs;
           documents := documents (get vs) ++ map page_content docs |}).

(** [add_documents] alone: the full scan afterwards lists the records of
    the store, then the documents added. *)
Definition appends_documents
    (add_documents : Chroma -> list Document -> Chroma) : Prop :=
  forall vs docs,
    get (add_documents vs docs) =
    {| metadatas := metadatas (get vs) ++ map metadata docs;
       documents := documents (get vs) ++ map page_content docs |}.

(** [Chroma.from_documents(documents=..., persist_directory=...,
    collection_name=...)], called with the directory and the collection
    name of the configuration, opens that collection, creating it when
    the directory holds none, and adds the documents to it: the store it
    returns lists what the collection held, then the documents.
    [persisted] is the full scan of the collection before the call, empty
    for a new directory. Nothing is asked for an empty list of documents,
    which the library refuses. *)
Definition adds_to_collection (persisted : GetResult)
    (from_documents : list Document -> Chroma) : Prop :=
  forall docs, docs <> [] ->
    get (from_documents docs) =
    {| metadatas := metadatas persisted ++ map metadata docs;
       documents := documents persisted ++ map page_content docs |}.

(** The first post of a list with the url [u]. *)
Fixpoint first_post (u : string) (posts : list ScrapedPost)
  : option ScrapedPost :=
  match posts with
  | [] => None
  | p :: rest => if String.eqb (post_url p) u then Some p else first_post u rest
  end.

(** The text embedded for a post. *)
Definition post_text (p : ScrapedPost) : string :=
  post_title p +:+ newline +:+ newline +:+ post_content p.

(** *** Example inputs for the rest of the code *)

Module MoreExamples.

Definition post_a : ScrapedPost :=
  {| post_url := "a"; post_title := "A"; post_content := "first text" |}.
Definition post_b : ScrapedPost :=
  {| post_url := "b"; post_title := "B"; post_content := "other text" |}.

(** The post a scraped again, with a new content. *)
Definition post_a_again : ScrapedPost :=
  {| post_url := "a"; post_title := "A"; post_content := "second text" |}.

(** A store built from the posts a and b. *)
Definition store_ab : Chroma :=
  Examples.store_of (create_documents [post_a; post_b]).

(** [from_documents] over a directory whose collection holds the documents
    [old]. *)
Definition from_documents_into (old docs : list Document) : Chroma :=
  Examples.store_of (old ++ docs).

(** A crawler for six urls: u2 raises, u3 comes back without success,
    u4 succeeds with a metadata dict that has no title, the others succeed
    with a title and a body wrapped in blanks. *)
Definition crawl_result (t body : string) : CrawlResult :=
  {| success := true;
     crawl_metadata := Some (<["title"%string := Some t]> ∅);
     markdown := Some body |}.

Definition arun_ex (url : string) (n : Z) : result CrawlResult :=
  if String.eqb url "u2" then Raise (StoreError "timeout")
  else if String.eqb url "u3" then
    Ok {| success := false; crawl_metadata := None; markdown := None |}
  else if String.eqb url "u4" then
    Ok {| success := true; crawl_metadata := Some ∅;
          markdown := Some "body four"%string |}
  else Ok (crawl_result (" Title of " +:+ url +:+ " ") "  some body  ").

End MoreExamples.

(** ** Facts about the helpers *)

Section Helpers.

Local Open Scope Q_scope.

(** The dict before the key ['rank'] was added. *)
Definition clear_rank (r : Post) : Post :=
  {| url := url r; title := title r; content := content r;
     similarity := similarity r; rank := None |}.

Lemma Qle_bool_false (x y : Q) : Qle_bool x y = false -> y < x.
Proof.
  intros H. apply Qnot_le_lt. intros Hle.
  apply Qle_bool_iff in Hle. congruence.
Qed.

Lemma insert_desc_In (x y : Post) (l : list Post) :
  In y (insert_desc x l) <-> y = x \/ In y l.
Proof.
  induction l as [|z l IH]; simpl.
  - intuition.
  - destruct (Qle_bool (similarity z) (similarity x)); simpl.
    + intuition.
    + rewrite IH. intuition.
Qed.

Lemma sort_desc_In (y : Post) (l : list Post) :
  In y (sort_desc l) <-> In y l.
Proof.
  induction l as [|x l IH]; simpl; [tauto|].
  rewrite insert_desc_In, IH. intuition.
Qed.

Lemma sort_desc_incl (y : Post) (l : list Post) :
  In y (sort_desc l) -> In y l.
Proof. apply sort_desc_In. Qed.

Lemma insert_desc_length (x : Post) (l : list Post) :
  length (insert_desc x l) = S (length l).
Proof.
  induction l as [|z l IH]; simpl; auto.
  destruct (Qle_bool (similarity z) (similarity x)); simpl; auto.
Qed.

Lemma sort_desc_length (l : list Post) : length (sort_desc l) = length l.
Proof.
  induction l as [|x l IH]; simpl; auto.
  rewrite insert_desc_length. auto.
Qed.

(** *** Slices *)

Lemma slice_to_firstn {A : Type} (k : Z) (l : list A) :
  exists n, slice_to k l = firstn n l /\ ((0 <= k)%Z -> n = Z.to_nat k).
Proof.
  unfold slice_to. destruct (0 <=? k)%Z eqn:E.
  - exists (Z.to_nat k). auto.
  - exists (length l - Z.to_nat (- k))%nat. split; [reflexivity|].
    intros H. apply Z.leb_gt in E. lia.
Qed.

Lemma firstn_incl {A : Type} (n : nat) (l : list A) (x : A) :
  In x (firstn n l) -> In x l.
Proof.
  intros H. rewrite <- (firstn_skipn n l). apply in_or_app. auto.
Qed.

Lemma slice_to_incl {A : Type} (k : Z) (l : list A) (x : A) :
  In x (slice_to k l) -> In x l.
Proof.
  destruct (slice_to_firstn k l) as (n & -> & _). apply firstn_incl.
Qed.

Lemma slice_to_all {A : Type} (k : Z) (l : list A) :
  (Z.of_nat (length l) <= k)%Z -> slice_to k l = l.
Proof.
  intros H. unfold slice_to.
  destruct (0 <=? k)%Z eqn:E; [|apply Z.leb_gt in E; lia].
  apply firstn_all2. lia.
Qed.

Lemma slice_to_length {A : Type} (k : Z) (l : list A) :
  (0 <= k)%Z -> (Z.of_nat (length (slice_to k l)) <= k)%Z.
Proof.
  intros H. destruct (slice_to_firstn k l) as (n & -> & Hn).
  rewrite (Hn H), length_firstn. lia.
Qed.

(** *** Strings *)

Lemma substring_prefix (n : nat) (s : string) :
  (n <= String.length s)%nat ->
  exists tail,
    s = String.substring 0 n s +:+ tail /\
    String.length (String.substring 0 n s) = n.
Proof.
  revert s. induction n as [|n IH]; intros s H.
  - exists s. destruct s; split; reflexivity.
  - destruct s as [|c s]; simpl in H; [lia|].
    destruct (IH s) as (tail & Ht & Hl); [lia|].
    exists tail. simpl. rewrite Hl. split; [|reflexivity].
    change (String c s = String c (String.substring 0 n s +:+ tail)).
    f_equal. exact Ht.
Qed.

(** *** Ranks *)

Lemma add_ranks_lookup (l : list Post) (i : Z) (j : nat) (r : Post) :
  add_ranks i l !! j = Some r ->
  exists r0, l !! j = Some r0 /\ r = set_rank (i + Z.of_nat j) r0.
Proof.
  revert i j. induction l as [|x l IH]; intros i j H; [discriminate|].
  destruct j as [|j]; simpl in H.
  - injection H as <-. exists x. split; [reflexivity|].
    f_equal. lia.
  - apply IH in H. destruct H as (r0 & H0 & ->).
    exists r0. split; [assumption|]. f_equal. lia.
Qed.

Lemma add_ranks_length (l : list Post) (i : Z) :
  length (add_ranks i l) = length l.
Proof. revert i. induction l; intros; simpl; auto. Qed.

Lemma add_ranks_In (l : list Post) (i : Z) (r : Post) :
  In r (add_ranks i l) -> exists r0 j, In r0 l /\ r = set_rank j r0.
Proof.
  revert i. induction l as [|x l IH]; intros i H; [destruct H|].
  destruct H as [<-|H].
  - exists x, i. simpl. auto.
  - apply IH in H. destruct H as (r0 & j & H0 & ->).
    exists r0, j. simpl. auto.
Qed.

Lemma add_ranks_clear (l : list Post) (i : Z) :
  map clear_rank (add_ranks i l) = map clear_rank l.
Proof. revert i. induction l as [|x l IH]; intros; simpl; [|rewrite IH]; reflexivity. Qed.

(** *** The loop over the neighbours *)

Lemma similar_posts_loop_In (q : string) (results : list (Document * Q))
    (r : Post) :
  In r (similar_posts_loop q results) <->
  exists doc score,
    In (doc, score) results /\ url_is (metadata doc) q = false /\
    Config.MIN_SIMILARITY_THRESHOLD <= to_similarity score /\
    r = post_of doc score.
Proof.
  induction results as [|[doc score] rest IH]; simpl.
  - split; [tauto|]. intros (? & ? & [] & _).
  - destruct (url_is (metadata doc) q) eqn:Eu.
    + rewrite IH. split.
      * intros (d & sc & H & ?). exists d, sc. auto.
      * intros (d & sc & [H|H] & Hu & ?); [congruence|]. exists d, sc. auto.
    + destruct (Qle_bool _ _) eqn:Et.
      * apply Qle_bool_iff in Et. simpl. rewrite IH. split.
        -- intros [<-|(d & sc & H & ?)].
           ++ exists doc, score. auto.
           ++ exists d, sc. auto.
        -- intros (d & sc & [H|H] & Hu & Hs & ->).
           ++ injection H as -> ->. left. reflexivity.
           ++ right. exists d, sc. auto.
      * apply Qle_bool_false in Et. rewrite IH. split.
        -- intros (d & sc & H & ?). exists d, sc. auto.
        -- intros (d & sc & [H|H] & Hu & Hs & ->).
           ++ injection H as -> ->. exfalso.
              eapply Qlt_irrefl, Qlt_le_trans; eassumption.
           ++ exists d, sc. auto.
Qed.

Lemma clear_rank_id (l : list Post) :
  (forall r, In r l -> rank r = None) -> map clear_rank l = l.
Proof.
  induction l as [|x l IH]; intros H; [reflexivity|].
  simpl. rewrite IH by (intros; apply H; simpl; auto).
  f_equal. destruct x as [u t c sc rk]. unfold clear_rank. simpl.
  f_equal. symmetry. apply (H (mkPost u t c sc rk)). simpl. auto.
Qed.

Lemma similar_posts_loop_unranked (q : string)
    (results : list (Document * Q)) (r : Post) :
  In r (similar_posts_loop q results) -> rank r = None.
Proof.
  intros H. apply similar_posts_loop_In in H.
  destruct H as (doc & score & _ & _ & _ & ->). reflexivity.
Qed.

(** *** The scan for a url *)

Lemma first_match_Some (u : string) (mds : list (gmap string string)) (i : nat) :
  (exists j, first_match u mds i = Some j) <->
  exists md, In md mds /\ md !! "url"%string = Some u.
Proof.
  revert i. induction mds as [|md mds IH]; intros i; simpl.
  - split; [intros (j & H); discriminate | intros (md & [] & _)].
  - unfold url_is. destruct (bool_decide _) eqn:E.
    + apply bool_decide_eq_true in E. split; [|eauto].
      intros _. exists md. auto.
    + apply bool_decide_eq_false in E. rewrite IH. split.
      * intros (md' & H & Hu). exists md'. auto.
      * intros (md' & [<-|H] & Hu); [contradiction|]. exists md'. auto.
Qed.

Lemma keep_truthy_In (u : string) (mds : list (gmap string string)) :
  In u (keep_truthy
          (map (fun md : gmap string string => md !! "url"%string) mds)) <->
  u <> ""%string /\ exists md, In md mds /\ md !! "url"%string = Some u.
Proof.
  induction mds as [|md mds IH]; simpl.
  - split; [tauto | intros (_ & md & [] & _)].
  - destruct (md !! "url"%string) as [v|] eqn:Ev; simpl.
    + destruct (String.eqb v "") eqn:E; simpl.
      * apply String.eqb_eq in E. subst v. rewrite IH. split.
        -- intros (Hne & md' & H & Hu). split; [exact Hne|]. exists md'. auto.
        -- intros (Hne & md' & [<-|H] & Hu).
           ++ rewrite Ev in Hu. injection Hu as <-. contradiction.
           ++ split; [exact Hne|]. exists md'. auto.
      * apply String.eqb_neq in E. rewrite IH. split.
        -- intros [<-|(Hne & md' & H & Hu)].
           ++ split; [exact E|]. exists md. auto.
           ++ split; [exact Hne|]. exists md'. auto.
        -- intros (Hne & md' & [<-|H] & Hu).
           ++ rewrite Ev in Hu. injection Hu as <-. left. reflexivity.
           ++ right. split; [exact Hne|]. exists md'. auto.
    + rewrite IH. split.
      * intros (Hne & md' & H & Hu). split; [exact Hne|]. exists md'. auto.
      * intros (Hne & md' & [<-|H] & Hu); [congruence|].
        split; [exact Hne|]. exists md'. auto.
Qed.

(** *** The two entry points, read backwards *)

(** A list comes out of [search_similar] only along one path. *)
Lemma search_similar_Ok (self : EmbeddingsManager) (q : string)
    (k : option Z) (out : list Post) :
  search_similar self q k = Ok out ->
  exists vs text results,
    vectorstore self = Some vs /\ truth vs = true /\
    resolve (get vs) q = Ok (Some text) /\ text <> ""%string /\
    similarity_search_with_score vs text
      (default Config.TOP_K_RESULTS k + 1) = Ok results /\
    out = slice_to (default Config.TOP_K_RESULTS k)
            (sort_desc (similar_posts_loop q results)).
Proof.
  unfold search_similar. intros H.
  destruct (vectorstore self) as [vs|]; [|discriminate].
  destruct (truth vs) eqn:Ev; [|discriminate]. simpl in H.
  destruct (resolve (get vs) q) as [[text|]|e] eqn:Er; simpl in H;
    try discriminate.
  destruct (String.eqb text "") eqn:Et; simpl in H; [discriminate|].
  destruct (similarity_search_with_score vs text _) as [results|e] eqn:Es;
    simpl in H; [|discriminate].
  injection H as <-.
  exists vs, text, results. repeat split; try assumption; try reflexivity.
  intros ->. rewrite String.eqb_refl in Et. discriminate.
Qed.

(** The same path, read forwards. *)
Lemma search_similar_run (self : EmbeddingsManager) (q : string)
    (k : option Z) (vs : Chroma) (text : string) :
  vectorstore self = Some vs -> truth vs = true ->
  resolve (get vs) q = Ok (Some text) -> text <> ""%string ->
  search_similar self q k =
    (results <- similarity_search_with_score vs text
                  (default Config.TOP_K_RESULTS k + 1) ;;
     Ok (slice_to (default Config.TOP_K_RESULTS k)
           (sort_desc (similar_posts_loop q results)))).
Proof.
  intros Hv Ht Hr Hne. unfold search_similar. rewrite Hv, Ht, Hr. simpl.
  destruct (String.eqb text "") eqn:Et; [|reflexivity].
  apply String.eqb_eq in Et. contradiction.
Qed.

(** [find_similar_posts] ranks what [search_similar] returns and turns
    every exception into the empty list. *)
Lemma find_similar_posts_eq (self : SimilaritySearcher) (q : string)
    (top_k : option Z) :
  find_similar_posts self q top_k =
    match search_similar (embeddings_manager self) q
            (Some (default Config.FINAL_SUGGESTIONS top_k)) with
    | Ok results => add_ranks 1 results
    | Raise _ => []
    end.
Proof.
  unfold find_similar_posts.
  destruct (search_similar _ _ _) as [[|r l]|[]]; reflexivity.
Qed.

End Helpers.

(** ** Facts about the search in binary64 *)

Section FloatOrder.

(** *** The order of the floats

    [PrimFloat.leb], [ltb] and [eqb] are Python's [<=], [<] and [==] on
    floats. Their specification compares the sign, the exponent and the
    mantissa; a comparison with a NaN is false. *)

Ltac cmp_cases :=
  repeat match goal with
  | H : context [(?a ?= ?b)%Z] |- _ => destruct (Z.compare_spec a b)
  | |- context [(?a ?= ?b)%Z] => destruct (Z.compare_spec a b)
  | H : context [PosDef.Pos.compare_cont Eq ?a ?b] |- _ =>
      change (PosDef.Pos.compare_cont Eq a b) with (Pos.compare a b) in *;
      destruct (Pos.compare_spec a b)
  | |- context [PosDef.Pos.compare_cont Eq ?a ?b] =>
      change (PosDef.Pos.compare_cont Eq a b) with (Pos.compare a b) in *;
      destruct (Pos.compare_spec a b)
  end.

Ltac sf_cases :=
  repeat match goal with s : bool |- _ => destruct s end;
  simpl; try reflexivity; try discriminate;
  cmp_cases; simpl; intros; subst;
  try reflexivity; try discriminate; try lia.

Lemma SFleb_trans (a b c : spec_float) :
  SFleb a b = true -> SFleb b c = true -> SFleb a c = true.
Proof.
  unfold SFleb, SFcompare.
  destruct a as [sa|sa| |sa ma ea], b as [sb|sb| |sb mb eb],
    c as [sc|sc| |sc mc ec]; sf_cases.
Qed.

Lemma SFleb_total (a b : spec_float) :
  SFleb a a = true -> SFleb b b = true -> SFleb a b = false ->
  SFleb b a = true.
Proof.
  unfold SFleb, SFcompare.
  destruct a as [sa|sa| |sa ma ea], b as [sb|sb| |sb mb eb]; sf_cases.
Qed.

Lemma SFleb_comparable (a b : spec_float) :
  SFleb a b = true -> SFleb a a = true /\ SFleb b b = true.
Proof.
  unfold SFleb, SFcompare.
  destruct a as [sa|sa| |sa ma ea], b as [sb|sb| |sb mb eb];
    repeat match goal with s : bool |- _ => destruct s end;
    simpl; try discriminate; intros _; split; try reflexivity;
    rewrite ?Z.compare_refl;
    change (PosDef.Pos.compare_cont Eq ?a ?a) with (Pos.compare a a);
    rewrite ?Pos.compare_refl; reflexivity.
Qed.

Lemma SFeqb_leb (a b : spec_float) :
  SFeqb a b = true -> SFleb a b = true /\ SFleb b a = true.
Proof.
  unfold SFeqb, SFleb, SFcompare.
  destruct a as [sa|sa| |sa ma ea], b as [sb|sb| |sb mb eb];
    repeat match goal with s : bool |- _ => destruct s end;
    simpl; try discriminate; try (intros _; split; reflexivity);
    cmp_cases; simpl; intros; subst; try discriminate;
    try (split; reflexivity); try lia.
Qed.

Lemma SFltb_leb (a b : spec_float) :
  SFltb a b = true -> SFleb b a = false.
Proof.
  unfold SFltb, SFleb, SFcompare.
  destruct a as [sa|sa| |sa ma ea], b as [sb|sb| |sb mb eb]; sf_cases.
Qed.

Lemma float_leb_trans (x y z : float) :
  PrimFloat.leb x y = true -> PrimFloat.leb y z = true ->
  PrimFloat.leb x z = true.
Proof. rewrite !FloatAxioms.leb_spec. apply SFleb_trans. Qed.

(** Two floats that are not NaN are comparable. *)
Lemma float_leb_total (x y : float) :
  PrimFloat.leb x x = true -> PrimFloat.leb y y = true ->
  PrimFloat.leb x y = false -> PrimFloat.leb y x = true.
Proof. rewrite !FloatAxioms.leb_spec. apply SFleb_total. Qed.

(** A float that compares with another is not a NaN. *)
Lemma float_leb_comparable (x y : float) :
  PrimFloat.leb x y = true ->
  PrimFloat.leb x x = true /\ PrimFloat.leb y y = true.
Proof. rewrite !FloatAxioms.leb_spec. apply SFleb_comparable. Qed.

Lemma float_eqb_leb (x y : float) :
  PrimFloat.eqb x y = true ->
  PrimFloat.leb x y = true /\ PrimFloat.leb y x = true.
Proof. rewrite FloatAxioms.eqb_spec, !FloatAxioms.leb_spec. apply SFeqb_leb. Qed.

Lemma float_ltb_leb (x y : float) :
  PrimFloat.ltb x y = true -> PrimFloat.leb y x = false.
Proof. rewrite FloatAxioms.ltb_spec, FloatAxioms.leb_spec. apply SFltb_leb. Qed.

End FloatOrder.

Section Binary64Facts.

Import Binary64.

(** *** The sort *)

Lemma insert_desc_In_b64 (x y : Post) (l : list Post) :
  In y (insert_desc x l) <-> y = x \/ In y l.
Proof.
  induction l as [|z l IH]; simpl.
  - intuition.
  - destruct (PrimFloat.leb (similarity z) (similarity x)); simpl.
    + intuition.
    + rewrite IH. intuition.
Qed.

Lemma sort_desc_In_b64 (y : Post) (l : list Post) :
  In y (sort_desc l) <-> In y l.
Proof.
  induction l as [|x l IH]; simpl; [tauto|].
  rewrite insert_desc_In_b64, IH. intuition.
Qed.

Lemma sort_desc_incl_b64 (y : Post) (l : list Post) :
  In y (sort_desc l) -> In y l.
Proof. apply sort_desc_In_b64. Qed.

Lemma insert_desc_length_b64 (x : Post) (l : list Post) :
  length (insert_desc x l) = S (length l).
Proof.
  induction l as [|z l IH]; simpl; auto.
  destruct (PrimFloat.leb (similarity z) (similarity x)); simpl; auto.
Qed.

Lemma sort_desc_length_b64 (l : list Post) :
  length (sort_desc l) = length l.
Proof.
  induction l as [|x l IH]; simpl; auto.
  rewrite insert_desc_length_b64. auto.
Qed.

Lemma insert_desc_perm_b64 (x : Post) (l : list Post) :
  Permutation (x :: l) (insert_desc x l).
Proof.
  induction l as [|y l IH]; simpl; [reflexivity|].
  destruct (PrimFloat.leb (similarity y) (similarity x)); [reflexivity|].
  rewrite <- IH. apply perm_swap.
Qed.

Lemma sort_desc_perm_b64 (l : list Post) : Permutation l (sort_desc l).
Proof.
  induction l as [|x l IH]; simpl; [reflexivity|].
  rewrite <- insert_desc_perm_b64. apply perm_skip, IH.
Qed.

(** Over keys that can be compared, insertion keeps the list sorted. *)
Lemma insert_desc_descending_b64 (x : Post) (l : list Post) :
  comparable x -> Forall comparable l ->
  descending l -> descending (insert_desc x l).
Proof.
  unfold descending, comparable. intros Hx Hl H.
  induction H as [|z l Hs IH Hz]; simpl.
  - repeat constructor.
  - apply List.Forall_cons_iff in Hl. destruct Hl as [Hcz Hl].
    rewrite List.Forall_forall in Hz.
    destruct (PrimFloat.leb (similarity z) (similarity x)) eqn:E.
    + constructor; [constructor; [assumption | apply List.Forall_forall, Hz]|].
      constructor; [assumption|].
      apply List.Forall_forall. intros w Hw.
      eapply float_leb_trans; [apply Hz, Hw | exact E].
    + constructor; [apply IH, Hl|].
      apply List.Forall_forall. intros w Hw.
      apply insert_desc_In_b64 in Hw.
      destruct Hw as [->|Hw]; [|apply Hz, Hw].
      apply float_leb_total; assumption.
Qed.

Lemma sort_desc_descending_b64 (l : list Post) :
  Forall comparable l -> descending (sort_desc l).
Proof.
  induction l as [|x l IH]; simpl; intros H.
  - constructor.
  - apply List.Forall_cons_iff in H. destruct H as [Hx Hl].
    apply insert_desc_descending_b64; [exact Hx | | apply IH, Hl].
    apply List.Forall_forall. intros w Hw.
    rewrite List.Forall_forall in Hl. apply Hl, sort_desc_In_b64, Hw.
Qed.

(** Stability: inserting [x] puts it in front of the entries with its
    score, and moves no other entry across one of equal score. *)
Lemma insert_desc_with_score_b64 (s : float) (x : Post) (l : list Post) :
  with_score s (insert_desc x l) = with_score s (x :: l).
Proof.
  induction l as [|z l IH]; [reflexivity|].
  simpl insert_desc.
  destruct (PrimFloat.leb (similarity z) (similarity x)) eqn:E; [reflexivity|].
  unfold with_score in *. simpl in *. rewrite IH.
  destruct (PrimFloat.eqb (similarity x) s) eqn:Ex; [|reflexivity].
  destruct (PrimFloat.eqb (similarity z) s) eqn:Ez; [|reflexivity].
  apply float_eqb_leb in Ex, Ez. destruct Ex as [_ Hsx], Ez as [Hzs _].
  rewrite (float_leb_trans _ _ _ Hzs Hsx) in E. discriminate.
Qed.

Lemma sort_desc_stable_b64 (s : float) (l : list Post) :
  with_score s (sort_desc l) = with_score s l.
Proof.
  induction l as [|x l IH]; [reflexivity|].
  simpl sort_desc. rewrite insert_desc_with_score_b64.
  unfold with_score in *. simpl. rewrite IH. reflexivity.
Qed.

Lemma firstn_descending_b64 (n : nat) (l : list Post) :
  descending l -> descending (firstn n l).
Proof.
  unfold descending. intros H. revert n.
  induction H as [|z l Hl IH Hz]; intros [|n]; simpl; try constructor.
  - apply IH.
  - rewrite List.Forall_forall in *. intros w Hw.
    apply Hz. eapply firstn_incl, Hw.
Qed.

Lemma firstn_with_score_b64 (s : float) (n : nat) (l : list Post) :
  exists rest, with_score s l = with_score s (firstn n l) ++ rest.
Proof.
  exists (with_score s (skipn n l)). unfold with_score.
  rewrite <- List.filter_app, firstn_skipn. reflexivity.
Qed.

(** *** Ranks *)

Lemma add_ranks_lookup_b64 (l : list Post) (i : Z) (j : nat) (r : Post) :
  add_ranks i l !! j = Some r ->
  exists r0, l !! j = Some r0 /\ r = set_rank (i + Z.of_nat j) r0.
Proof.
  revert i j. induction l as [|x l IH]; intros i j H; [discriminate|].
  destruct j as [|j]; simpl in H.
  - injection H as <-. exists x. split; [reflexivity|].
    f_equal. lia.
  - apply IH in H. destruct H as (r0 & H0 & ->).
    exists r0. split; [assumption|]. f_equal. lia.
Qed.

Lemma add_ranks_length_b64 (l : list Post) (i : Z) :
  length (add_ranks i l) = length l.
Proof. revert i. induction l; intros; simpl; auto. Qed.

Lemma add_ranks_In_b64 (l : list Post) (i : Z) (r : Post) :
  In r (add_ranks i l) -> exists r0 j, In r0 l /\ r = set_rank j r0.
Proof.
  revert i. induction l as [|x l IH]; intros i H; [destruct H|].
  destruct H as [<-|H].
  - exists x, i. simpl. auto.
  - apply IH in H. destruct H as (r0 & j & H0 & ->).
    exists r0, j. simpl. auto.
Qed.

Lemma add_ranks_descending_b64 (l : list Post) (i : Z) :
  descending l -> descending (add_ranks i l).
Proof.
  unfold descending. intros H. revert i.
  induction H as [|z l Hl IH Hz]; intros i; simpl; constructor.
  - apply IH.
  - rewrite List.Forall_forall in *. intros w Hw.
    apply add_ranks_In_b64 in Hw. destruct Hw as (r0 & j & H0 & ->).
    simpl. apply Hz, H0.
Qed.

Lemma add_ranks_clear_b64 (l : list Post) (i : Z) :
  map clear_rank (add_ranks i l) = map clear_rank l.
Proof.
  revert i. induction l as [|x l IH]; intros; simpl; [|rewrite IH];
    reflexivity.
Qed.

Lemma clear_rank_id_b64 (l : list Post) :
  (forall r, In r l -> rank r = None) -> map clear_rank l = l.
Proof.
  induction l as [|x l IH]; intros H; [reflexivity|].
  simpl. rewrite IH by (intros; apply H; simpl; auto).
  f_equal. destruct x as [u t c sc rk]. unfold clear_rank. simpl.
  f_equal. symmetry. apply (H (mkPost u t c sc rk)). simpl. auto.
Qed.

(** *** The loop over the neighbours *)

(** The loop keeps, in the order of the answer, one entry for each
    neighbour that is not the query and passes the threshold. *)
Lemma similar_posts_loop_filter (q : string)
    (results : list (Document * float)) :
  similar_posts_loop q results =
  map (fun p => post_of (fst p) (snd p))
    (List.filter
       (fun p => negb (url_is (metadata (fst p)) q) && passes (snd p))
       results).
Proof.
  induction results as [|[doc score] rest IH]; [reflexivity|].
  simpl. unfold passes.
  destruct (url_is (metadata doc) q); simpl; [exact IH|].
  destruct (PrimFloat.leb _ _); simpl; [f_equal|]; exact IH.
Qed.

Lemma similar_posts_loop_In_b64 (q : string)
    (results : list (Document * float)) (r : Post) :
  In r (similar_posts_loop q results) <->
  exists doc score,
    In (doc, score) results /\ url_is (metadata doc) q = false /\
    passes score = true /\ r = post_of doc score.
Proof.
  rewrite similar_posts_loop_filter, in_map_iff. split.
  - intros ([doc score] & <- & H). apply List.filter_In in H.
    destruct H as [Hin H]. apply andb_prop in H. destruct H as [Hu Hp].
    simpl in *. exists doc, score. repeat split; try assumption.
    destruct (url_is (metadata doc) q); [discriminate | reflexivity].
  - intros (doc & score & Hin & Hu & Hp & ->).
    exists (doc, score). split; [reflexivity|].
    apply List.filter_In. split; [exact Hin|]. simpl. rewrite Hu, Hp.
    reflexivity.
Qed.

Lemma similar_posts_loop_unranked_b64 (q : string)
    (results : list (Document * float)) (r : Post) :
  In r (similar_posts_loop q results) -> rank r = None.
Proof.
  intros H. apply similar_posts_loop_In_b64 in H.
  destruct H as (doc & score & _ & _ & _ & ->). reflexivity.
Qed.

(** Every key of [similar_posts] passed the threshold, so none is a
    NaN. *)
Lemma similar_posts_loop_passed (q : string)
    (results : list (Document * float)) :
  Forall (fun r => PrimFloat.leb MIN_SIMILARITY_THRESHOLD (similarity r) = true)
    (similar_posts_loop q results).
Proof.
  apply List.Forall_forall. intros r H. apply similar_posts_loop_In_b64 in H.
  destruct H as (doc & score & _ & _ & Hp & ->). exact Hp.
Qed.

Lemma similar_posts_loop_comparable (q : string)
    (results : list (Document * float)) :
  Forall comparable (similar_posts_loop q results).
Proof.
  eapply List.Forall_impl; [|apply similar_posts_loop_passed].
  intros r H. apply float_leb_comparable in H. apply H.
Qed.

(** The threshold over floats, as over the rationals: a neighbour other
    than the query has its entry exactly when its score is at least the
    threshold; a score equal to the threshold is kept, a score below it is
    not. *)
Lemma similar_posts_loop_threshold (q : string)
    (results : list (Document * float)) (doc : Document) (d : float) :
  In (doc, d) results -> url_is (metadata doc) q = false ->
  (In (post_of doc d) (similar_posts_loop q results) <->
   PrimFloat.leb 0.5 (to_similarity d) = true)
  /\ (PrimFloat.eqb (to_similarity d) 0.5 = true ->
      In (post_of doc d) (similar_posts_loop q results))
  /\ (PrimFloat.ltb (to_similarity d) 0.5 = true ->
      ~ In (post_of doc d) (similar_posts_loop q results)).
Proof.
  intros Hin Hu.
  assert (Hiff : In (post_of doc d) (similar_posts_loop q results) <->
                 PrimFloat.leb 0.5 (to_similarity d) = true).
  { rewrite similar_posts_loop_In_b64. split.
    - intros (doc' & d' & _ & _ & Hp & Heq).
      apply (f_equal similarity) in Heq. simpl in Heq. rewrite Heq.
      exact Hp.
    - intros Hp. exists doc, d. auto. }
  split; [exact Hiff|]. split.
  - intros He. apply Hiff. apply float_eqb_leb in He. apply He.
  - intros Hl Hk. apply Hiff in Hk. apply float_ltb_leb in Hl. congruence.
Qed.

(** *** The two entry points *)

Lemma search_similar_Ok_b64 (self : EmbeddingsManager) (q : string)
    (k : option Z) (out : list Post) :
  search_similar self q k = Ok out ->
  exists vs text results,
    vectorstore self = Some vs /\ truth vs = true /\
    resolve (get vs) q = Ok (Some text) /\ text <> ""%string /\
    similarity_search_with_score vs text
      (default Config.TOP_K_RESULTS k + 1) = Ok results /\
    out = slice_to (default Config.TOP_K_RESULTS k)
            (sort_desc (similar_posts_loop q results)).
Proof.
  unfold search_similar. intros H.
  destruct (vectorstore self) as [vs|]; [|discriminate].
  destruct (truth vs) eqn:Ev; [|discriminate]. simpl in H.
  destruct (resolve (get vs) q) as [[text|]|e] eqn:Er; simpl in H;
    try discriminate.
  destruct (String.eqb text "") eqn:Et; simpl in H; [discriminate|].
  destruct (similarity_search_with_score vs text _) as [results|e] eqn:Es;
    simpl in H; [|discriminate].
  injection H as <-.
  exists vs, text, results. repeat split; try assumption; try reflexivity.
  intros ->. rewrite String.eqb_refl in Et. discriminate.
Qed.

Lemma search_similar_run_b64 (self : EmbeddingsManager) (q : string)
    (k : option Z) (vs : Chroma) (text : string) :
  vectorstore self = Some vs -> truth vs = true ->
  resolve (get vs) q = Ok (Some text) -> text <> ""%string ->
  search_similar self q k =
    (results <- similarity_search_with_score vs text
                  (default Config.TOP_K_RESULTS k + 1) ;;
     Ok (slice_to (default Config.TOP_K_RESULTS k)
           (sort_desc (similar_posts_loop q results)))).
Proof.
  intros Hv Ht Hr Hne. unfold search_similar. rewrite Hv, Ht, Hr. simpl.
  destruct (String.eqb text "") eqn:Et; [|reflexivity].
  apply String.eqb_eq in Et. contradiction.
Qed.

Lemma find_similar_posts_eq_b64 (self : SimilaritySearcher) (q : string)
    (top_k : option Z) :
  find_similar_posts self q top_k =
    match search_similar (embeddings_manager self) q
            (Some (default Config.FINAL_SUGGESTIONS top_k)) with
    | Ok results => add_ranks 1 results
    | Raise _ => []
    end.
Proof.
  unfold find_similar_posts.
  destruct (search_similar _ _ _) as [[|r l]|[]]; reflexivity.
Qed.

End Binary64Facts.

(** ** Facts about the store as a service *)

Section ServiceFacts.

Variables World Store Contents : Type.
Variable store_truth : Store -> World -> result bool * World.
Variable store_get : Store -> World -> result GetResult * World.
Variable store_search :
  Store -> string -> Z -> World -> result (list (Document * float)) * World.
Variable contents : World -> Contents.

Hypothesis store_truth_reads : forall vs, Service.reads contents (store_truth vs).
Hypothesis store_get_reads : forall vs, Service.reads contents (store_get vs).
Hypothesis store_search_reads :
  forall vs text n, Service.reads contents (store_search vs text n).

Lemma io_ret_reads {A : Type} (a : A) :
  Service.reads contents (Service.io_ret (World := World) a).
Proof. intros w w' H. split; reflexivity. Qed.

Lemma io_raise_reads {A : Type} (e : exn) :
  Service.reads contents (Service.io_raise (World := World) (A := A) e).
Proof. intros w w' H. split; reflexivity. Qed.

Lemma io_lift_reads {A : Type} (r : result A) :
  Service.reads contents (Service.io_lift (World := World) r).
Proof. intros w w' H. split; reflexivity. Qed.

(** Requests that read, made one after the other, read. *)
Lemma io_bind_reads {A B : Type} (m : Service.io World A)
    (f : A -> Service.io World B) :
  Service.reads contents m -> (forall a, Service.reads contents (f a)) ->
  Service.reads contents (Service.io_bind m f).
Proof.
  intros Hm Hf w w' H. unfold Service.io_bind.
  destruct (Hm w w' H) as [H1 H2].
  destruct (Hm w' w (eq_sym H)) as [_ H2'].
  destruct (m w) as [r w1], (m w') as [r' w1']. simpl in *. subst r'.
  destruct r as [a|e]; [|auto].
  destruct (Hf a w1 w1') as [H3 H4]; [congruence|].
  split; [exact H3 | congruence].
Qed.

Lemma io_catch_reads {A : Type} (m : Service.io World A) (d : A) :
  Service.reads contents m -> Service.reads contents (Service.io_catch m d).
Proof.
  intros Hm w w' H. unfold Service.io_catch.
  destruct (Hm w w' H) as [H1 H2].
  destruct (m w) as [r w1], (m w') as [r' w1']. simpl in *. subst r'.
  destruct r; auto.
Qed.

Lemma search_similar_reads (self : Service.EmbeddingsManager Store)
    (q : string) (k : option Z) :
  Service.reads contents
    (Service.search_similar store_truth store_get store_search self q k).
Proof.
  unfold Service.search_similar.
  destruct (Service.vectorstore self) as [vs|]; [|apply io_raise_reads].
  apply io_bind_reads; [apply store_truth_reads|]. intros truthy.
  destruct (negb truthy); [apply io_raise_reads|].
  apply io_bind_reads; [apply store_get_reads|]. intros all_docs.
  apply io_bind_reads; [apply io_lift_reads|]. intros query_doc.
  destruct (negb (str_truthy query_doc)); [apply io_raise_reads|].
  apply io_bind_reads; [apply store_search_reads|]. intros results.
  apply io_ret_reads.
Qed.

Lemma find_similar_posts_reads (self : Service.SimilaritySearcher Store)
    (q : string) (k : option Z) :
  Service.reads contents
    (Service.find_similar_posts store_truth store_get store_search self q k).
Proof.
  unfold Service.find_similar_posts. apply io_catch_reads.
  apply io_bind_reads; [apply search_similar_reads|].
  intros [|r l]; apply io_ret_reads.
Qed.

Lemma vectorstore_get_reads (self : Service.SimilaritySearcher Store) :
  Service.reads contents (Service.vectorstore_get store_get self).
Proof.
  unfold Service.vectorstore_get.
  destruct (Service.vectorstore _); [apply store_get_reads|].
  apply io_raise_reads.
Qed.

Lemma run_reads (self : Service.SimilaritySearcher Store)
    (c : Service.read) :
  Service.reads contents
    (Service.run store_truth store_get store_search self c).
Proof.
  assert (Hwrap : forall (A : Type) (m : World -> A * World)
                         (g : A -> Service.answer),
             Service.reads contents m ->
             Service.reads contents
               (fun w => let (a, w') := m w in (g a, w'))).
  { intros A m g Hm w w' H. destruct (Hm w w' H) as [H1 H2].
    destruct (m w), (m w'). simpl in *. subst. auto. }
  destruct c as [q k|u n|u|]; unfold Service.run.
  - apply (Hwrap _ _ Service.Posts), find_similar_posts_reads.
  - apply (Hwrap _ _ Service.PostContext).
    unfold Service.get_post_context. apply io_catch_reads.
    apply io_bind_reads; [apply vectorstore_get_reads|]. intros all_docs.
    destruct (first_match u (metadatas all_docs) 0); [|apply io_ret_reads].
    apply io_bind_reads; [apply io_lift_reads|]. intros content.
    apply io_ret_reads.
  - apply (Hwrap _ _ Service.Valid).
    unfold Service.validate_url. apply io_catch_reads.
    apply io_bind_reads; [apply vectorstore_get_reads|]. intros all_docs.
    destruct (first_match u (metadatas all_docs) 0); apply io_ret_reads.
  - apply (Hwrap _ _ Service.Urls).
    unfold Service.get_all_urls. apply io_catch_reads.
    apply io_bind_reads; [apply vectorstore_get_reads|]. intros all_docs.
    apply io_ret_reads.
Qed.

Lemma run_all_contents (self : Service.SimilaritySearcher Store)
    (cs : list Service.read) (w : World) :
  contents (Service.run_all store_truth store_get store_search self cs w)
  = contents w.
Proof.
  unfold Service.run_all. revert w.
  induction cs as [|c cs IH]; intros w; [reflexivity|].
  simpl. rewrite IH. apply (run_reads self c w w eq_refl).
Qed.

(** When the requests answer what a store value says, the method of the
    service returns what the method over that value returns. *)
Lemma find_similar_posts_of_store (v : Binary64.Chroma)
    (self : Service.SimilaritySearcher Store) (vs : Store)
    (q : string) (k : option Z) (w : World) :
  Service.vectorstore (Service.embeddings_manager self) = Some vs ->
  (forall w, fst (store_truth vs w) = Ok (Binary64.truth v)) ->
  (forall w, fst (store_get vs w) = Ok (Binary64.get v)) ->
  (forall text n w,
     fst (store_search vs text n w)
     = Binary64.similarity_search_with_score v text n) ->
  fst (Service.find_similar_posts store_truth store_get store_search
         self q k w)
  = Binary64.find_similar_posts
      (Binary64.create_searcher {| Binary64.vectorstore := Some v |}) q k.
Proof.
  intros Hv Ht Hg Hs.
  unfold Service.find_similar_posts, Service.search_similar,
    Binary64.find_similar_posts, Binary64.search_similar,
    Service.io_catch, Service.io_bind, Service.io_lift, Service.io_raise,
    Service.io_ret.
  rewrite Hv. simpl.
  specialize (Ht w). destruct (store_truth vs w) as [t w1]. simpl in Ht.
  subst t. destruct (Binary64.truth v); simpl; [|reflexivity].
  specialize (Hg w1). destruct (store_get vs w1) as [g w2]. simpl in Hg.
  subst g.
  destruct (resolve (Binary64.get v) q) as [query_doc|e]; simpl;
    [|destruct e; reflexivity].
  destruct (negb (str_truthy query_doc)); simpl; [reflexivity|].
  specialize (Hs (default ""%string query_doc)
                (default Config.TOP_K_RESULTS
                   (Some (default Config.FINAL_SUGGESTIONS k)) + 1) w2).
  simpl in Hs.
  destruct (store_search vs _ _ w2) as [r w3]. simpl in Hs. subst r.
  destruct (Binary64.similarity_search_with_score v _ _) as [results|e];
    simpl; [|destruct e; reflexivity].
  destruct (slice_to _ _); reflexivity.
Qed.
End ServiceFacts.


(** ** The claims *)

Section Claims.

Local Open Scope Q_scope.

(** C2: the list returned by [find_similar_posts] never contains the query
    url. Along the path that reaches the store, the engine asks for
    [top_k + 1] neighbours, and the loop drops a neighbour carrying the
    query url wherever it sits in the answer, not only at position 0. *)
Theorem find_similar_posts_excludes_query (self : SimilaritySearcher)
    (query_url : string) (top_k : option Z) :
  Forall (fun r => url r <> Some query_url)
    (find_similar_posts self query_url top_k)
  /\ (forall vs text,
        vectorstore (embeddings_manager self) = Some vs ->
        truth vs = true ->
        resolve (get vs) query_url = Ok (Some text) ->
        text <> ""%string ->
        find_similar_posts self query_url top_k =
          match similarity_search_with_score vs text
                  (default Config.FINAL_SUGGESTIONS top_k + 1) with
          | Ok results =>
              add_ranks 1
                (slice_to (default Config.FINAL_SUGGESTIONS top_k)
                   (sort_desc (similar_posts_loop query_url results)))
          | Raise _ => []
          end)
  /\ (forall before doc score after,
        metadata doc !! "url"%string = Some query_url ->
        similar_posts_loop query_url (before ++ (doc, score) :: after) =
        similar_posts_loop query_url (before ++ after)).
Proof.
  split; [|split].
  - rewrite find_similar_posts_eq.
    destruct (search_similar _ _ _) as [out|e] eqn:E; [|constructor].
    apply search_similar_Ok in E.
    destruct E as (vs & text & results & _ & _ & _ & _ & _ & ->).
    apply List.Forall_forall. intros r Hr.
    apply add_ranks_In in Hr. destruct Hr as (r0 & j & Hr0 & ->).
    apply slice_to_incl, sort_desc_incl, similar_posts_loop_In in Hr0.
    destruct Hr0 as (doc & score & _ & Hu & _ & ->). simpl.
    unfold url_is in Hu. apply bool_decide_eq_false in Hu. exact Hu.
  - intros vs text Hv Ht Hr Hne.
    rewrite find_similar_posts_eq.
    rewrite (search_similar_run _ _ _ vs text Hv Ht Hr Hne). simpl.
    destruct (similarity_search_with_score vs text _); reflexivity.
  - intros before doc score after Hu.
    induction before as [|[d s] before IH]; simpl.
    + unfold url_is. rewrite bool_decide_eq_true_2 by exact Hu. reflexivity.
    + rewrite IH. reflexivity.
Qed.

(** C4 (amended): on the path that reaches the store, [similar_posts]
    holds, in the order of the answer, one entry for every neighbour
    [(doc, d)] that is not the query and passes the threshold, and the
    score of the entry is the float [1 - d / 2]: the quotient and the
    difference of binary64, each rounded to the nearest float. Every such
    neighbour has its entry, which is returned when the entries fit in
    [k]; every returned entry is the entry of such a neighbour. At the
    distances 0, 1 and 2 the score is the number [1 - d / 2] itself:
    1, 0.5 and 0. *)
Theorem search_similar_score_conversion (self : Binary64.EmbeddingsManager)
    (query_url : string) (k : option Z) (vs : Binary64.Chroma)
    (text : string) (results : list (Document * float)) :
  Binary64.vectorstore self = Some vs ->
  Binary64.truth vs = true ->
  resolve (Binary64.get vs) query_url = Ok (Some text) ->
  text <> ""%string ->
  Binary64.similarity_search_with_score vs text
    (default Config.TOP_K_RESULTS k + 1) = Ok results ->
  Binary64.search_similar self query_url k
  = Ok (slice_to (default Config.TOP_K_RESULTS k)
          (Binary64.sort_desc (Binary64.similar_posts_loop query_url results)))
  /\ Binary64.similar_posts_loop query_url results
     = map (fun p => Binary64.post_of (fst p) (snd p))
         (List.filter
            (fun p => negb (url_is (metadata (fst p)) query_url)
                      && PrimFloat.leb 0.5 (1 - snd p / 2))
            results)
  /\ (forall doc d,
        In (doc, d) results ->
        url_is (metadata doc) query_url = false ->
        PrimFloat.leb 0.5 (1 - d / 2) = true ->
        exists r,
          In r (Binary64.similar_posts_loop query_url results)
          /\ Binary64.url r = metadata doc !! "url"%string
          /\ Binary64.title r = metadata doc !! "title"%string
          /\ Binary64.content r = page_content doc
          /\ Binary64.similarity r = (1 - d / 2)%float
          /\ ((Z.of_nat
                 (length (Binary64.similar_posts_loop query_url results))
               <= default Config.TOP_K_RESULTS k)%Z ->
              In r (slice_to (default Config.TOP_K_RESULTS k)
                      (Binary64.sort_desc
                         (Binary64.similar_posts_loop query_url results)))))
  /\ (forall r,
        In r (slice_to (default Config.TOP_K_RESULTS k)
                (Binary64.sort_desc
                   (Binary64.similar_posts_loop query_url results))) ->
        exists doc d,
          In (doc, d) results
          /\ url_is (metadata doc) query_url = false
          /\ PrimFloat.leb 0.5 (1 - d / 2) = true
          /\ r = Binary64.post_of doc d
          /\ Binary64.similarity r = (1 - d / 2)%float)
  /\ (Binary64.to_similarity 0 = 1%float
      /\ Binary64.stands_for (Binary64.to_similarity 0) 1)
  /\ (Binary64.to_similarity 1 = 0.5%float
      /\ Binary64.stands_for (Binary64.to_similarity 1) (1 # 2))
  /\ (Binary64.to_similarity 2 = 0%float
      /\ Binary64.stands_for (Binary64.to_similarity 2) 0).
Proof.
  intros Hv Ht Hr Hne Hs.
  split; [|split; [|split; [|split]]].
  - rewrite (search_similar_run_b64 _ _ _ vs text Hv Ht Hr Hne), Hs.
    reflexivity.
  - apply similar_posts_loop_filter.
  - intros doc d Hin Hu Hp. exists (Binary64.post_of doc d).
    assert (Hk : In (Binary64.post_of doc d)
                   (Binary64.similar_posts_loop query_url results)).
    { apply similar_posts_loop_In_b64. exists doc, d. auto. }
    repeat split; try reflexivity; [exact Hk|].
    intros Hlen.
    rewrite slice_to_all by (rewrite sort_desc_length_b64; exact Hlen).
    apply sort_desc_In_b64, Hk.
  - intros r Hin.
    apply slice_to_incl, sort_desc_incl_b64, similar_posts_loop_In_b64 in Hin.
    destruct Hin as (doc & d & Hin & Hu & Hp & ->).
    exists doc, d. repeat split; assumption.
  - repeat split; try reflexivity;
      (eexists; split; [vm_compute; reflexivity | reflexivity]).
Qed.

(** C5: the threshold is an inclusive cutoff. For a neighbour other than
    the query, the entry is appended to [similar_posts] exactly when its
    score is at least [MIN_SIMILARITY_THRESHOLD]: a score equal to the
    threshold is kept (and is in the returned list whenever the kept
    entries fit in [k]), a score strictly below it is in neither list. *)
Theorem threshold_is_inclusive (self : EmbeddingsManager)
    (query_url : string) (k : option Z) (vs : Chroma) (text : string)
    (results : list (Document * Q)) (doc : Document) (d : Q) :
  vectorstore self = Some vs ->
  truth vs = true ->
  resolve (get vs) query_url = Ok (Some text) ->
  text <> ""%string ->
  similarity_search_with_score vs text
    (default Config.TOP_K_RESULTS k + 1) = Ok results ->
  In (doc, d) results ->
  url_is (metadata doc) query_url = false ->
  exists out,
    search_similar self query_url k = Ok out
    /\ (In (post_of doc d) (similar_posts_loop query_url results) <->
        Config.MIN_SIMILARITY_THRESHOLD <= to_similarity d)
    /\ (to_similarity d == Config.MIN_SIMILARITY_THRESHOLD ->
        In (post_of doc d) (similar_posts_loop query_url results)
        /\ ((Z.of_nat (length (similar_posts_loop query_url results))
             <= default Config.TOP_K_RESULTS k)%Z ->
            In (post_of doc d) out))
    /\ (to_similarity d < Config.MIN_SIMILARITY_THRESHOLD ->
        ~ In (post_of doc d) (similar_posts_loop query_url results)
        /\ ~ In (post_of doc d) out).
Proof.
  intros Hv Ht Hr Hne Hs Hin Hu.
  rewrite (search_similar_run _ _ _ vs text Hv Ht Hr Hne), Hs. simpl.
  eexists. split; [reflexivity|].
  assert (Hiff : In (post_of doc d) (similar_posts_loop query_url results) <->
                 Config.MIN_SIMILARITY_THRESHOLD <= to_similarity d).
  { rewrite similar_posts_loop_In. split.
    - intros (doc' & d' & _ & _ & Hle & Heq).
      apply (f_equal similarity) in Heq. simpl in Heq. rewrite Heq. exact Hle.
    - intros Hle. exists doc, d. auto. }
  split; [exact Hiff|]. split.
  - intros Heq.
    assert (Hk : In (post_of doc d) (similar_posts_loop query_url results)).
    { apply Hiff. rewrite Heq. apply Qle_refl. }
    split; [exact Hk|]. intros Hlen.
    rewrite slice_to_all by (rewrite sort_desc_length; exact Hlen).
    apply sort_desc_In, Hk.
  - intros Hlt.
    assert (Hk : ~ In (post_of doc d) (similar_posts_loop query_url results)).
    { rewrite Hiff. apply Qlt_not_le, Hlt. }
    split; [exact Hk|]. intros Hout.
    apply Hk. eapply sort_desc_incl, slice_to_incl, Hout.
Qed.



(** C8: for a count [max_chars >= 0], [get_post_context] returns the
    stored text of the url unchanged when it has at most [max_chars]
    characters, its first [max_chars] characters followed by the marker
    "..." when it is longer, and [None] when the url is not in the store;
    the call leaves the manager as it was. *)
Theorem get_post_context_spec (self : SimilaritySearcher) (u : string)
    (max_chars : Z) :
  (0 <= max_chars)%Z ->
  (forall vs text,
      vectorstore (embeddings_manager self) = Some vs ->
      resolve (get vs) u = Ok (Some text) ->
      ((len text <= max_chars)%Z ->
       get_post_context self u (Some max_chars) = Some text)
      /\ ((max_chars < len text)%Z ->
          exists head tail,
            text = head +:+ tail /\ len head = max_chars /\
            get_post_context self u (Some max_chars)
            = Some (head +:+ "...")))
  /\ (validate_url self u = false ->
      get_post_context self u (Some max_chars) = None)
  /\ (forall from_documents add_documents,
        snd (run from_documents add_documents (embeddings_manager self)
               (GetPostContext u (Some max_chars)))
        = embeddings_manager self).
Proof.
  intros Hn. split; [|split].
  - intros vs text Hv Hr.
    unfold get_post_context, vectorstore_get. rewrite Hv. simpl.
    unfold resolve in Hr.
    destruct (first_match u (metadatas (get vs)) 0) as [i|]; [|discriminate].
    destruct (document_at (get vs) i) as [t|e]; simpl in *; [|discriminate].
    injection Hr as ->. unfold snippet, str_slice_to, len.
    rewrite (proj2 (Z.leb_le 0 max_chars) Hn). split.
    + intros Hle.
      destruct (Z.of_nat (String.length text) >? max_chars)%Z eqn:E;
        [|reflexivity].
      apply Z.gtb_lt in E. unfold len in Hle. lia.
    + intros Hlt.
      destruct (Z.of_nat (String.length text) >? max_chars)%Z eqn:E.
      2:{ rewrite Z.gtb_ltb in E. apply Z.ltb_ge in E. unfold len in Hlt. lia. }
      destruct (substring_prefix (Z.to_nat max_chars) text) as (tail & Ht & Hl);
        [unfold len in Hlt; lia|].
      exists (String.substring 0 (Z.to_nat max_chars) text), tail.
      repeat split; [exact Ht | rewrite Hl; lia].
  - unfold validate_url, get_post_context.
    destruct (vectorstore_get self) as [all_docs|e]; simpl; [|reflexivity].
    destruct (first_match u (metadatas all_docs) 0); [discriminate|reflexivity].
  - reflexivity.
Qed.

(** C9: when the record found for the query url holds the empty text,
    [search_similar] raises "URL not found in database" without querying
    the neighbours, although [validate_url] answers [True] for the url. *)
Theorem empty_text_reported_not_found (self : SimilaritySearcher)
    (vs : Chroma) (query_url : string) (k : option Z) :
  vectorstore (embeddings_manager self) = Some vs ->
  truth vs = true ->
  resolve (get vs) query_url = Ok (Some ""%string) ->
  search_similar (embeddings_manager self) query_url k
    = Raise (ValueError ("URL not found in database: " +:+ query_url))
  /\ validate_url self query_url = true.
Proof.
  intros Hv Ht Hr. split.
  - unfold search_similar. rewrite Hv, Ht, Hr. reflexivity.
  - unfold validate_url, vectorstore_get. rewrite Hv. simpl.
    unfold resolve in Hr.
    destruct (first_match query_url (metadatas (get vs)) 0);
      [reflexivity|discriminate].
Qed.

(** C10: with no vectorstore loaded, reading the store raises inside
    [validate_url] and [get_all_urls], and both catch it: [validate_url]
    answers [False] for every url and [get_all_urls] returns the empty
    list. *)
Theorem uninitialized_store_reads (self : SimilaritySearcher) :
  vectorstore (embeddings_manager self) = None ->
  vectorstore_get self = Raise AttributeError
  /\ (forall u, validate_url self u = false)
  /\ get_all_urls self = [].
Proof.
  intros H. unfold validate_url, get_all_urls, vectorstore_get.
  rewrite H. repeat split.
Qed.

(** C1 (amended): at the embeddings layer both conditions are typed
    failures with their own messages: [search_similar] raises
    [ValueError "Vectorstore not initialized..."] when no vectorstore is
    loaded and [ValueError "URL not found in database: ..."] when no
    stored record carries the query url. [find_similar_posts] catches
    every exception of [search_similar] and returns the empty list, so for
    its caller both conditions look like a search in which nothing passed
    the threshold. *)
Theorem search_failures_become_empty_list (self : SimilaritySearcher)
    (query_url : string) (top_k : option Z) :
  (vectorstore (embeddings_manager self) = None ->
   forall k, search_similar (embeddings_manager self) query_url k
             = Raise not_initialized)
  /\ (forall vs,
        vectorstore (embeddings_manager self) = Some vs ->
        truth vs = true ->
        validate_url self query_url = false ->
        forall k, search_similar (embeddings_manager self) query_url k
                  = Raise (url_not_found query_url))
  /\ not_initialized <> url_not_found query_url
  /\ (forall e,
        search_similar (embeddings_manager self) query_url
          (Some (default Config.FINAL_SUGGESTIONS top_k)) = Raise e ->
        find_similar_posts self query_url top_k = []).
Proof.
  split; [|split; [|split]].
  - intros H k. unfold search_similar. rewrite H. reflexivity.
  - intros vs Hv Ht Hval k.
    unfold validate_url, vectorstore_get in Hval. rewrite Hv in Hval.
    simpl in Hval.
    unfold search_similar, resolve. rewrite Hv, Ht. simpl.
    destruct (first_match query_url (metadatas (get vs)) 0);
      [discriminate|reflexivity].
  - discriminate.
  - intros e H. rewrite find_similar_posts_eq, H. reflexivity.
Qed.

(** C7 (amended): in a store where the url "a" resolves to a text whose
    three nearest neighbours are A (url "a", distance 0.2), B (url "b",
    distance 0.8) and C (url "c", distance 1.4), with threshold 0.5,
    [find_similar_posts "a" 2] returns exactly one entry: B with
    score 0.6 (= 1 - 0.8 / 2) and rank 1. A is dropped as the query
    itself, C because its score 0.3 is below 0.5. *)
Theorem scenario_abc (self : SimilaritySearcher) (vs : Chroma)
    (text : string) (A B C : Document) :
  vectorstore (embeddings_manager self) = Some vs ->
  truth vs = true ->
  resolve (get vs) "a" = Ok (Some text) ->
  text <> ""%string ->
  metadata A !! "url"%string = Some "a"%string ->
  metadata B !! "url"%string = Some "b"%string ->
  metadata C !! "url"%string = Some "c"%string ->
  similarity_search_with_score vs text 3
    = Ok [(A, 2 # 10); (B, 8 # 10); (C, 14 # 10)] ->
  exists r,
    find_similar_posts self "a" (Some 2%Z) = [r]
    /\ r = set_rank 1 (post_of B (8 # 10))
    /\ url r = Some "b"%string
    /\ similarity r == 6 # 10
    /\ rank r = Some 1%Z
    /\ to_similarity (14 # 10) == 3 # 10
    /\ 3 # 10 < Config.MIN_SIMILARITY_THRESHOLD.
Proof.
  intros Hv Ht Hr Hne HA HB HC Hs.
  exists (set_rank 1 (post_of B (8 # 10))).
  split; [|repeat split; try assumption; reflexivity].
  rewrite find_similar_posts_eq.
  rewrite (search_similar_run _ _ _ vs text Hv Ht Hr Hne).
  change (default Config.TOP_K_RESULTS (Some (default Config.FINAL_SUGGESTIONS (Some 2%Z))) + 1)%Z
    with 3%Z.
  rewrite Hs. simpl bind. unfold similar_posts_loop, url_is.
  rewrite bool_decide_eq_true_2 by exact HA.
  rewrite !bool_decide_eq_false_2 by (rewrite ?HB, ?HC; discriminate).
  reflexivity.
Qed.

(** X1: [get_all_urls] and [validate_url] agree: every url listed is
    accepted, and every accepted url other than the empty string is
    listed. *)
Theorem listed_urls_are_valid (self : SimilaritySearcher) (u : string) :
  (In u (get_all_urls self) -> validate_url self u = true)
  /\ (validate_url self u = true -> u <> ""%string ->
      In u (get_all_urls self)).
Proof.
  unfold get_all_urls, validate_url.
  destruct (vectorstore_get self) as [all_docs|e]; simpl.
  2:{ split; [intros [] | discriminate]. }
  rewrite keep_truthy_In.
  pose proof (first_match_Some u (metadatas all_docs) 0) as Hm.
  destruct (first_match u (metadatas all_docs) 0) as [j|].
  - split; [reflexivity|]. intros _ Hne. split; [exact Hne|].
    apply Hm. eauto.
  - split; [|discriminate]. intros (_ & H).
    apply Hm in H. destruct H as (j & H). discriminate.
Qed.

End Claims.

(** ** The theorems at the example stores *)

Section Instances.

Import Examples.
Local Open Scope Q_scope.

(** Python's slices: a count beyond the length keeps everything, a
    negative one drops from the end. *)
Example slice_to_examples :
  slice_to 2 [1; 2; 3]%Z = [1; 2]%Z /\ slice_to 5 [1; 2; 3]%Z = [1; 2; 3]%Z
  /\ slice_to (-1) [1; 2; 3]%Z = [1; 2]%Z /\ slice_to (-4) [1; 2; 3]%Z = []
  /\ str_slice_to 3 "abcdef" = "abc"%string
  /\ str_slice_to (-2) "abcdef" = "abcd"%string.
Proof. repeat split. Qed.

(** The query post is dropped from the second place of the answer as well
    as from the first, and two neighbours of equal score keep the order of
    the answer. *)
Example self_match_anywhere :
  map url (sort_desc (similar_posts_loop "a"
                        [(docB, 8 # 10); (docA, 0); (docC, 8 # 10)]))
  = [Some "b"%string; Some "c"%string]
  /\ map url (sort_desc (similar_posts_loop "a"
                           [(docC, 8 # 10); (docB, 8 # 10); (docA, 0)]))
     = [Some "c"%string; Some "b"%string].
Proof. split; vm_compute; reflexivity. Qed.

(** A write between two searches can change the answer: after b is added
    to a store holding a, the search for a finds it. *)
Example write_changes_answer :
  let a := {| post_url := "a"; post_title := "A"; post_content := "x" |} in
  let b := {| post_url := "b"; post_title := "B"; post_content := "y" |} in
  let em := build_vectorstore from_documents_ex add_documents_ex
              {| vectorstore := None |} [a] true in
  let em' := run_all from_documents_ex add_documents_ex em [AddPosts [b]] in
  find_similar_posts (create_searcher em) "a" None = []
  /\ map url (find_similar_posts (create_searcher em') "a" None)
     = [Some "b"%string]
  /\ get_all_urls (create_searcher em') = ["a"%string; "b"%string].
Proof. repeat split; vm_compute; reflexivity. Qed.

(** On the values of the scenario the binary64 arithmetic takes the same
    decisions as the rational model: distance 0.8 gives the float 0.6 (not
    0.9) and passes, distance 1.4 fails; 0, 1, 2 give 1, 0.5, 0. *)
#[local] Set Warnings "-inexact-float".
Example binary64_scores :
  PrimFloat.eqb (Binary64.to_similarity 0.8) 0.6 = true
  /\ PrimFloat.eqb (Binary64.to_similarity 0.8) 0.9 = false
  /\ Binary64.passes 0.8 = true
  /\ Binary64.passes 1.4 = false
  /\ Binary64.passes 1 = true
  /\ PrimFloat.eqb (Binary64.to_similarity 0) 1 = true
  /\ PrimFloat.eqb (Binary64.to_similarity 1) 0.5 = true
  /\ PrimFloat.eqb (Binary64.to_similarity 2) 0 = true.
Proof. repeat split. Qed.

(** C1: for an unknown url and for a manager without a vectorstore,
    [find_similar_posts] returns the empty list. *)
Lemma find_similar_posts_empty_on_failure :
  validate_url searcher_abc "unknown-id" = false
  /\ find_similar_posts searcher_abc "unknown-id" (Some 5%Z) = []
  /\ vectorstore (embeddings_manager searcher_none) = None
  /\ find_similar_posts searcher_none "a" (Some 5%Z) = [].
Proof. repeat split; vm_compute; reflexivity. Qed.

(** C7: at the example store the single entry returned has score 0.6,
    not 0.9. *)
Lemma scenario_abc_score_is_not_09 :
  exists r,
    find_similar_posts searcher_abc "a" (Some 2%Z) = [r]
    /\ url r = Some "b"%string
    /\ rank r = Some 1%Z
    /\ similarity r == 6 # 10
    /\ ~ similarity r == 9 # 10.
Proof.
  eexists. split; [vm_compute; reflexivity|].
  repeat split; vm_compute; discriminate.
Qed.


(** Two neighbours whose scores both round to 1 keep the order of the
    answer, b before c, although c is the closer one; in the other order
    of retrieval, c comes first. *)
Example equal_scores_keep_retrieval_order :
  map (fun r => (Binary64.url r, Binary64.similarity r, Binary64.rank r))
    (Binary64.find_similar_posts
       (Examples64.searcher_with Examples64.neighbours_close)
       "a" (Some 2%Z))
  = [(Some "b"%string, 1%float, Some 1%Z);
     (Some "c"%string, 1%float, Some 2%Z)]
  /\ map Binary64.url
       (Binary64.find_similar_posts
          (Examples64.searcher_with
             [(docC, 0x1p-60%float); (docA, 0%float); (docB, 0x1p-59%float)])
          "a" (Some 2%Z))
     = [Some "c"%string; Some "b"%string].
Proof. split; vm_compute; reflexivity. Qed.

(** The scenario of the three documents over floats: b is returned alone,
    with the float 0.6 and rank 1; c scores the float next above 0.3 and
    fails the threshold. At a distance of exactly 1 the score is the
    threshold and the neighbour is kept. *)
#[local] Set Warnings "-inexact-float".
Example scenario_abc_binary64 :
  Binary64.find_similar_posts
    (Examples64.searcher_with Examples64.neighbours_abc) "a" (Some 2%Z)
  = [Binary64.set_rank 1 (Binary64.post_of docB 0.8%float)]
  /\ Binary64.to_similarity 0.8 = 0.6%float
  /\ Binary64.to_similarity 1.4 = 0x1.3333333333334p-2%float
  /\ Binary64.passes 1.4 = false
  /\ map Binary64.url
       (Binary64.find_similar_posts
          (Examples64.searcher_with
             [(docA, 0%float); (docB, 1%float); (docC, 1.2%float)])
          "a" (Some 2%Z))
     = [Some "b"%string].
Proof. repeat split; vm_compute; reflexivity. Qed.

(** C4 at [search_similar "a" 2] over the store a, b, c with the
    distances 0.2, 0.8, 1.4: b has its entry, with the score 0.6. *)
#[local] Set Warnings "-inexact-float".
Lemma search_similar_score_conversion_witness :
  Binary64.search_similar
    {| Binary64.vectorstore :=
         Some (Examples64.store_with Examples64.neighbours_abc) |}
    "a" (Some 2%Z)
  = Ok [Binary64.post_of docB 0.8%float]
  /\ Binary64.similarity (Binary64.post_of docB 0.8%float) = 0.6%float
  /\ exists r,
       In r (Binary64.similar_posts_loop "a" Examples64.neighbours_abc)
       /\ Binary64.url r = Some "b"%string
       /\ Binary64.similarity r = (1 - 0.8 / 2)%float.
Proof.
  destruct (search_similar_score_conversion
              {| Binary64.vectorstore :=
                   Some (Examples64.store_with Examples64.neighbours_abc) |}
              "a" (Some 2%Z)
              (Examples64.store_with Examples64.neighbours_abc)
              "text of a" Examples64.neighbours_abc)
    as (Hout & _ & Hall & _).
  - reflexivity.
  - reflexivity.
  - vm_compute. reflexivity.
  - discriminate.
  - reflexivity.
  - split; [rewrite Hout; vm_compute; reflexivity|].
    split; [vm_compute; reflexivity|].
    destruct (Hall docB 0.8%float) as (r & Hin & Hu & _ & _ & Hsim & _).
    + simpl. auto.
    + vm_compute. reflexivity.
    + vm_compute. reflexivity.
    + exists r. split; [exact Hin|]. split; [|exact Hsim].
      rewrite Hu. vm_compute. reflexivity.
Defined.

(** C4: the neighbour c comes back at the distance 2^-60, a float within
    [0, 2], and its entry is returned with the score 1: the float
    [1 - d / 2] is not the number 1 - 2^-61. *)
Lemma score_of_small_distance_is_rounded :
  exists out r d,
    Binary64.search_similar
      {| Binary64.vectorstore :=
           Some (Examples64.store_with Examples64.neighbours_close) |}
      "a" (Some 2%Z) = Ok out
    /\ In (docC, 0x1p-60%float) Examples64.neighbours_close
    /\ In r out
    /\ r = Binary64.post_of docC 0x1p-60%float
    /\ Binary64.stands_for 0x1p-60%float d
    /\ 0 <= d <= 2
    /\ Binary64.stands_for (Binary64.similarity r) 1
    /\ ~ 1 == 1 - d / 2.
Proof.
  eexists. exists (Binary64.post_of docC 0x1p-60%float), (Qpower 2 (-60)).
  split; [vm_compute; reflexivity|].
  split; [simpl; auto|].
  split; [simpl; auto|].
  split; [reflexivity|].
  split; [eexists; split; vm_compute; reflexivity|].
  split; [split; vm_compute; discriminate|].
  split; [eexists; split; vm_compute; reflexivity|].
  vm_compute. discriminate.
Qed.

(** C5 at the store where b sits exactly at the threshold. *)
Lemma threshold_is_inclusive_witness :
  to_similarity 1 == Config.MIN_SIMILARITY_THRESHOLD
  /\ exists out,
       search_similar {| vectorstore := Some store_edge |} "a" (Some 2%Z)
         = Ok out
       /\ In (post_of docB 1) out.
Proof.
  split; [reflexivity|].
  destruct (threshold_is_inclusive {| vectorstore := Some store_edge |}
              "a" (Some 2%Z) store_edge "text of a"
              [(docA, 0); (docB, 1); (docC, 12 # 10)] docB 1)
    as (out & Hout & _ & Hkeep & _).
  - reflexivity.
  - reflexivity.
  - vm_compute. reflexivity.
  - discriminate.
  - reflexivity.
  - simpl. right. left. reflexivity.
  - vm_compute. reflexivity.
  - exists out. split; [exact Hout|].
    apply Hkeep; [reflexivity|]. vm_compute. discriminate.
Defined.

(** The store of the examples reads: its answers depend on the
    neighbours it holds, not on the number of requests served. *)
Lemma example_store_reads :
  (forall vs, Service.reads fst (ServiceExamples.store_truth vs))
  /\ (forall vs, Service.reads fst (ServiceExamples.store_get vs))
  /\ (forall vs text n,
        Service.reads fst (ServiceExamples.store_search vs text n)).
Proof.
  repeat split; try reflexivity.
  unfold ServiceExamples.store_search. simpl. rewrite H. reflexivity.
Qed.


(** Over a store that is written between the requests the second search
    returns another score: the same answer twice is a fact about the
    store left alone, not about the method. *)
Example drifting_store_changes_answer :
  map Binary64.similarity
    (fst (Service.find_similar_posts ServiceExamples.store_truth
            ServiceExamples.store_get ServiceExamples.drifting_search
            ServiceExamples.searcher "a" (Some 2%Z) ([], 0%nat)))
  = [0.9375%float]
  /\ map Binary64.similarity
       (fst (Service.find_similar_posts ServiceExamples.store_truth
               ServiceExamples.store_get ServiceExamples.drifting_search
               ServiceExamples.searcher "a" (Some 2%Z)
               (snd (Service.find_similar_posts ServiceExamples.store_truth
                       ServiceExamples.store_get
                       ServiceExamples.drifting_search
                       ServiceExamples.searcher "a" (Some 2%Z)
                       ([], 0%nat)))))
     = [0.84375%float].
Proof. split; vm_compute; reflexivity. Qed.

(** C7 (amended) at the example store. *)
Lemma scenario_abc_witness :
  exists r,
    find_similar_posts searcher_abc "a" (Some 2%Z) = [r]
    /\ r = set_rank 1 (post_of docB (8 # 10))
    /\ url r = Some "b"%string
    /\ similarity r == 6 # 10
    /\ rank r = Some 1%Z
    /\ to_similarity (14 # 10) == 3 # 10
    /\ 3 # 10 < Config.MIN_SIMILARITY_THRESHOLD.
Proof.
  apply (scenario_abc searcher_abc store_abc "text of a" docA docB docC).
  - reflexivity.
  - reflexivity.
  - vm_compute. reflexivity.
  - discriminate.
  - vm_compute. reflexivity.
  - vm_compute. reflexivity.
  - vm_compute. reflexivity.
  - reflexivity.
Defined.

(** C8 for the stored text "text of b": whole with room for 9
    characters, cut after 4 otherwise; unknown urls give [None]. *)
Lemma get_post_context_spec_witness :
  get_post_context searcher_abc "b" (Some 9%Z) = Some "text of b"%string
  /\ (exists head tail,
        "text of b"%string = head +:+ tail /\ len head = 4%Z /\
        get_post_context searcher_abc "b" (Some 4%Z) = Some (head +:+ "..."))
  /\ get_post_context searcher_abc "unknown-id" (Some 4%Z) = None.
Proof.
  assert (H9 : (0 <= 9)%Z) by lia.
  assert (H4 : (0 <= 4)%Z) by lia.
  assert (Hr : resolve (get store_abc) "b" = Ok (Some "text of b"%string))
    by (vm_compute; reflexivity).
  split; [|split].
  - apply (proj1 (get_post_context_spec searcher_abc "b" 9 H9)
             store_abc "text of b" eq_refl Hr).
    vm_compute. discriminate.
  - apply (proj1 (get_post_context_spec searcher_abc "b" 4 H4)
             store_abc "text of b" eq_refl Hr).
    vm_compute. reflexivity.
  - apply (proj1 (proj2 (get_post_context_spec searcher_abc "unknown-id" 4 H4))).
    vm_compute. reflexivity.
Defined.

(** C9 at the store whose record for "a" holds the empty text. *)
Lemma empty_text_reported_not_found_witness :
  resolve (get store_blank) "a" = Ok (Some ""%string)
  /\ search_similar {| vectorstore := Some store_blank |} "a" (Some 5%Z)
     = Raise (ValueError "URL not found in database: a")
  /\ validate_url (create_searcher {| vectorstore := Some store_blank |}) "a"
     = true.
Proof.
  assert (Hr : resolve (get store_blank) "a" = Ok (Some ""%string))
    by (vm_compute; reflexivity).
  split; [exact Hr|].
  apply (empty_text_reported_not_found
           (create_searcher {| vectorstore := Some store_blank |})
           store_blank "a" (Some 5%Z) eq_refl eq_refl Hr).
Defined.

(** C10 at the manager without a vectorstore. *)
Lemma uninitialized_store_reads_witness :
  vectorstore_get searcher_none = Raise AttributeError
  /\ (forall u, validate_url searcher_none u = false)
  /\ get_all_urls searcher_none = [].
Proof. apply (uninitialized_store_reads searcher_none). reflexivity. Defined.

End Instances.

(** ** Facts about the rest of the code *)

Section MoreHelpers.

(** *** Stripping *)

Lemma lstrip_with_first (p : Ascii.ascii -> bool) (s : string) (c : Ascii.ascii) :
  first_char (lstrip_with p s) = Some c -> p c = false.
Proof.
  induction s as [|a s IH]; simpl; [discriminate|].
  destruct (p a) eqn:E; [exact IH|].
  simpl. intros [= <-]. exact E.
Qed.

Lemma rstrip_with_last (p : Ascii.ascii -> bool) (s : string) (c : Ascii.ascii) :
  last_char (rstrip_with p s) = Some c -> p c = false.
Proof.
  induction s as [|a s IH]; simpl; [discriminate|].
  destruct (rstrip_with p s) as [|b r] eqn:E.
  - destruct (p a) eqn:Ea; simpl; [discriminate|].
    intros [= <-]. exact Ea.
  - simpl. exact IH.
Qed.

Lemma rstrip_with_first (p : Ascii.ascii -> bool) (s : string) (c : Ascii.ascii) :
  first_char (rstrip_with p s) = Some c -> first_char s = Some c.
Proof.
  destruct s as [|a s]; simpl; [discriminate|].
  destruct (rstrip_with p s); [destruct (p a)|]; simpl; [discriminate| |]; auto.
Qed.

Lemma lstrip_with_length (p : Ascii.ascii -> bool) (s : string) :
  (String.length (lstrip_with p s) <= String.length s)%nat.
Proof.
  induction s as [|a s IH]; simpl; [lia|].
  destruct (p a); simpl; lia.
Qed.

Lemma rstrip_with_length (p : Ascii.ascii -> bool) (s : string) :
  (String.length (rstrip_with p s) <= String.length s)%nat.
Proof.
  induction s as [|a s IH]; simpl; [lia|].
  destruct (rstrip_with p s); [destruct (p a)|]; simpl in *; lia.
Qed.

(** Both ends of a stripped string are characters that are kept. *)
Lemma strip_ends (p : Ascii.ascii -> bool) (s : string) (c : Ascii.ascii) :
  first_char (rstrip_with p (lstrip_with p s)) = Some c \/
  last_char (rstrip_with p (lstrip_with p s)) = Some c ->
  p c = false.
Proof.
  intros [H|H].
  - eapply lstrip_with_first, rstrip_with_first, H.
  - eapply rstrip_with_last, H.
Qed.

Lemma strip_length (s : string) :
  (String.length (strip s) <= String.length s)%nat.
Proof.
  unfold strip. etransitivity; [apply rstrip_with_length|].
  apply lstrip_with_length.
Qed.

End MoreHelpers.

(** ** Properties of the rest of the code *)

Section Enriched.

Variable reason_prompt_format :
  string -> string -> option string -> string -> result string.
Variable anchor_prompt_format : string -> option string -> result string.
Variable llm_invoke : string -> result string.

Lemma process_all_suggestions_cases
    (target_post : gmap string string) (similar_posts : list Post) :
  match process_all_suggestions reason_prompt_format anchor_prompt_format
          llm_invoke target_post similar_posts with
  | Returned enhanced_results =>
      map post enhanced_results = similar_posts
      /\ enhanced_results =
         map (process_similar_post reason_prompt_format anchor_prompt_format
                llm_invoke target_post) similar_posts
      /\ Forall (fun p => title p <> None) similar_posts
  | TypeError => exists p, In p similar_posts /\ title p = None
  end.
Proof.
  induction similar_posts as [|p l IH]; simpl.
  - repeat split. constructor.
  - destruct (title p) as [t|] eqn:Et.
    + destruct (process_all_suggestions _ _ _ target_post l) as [res|].
      * destruct IH as (H1 & H2 & H3). simpl. repeat split.
        -- f_equal. exact H1.
        -- f_equal. exact H2.
        -- constructor; [congruence | exact H3].
      * destruct IH as (q & Hq & Ht). exists q. auto.
    + exists p. auto.
Qed.

(** X2: enrichment keeps the ranking. When every post has a title,
    [process_all_suggestions] returns one suggestion per post, in the same
    order, each carrying its post unchanged (url, title, content,
    similarity and rank), whatever the prompts and the model do, failures
    included. It raises [TypeError] exactly when some post has the title
    [None]. *)
Theorem process_all_suggestions_keeps_posts
    (target_post : gmap string string) (similar_posts : list Post) :
  match process_all_suggestions reason_prompt_format anchor_prompt_format
          llm_invoke target_post similar_posts with
  | Returned enhanced_results =>
      map post enhanced_results = similar_posts
      /\ enhanced_results =
         map (process_similar_post reason_prompt_format anchor_prompt_format
                llm_invoke target_post) similar_posts
      /\ Forall (fun p => title p <> None) similar_posts
  | TypeError => exists p, In p similar_posts /\ title p = None
  end.
Proof. apply process_all_suggestions_cases. Qed.

(** X3: the texts of a suggestion. When the prompt or the model raises,
    the reason is the fixed fallback sentence and the anchor text is the
    title of the similar post. Otherwise the reason neither starts nor
    ends with a whitespace character, and the anchor text neither starts
    nor ends with a single quote. *)
Theorem generated_texts (target_title target_excerpt : string)
    (similar_title : option string) (similar_excerpt : string) :
  let r := generate_reason reason_prompt_format llm_invoke
             target_title target_excerpt similar_title similar_excerpt in
  let a := generate_anchor_text anchor_prompt_format llm_invoke
             target_excerpt similar_title in
  ((forall content,
      (prompt <- reason_prompt_format target_title target_excerpt
                   similar_title similar_excerpt ;; llm_invoke prompt)
      <> Ok content) ->
   r = fallback_reason)
  /\ ((forall content,
         (prompt <- anchor_prompt_format target_excerpt similar_title ;;
          llm_invoke prompt) <> Ok content) ->
      a = similar_title)
  /\ (forall content,
        (prompt <- reason_prompt_format target_title target_excerpt
                     similar_title similar_excerpt ;; llm_invoke prompt)
        = Ok content ->
        r = strip content /\
        forall c, first_char r = Some c \/ last_char r = Some c ->
                  is_space c = false)
  /\ (forall content,
        (prompt <- anchor_prompt_format target_excerpt similar_title ;;
         llm_invoke prompt) = Ok content ->
        exists text,
          a = Some text /\
          forall c, first_char text = Some c \/ last_char text = Some c ->
                    c <> single_quote).
Proof.
  unfold generate_reason, generate_anchor_text. simpl.
  split; [|split; [|split]].
  - intros H.
    destruct (reason_prompt_format _ _ _ _) as [prompt|e]; simpl in *;
      [|reflexivity].
    destruct (llm_invoke prompt) as [content|e]; simpl; [|reflexivity].
    exfalso. apply (H content). reflexivity.
  - intros H.
    destruct (anchor_prompt_format _ _) as [prompt|e]; simpl in *;
      [|reflexivity].
    destruct (llm_invoke prompt) as [content|e]; simpl; [|reflexivity].
    exfalso. apply (H content). reflexivity.
  - intros content H.
    destruct (reason_prompt_format _ _ _ _) as [prompt|e]; simpl in *;
      [|discriminate].
    rewrite H. simpl. split; [reflexivity|].
    intros c Hc. unfold strip in Hc. eapply strip_ends, Hc.
  - intros content H.
    destruct (anchor_prompt_format _ _) as [prompt|e]; simpl in *;
      [|discriminate].
    rewrite H. simpl. eexists. split; [reflexivity|].
    intros c Hc Heq. unfold strip_char in Hc at 1 3.
    apply strip_ends in Hc. subst c.
    rewrite Ascii.eqb_refl in Hc. discriminate.
Qed.

End Enriched.

Section Ingested.

(** *** Batches *)

Lemma batches_concat {A : Type} (fuel size : nat) (l : list A) :
  (0 < size)%nat -> (length l <= fuel)%nat ->
  concat (batches fuel size l) = l.
Proof.
  intros Hs. revert l. induction fuel as [|fuel IH]; intros l Hl.
  - destruct l; [reflexivity | simpl in Hl; lia].
  - destruct l as [|x l]; [reflexivity|].
    change (batches (S fuel) size (x :: l))
      with (firstn size (x :: l) :: batches fuel size (skipn size (x :: l))).
    simpl concat. rewrite IH.
    + apply firstn_skipn.
    + rewrite length_skipn. simpl in *. lia.
Qed.

Lemma batches_sizes {A : Type} (fuel size : nat) (l : list A) :
  (0 < size)%nat ->
  Forall (fun b => (1 <= length b <= size)%nat) (batches fuel size l).
Proof.
  intros Hs. revert l. induction fuel as [|fuel IH]; intros l;
    [constructor|].
  destruct l as [|x l]; [constructor|].
  change (batches (S fuel) size (x :: l))
    with (firstn size (x :: l) :: batches fuel size (skipn size (x :: l))).
  constructor; [|apply IH].
  rewrite length_firstn. simpl. lia.
Qed.

Lemma batches_full {A : Type} (fuel size : nat) (l : list A) (i : nat)
    (b : list A) :
  batches fuel size l !! i = Some b ->
  (S i < length (batches fuel size l))%nat ->
  length b = size.
Proof.
  revert l i. induction fuel as [|fuel IH]; intros l i Hb Hi;
    [discriminate|].
  destruct l as [|x l]; [discriminate|].
  change (batches (S fuel) size (x :: l))
    with (firstn size (x :: l) :: batches fuel size (skipn size (x :: l)))
    in Hb, Hi.
  destruct i as [|i]; simpl in Hb, Hi.
  - injection Hb as <-. rewrite length_firstn.
    destruct (batches fuel size (skipn size (x :: l))) as [|b' bs] eqn:E;
      [simpl in Hi; lia|].
    destruct fuel; [discriminate|].
    destruct (skipn size (x :: l)) as [|y r] eqn:Es; [discriminate|].
    assert (length (skipn size (x :: l)) <> 0)%nat by (rewrite Es; discriminate).
    rewrite length_skipn in H. lia.
  - eapply IH; [exact Hb | lia].
Qed.

(** X4: the batch loops ([range(0, len(l), size)] with [l[i:i + size]])
    neither lose, repeat nor reorder an element: for a batch size above 0
    the batches put end to end give the list back, every batch holds
    between 1 and [size] elements, and every batch but the last holds
    exactly [size]. *)
Theorem batches_partition {A : Type} (size : nat) (l : list A) :
  (0 < size)%nat ->
  concat (batches (length l) size l) = l
  /\ Forall (fun b => (1 <= length b <= size)%nat) (batches (length l) size l)
  /\ (forall (i : nat) b,
        batches (length l) size l !! i = Some b ->
        (S i < length (batches (length l) size l))%nat ->
        length b = size).
Proof.
  intros Hs. split; [|split].
  - apply batches_concat; [exact Hs | lia].
  - apply batches_sizes, Hs.
  - intros i b. apply batches_full.
Qed.

End Ingested.

Section RoundTrip.

Variable from_documents : list Document -> Chroma.
Variable add_documents : Chroma -> list Document -> Chroma.

(** *** Created documents *)

Lemma create_document_url (p : ScrapedPost) :
  metadata (create_document p) !! "url"%string = Some (post_url p).
Proof. unfold create_document. simpl. apply lookup_insert_eq. Qed.

Lemma create_document_title (p : ScrapedPost) :
  metadata (create_document p) !! "title"%string = Some (post_title p).
Proof.
  unfold create_document. simpl.
  rewrite lookup_insert_ne by discriminate. apply lookup_insert_eq.
Qed.

Lemma post_text_nonempty (p : ScrapedPost) : post_text p <> ""%string.
Proof.
  unfold post_text. destruct (post_title p); discriminate.
Qed.

Lemma url_is_created (p : ScrapedPost) (u : string) :
  url_is (metadata (create_document p)) u = String.eqb (post_url p) u.
Proof.
  unfold url_is. rewrite create_document_url.
  destruct (String.eqb (post_url p) u) eqn:E.
  - apply String.eqb_eq in E. subst. apply bool_decide_eq_true_2. reflexivity.
  - apply String.eqb_neq in E. apply bool_decide_eq_false_2. congruence.
Qed.

Lemma first_match_created (u : string) (posts : list ScrapedPost) (i : nat) :
  match first_post u posts with
  | Some p =>
      exists j,
        first_match u (map metadata (create_documents posts)) i
        = Some (i + j)%nat
        /\ map page_content (create_documents posts) !! j = Some (post_text p)
  | None => first_match u (map metadata (create_documents posts)) i = None
  end.
Proof.
  revert i. induction posts as [|q posts IH]; intros i; [reflexivity|].
  change (create_documents (q :: posts))
    with (create_document q :: create_documents posts).
  cbn [map first_match first_post]. rewrite url_is_created.
  destruct (String.eqb (post_url q) u).
  - exists 0%nat. split; [f_equal; lia | reflexivity].
  - specialize (IH (S i)). destruct (first_post u posts) as [p|]; [|exact IH].
    destruct IH as (j & H1 & H2). exists (S j). split; [|exact H2].
    rewrite H1. f_equal. lia.
Qed.

Lemma keep_truthy_created (posts : list ScrapedPost) :
  keep_truthy
    (map (fun md : gmap string string => md !! "url"%string)
       (map metadata (create_documents posts)))
  = List.filter nonempty (map post_url posts).
Proof.
  induction posts as [|q posts IH]; [reflexivity|].
  change (create_documents (q :: posts))
    with (create_document q :: create_documents posts).
  cbn [map keep_truthy List.filter]. rewrite create_document_url.
  unfold str_truthy, nonempty at 1. cbn [default].
  destruct (String.eqb (post_url q) ""); cbn [negb]; rewrite IH; reflexivity.
Qed.

Lemma keep_truthy_app (l1 l2 : list (option string)) :
  keep_truthy (l1 ++ l2) = keep_truthy l1 ++ keep_truthy l2.
Proof.
  induction l1 as [|x l1 IH]; [reflexivity|].
  simpl. destruct (str_truthy x); simpl; rewrite IH; reflexivity.
Qed.

(** *** The scan over a longer list *)

Lemma first_match_bound (u : string) (mds : list (gmap string string))
    (i j : nat) :
  first_match u mds i = Some j -> (i <= j < i + length mds)%nat.
Proof.
  revert i. induction mds as [|md mds IH]; intros i; simpl; [discriminate|].
  destruct (url_is md u).
  - intros [= <-]. lia.
  - intros H. apply IH in H. lia.
Qed.

Lemma first_match_app (u : string) (l1 l2 : list (gmap string string))
    (i : nat) :
  first_match u (l1 ++ l2) i =
  match first_match u l1 i with
  | Some j => Some j
  | None => first_match u l2 (i + length l1)
  end.
Proof.
  revert i. induction l1 as [|md l1 IH]; intros i; simpl.
  - f_equal. lia.
  - destruct (url_is md u); [reflexivity|].
    rewrite IH. destruct (first_match u l1 (S i)); [reflexivity|].
    f_equal. lia.
Qed.

Lemma resolve_Some (g : GetResult) (u text : string) :
  resolve g u = Ok (Some text) <->
  exists j, first_match u (metadatas g) 0 = Some j /\ documents g !! j = Some text.
Proof.
  unfold resolve, document_at.
  destruct (first_match u (metadatas g) 0) as [j|].
  - destruct (documents g !! j) as [d|] eqn:E; simpl; split.
    + intros [= <-]. eauto.
    + intros (j' & [= <-] & H). rewrite E in H. injection H as <-. reflexivity.
    + discriminate.
    + intros (j' & [= <-] & H). rewrite E in H. discriminate.
  - split; [discriminate|]. intros (j & H & _). discriminate.
Qed.

Lemma resolve_grows (mds mds' : list (gmap string string))
    (docs docs' : list string) (u text : string) :
  resolve {| metadatas := mds; documents := docs |} u = Ok (Some text) ->
  resolve {| metadatas := mds ++ mds'; documents := docs ++ docs' |} u
  = Ok (Some text).
Proof.
  rewrite !resolve_Some. simpl. intros (j & H1 & H2).
  exists j. rewrite first_match_app, H1. split; [reflexivity|].
  apply lookup_app_l_Some, H2.
Qed.

(** [get_post_context] in terms of [resolve]. *)
Lemma get_post_context_resolve (self : SimilaritySearcher) (vs : Chroma)
    (u text : string) (n : option Z) :
  vectorstore (embeddings_manager self) = Some vs ->
  resolve (get vs) u = Ok (Some text) ->
  get_post_context self u n = Some (snippet text (default 500 n)).
Proof.
  intros Hv Hr. apply resolve_Some in Hr. destruct Hr as (j & H1 & H2).
  unfold get_post_context, vectorstore_get, document_at.
  rewrite Hv. simpl. rewrite H1, H2. reflexivity.
Qed.

(** *** Building *)

Lemma fold_build_Some (bs : list (list Document)) (vs : Chroma) :
  fold_left (build_batch from_documents add_documents) bs (Some vs)
  = Some (fold_left add_documents bs vs).
Proof.
  revert vs. induction bs as [|b bs IH]; intros vs; [reflexivity|].
  simpl. apply IH.
Qed.

Lemma fold_add_get (bs : list (list Document)) (vs : Chroma) :
  appends_documents add_documents ->
  metadatas (get (fold_left add_documents bs vs))
  = metadatas (get vs) ++ map metadata (concat bs)
  /\ documents (get (fold_left add_documents bs vs))
     = documents (get vs) ++ map page_content (concat bs).
Proof.
  intros Hadd. revert vs. induction bs as [|b bs IH]; intros vs; simpl.
  - rewrite !app_nil_r. auto.
  - destruct (IH (add_documents vs b)) as [H1 H2].
    rewrite H1, H2, Hadd. simpl. rewrite !map_app, !app_assoc. auto.
Qed.

End RoundTrip.

Section Stored.

Variable from_documents : list Document -> Chroma.
Variable add_documents : Chroma -> list Document -> Chroma.

Lemma create_documents_nil (posts : list ScrapedPost) :
  posts <> [] -> create_documents posts <> [].
Proof. destruct posts; [contradiction | discriminate]. Qed.

(** A build on a manager without a store, for posts that are not none:
    the first batch opens the collection, the others are added. *)
Lemma build_fresh (persisted : GetResult) (posts : list ScrapedPost)
    (b : bool) :
  adds_to_collection persisted from_documents ->
  appends_documents add_documents ->
  posts <> [] ->
  exists vs,
    vectorstore (build_vectorstore from_documents add_documents
                   {| vectorstore := None |} posts b) = Some vs
    /\ metadatas (get vs)
       = metadatas persisted ++ map metadata (create_documents posts)
    /\ documents (get vs)
       = documents persisted ++ map page_content (create_documents posts).
Proof.
  intros Hfrom Hadd Hne. apply create_documents_nil in Hne.
  unfold build_vectorstore. destruct b; simpl.
  2:{ eexists. split; [reflexivity|]. rewrite (Hfrom _ Hne). auto. }
  pose proof (batches_concat (length (create_documents posts)) 10
                (create_documents posts)) as Hc.
  destruct (create_documents posts) as [|d docs] eqn:E; [contradiction|].
  change (batches (length (d :: docs)) 10 (d :: docs))
    with (firstn 10 (d :: docs)
          :: batches (length docs) 10 (skipn 10 (d :: docs))) in *.
  cbn [fold_left build_batch]. rewrite fold_build_Some.
  eexists. split; [reflexivity|].
  destruct (fold_add_get add_documents
              (batches (length docs) 10 (skipn 10 (d :: docs)))
              (from_documents (firstn 10 (d :: docs))) Hadd) as [H1 H2].
  rewrite Hfrom in H1, H2 by discriminate.
  cbn [metadatas documents] in H1, H2.
  rewrite <- !app_assoc, <- map_app in H1, H2.
  cbn [concat] in Hc. rewrite Hc in H1, H2 by lia. auto.
Qed.

(** X5: what [build_vectorstore] leaves in the manager. [from_documents]
    writes into the persisted collection of the configuration, which
    holds the records [persisted] before the call (none for a new
    directory). With the progress bar and no posts the call changes
    nothing, so a manager without a store stays without one. With the
    progress bar and a store in the manager, the new documents are added
    to that store. In the other cases, for posts that are not none, the
    manager ends with a store whose full scan is the records persisted
    before, followed by the documents created from the posts, in their
    order: a build over a directory that was built before does not
    replace its records. *)
Theorem build_vectorstore_contents (persisted : GetResult)
    (self : EmbeddingsManager) (posts : list ScrapedPost) :
  adds_to_collection persisted from_documents ->
  appends_documents add_documents ->
  build_vectorstore from_documents add_documents self [] true = self
  /\ (forall vs,
        vectorstore self = Some vs ->
        exists vs',
          vectorstore (build_vectorstore from_documents add_documents
                         self posts true) = Some vs'
          /\ metadatas (get vs')
             = metadatas (get vs) ++ map metadata (create_documents posts)
          /\ documents (get vs')
             = documents (get vs) ++ map page_content (create_documents posts))
  /\ (vectorstore self = None -> posts <> [] ->
      exists vs',
        vectorstore (build_vectorstore from_documents add_documents
                       self posts true) = Some vs'
        /\ metadatas (get vs')
           = metadatas persisted ++ map metadata (create_documents posts)
        /\ documents (get vs')
           = documents persisted ++ map page_content (create_documents posts))
  /\ (posts <> [] ->
      exists vs',
        vectorstore (build_vectorstore from_documents add_documents
                       self posts false) = Some vs'
        /\ metadatas (get vs')
           = metadatas persisted ++ map metadata (create_documents posts)
        /\ documents (get vs')
           = documents persisted ++ map page_content (create_documents posts)).
Proof.
  intros Hfrom Hadd. split; [|split; [|split]].
  - destruct self. reflexivity.
  - intros vs Hv. unfold build_vectorstore. simpl. rewrite Hv, fold_build_Some.
    eexists. split; [reflexivity|].
    destruct (fold_add_get add_documents
                (batches (length (create_documents posts)) 10
                   (create_documents posts)) vs Hadd) as [H1 H2].
    rewrite batches_concat in H1, H2 by lia. auto.
  - intros Hv Hne. destruct self as [v]. simpl in Hv. subst v.
    apply build_fresh; assumption.
  - intros Hne. apply create_documents_nil in Hne.
    eexists. split; [reflexivity|]. rewrite (Hfrom _ Hne). auto.
Qed.

(** X6: round trip of an ingested post. After [build_vectorstore] on a new
    manager, over a collection that held the records [persisted] (as many
    texts as metadata records), [get_all_urls] lists the urls persisted
    before and then the urls of the posts, in their order, empty urls left
    out, and [validate_url] accepts the url of every post. For the first
    post [p] with a given url: when no persisted record carries the url,
    the query text resolved for it is [title + "\n\n" + content] of [p],
    never the empty string, and [get_post_context] returns the snippet of
    that text; when a persisted record carries the url, the text of that
    older record is the one resolved and returned, not the text of [p]. *)
Theorem ingested_posts_are_found (persisted : GetResult)
    (posts : list ScrapedPost) (b : bool) (p : ScrapedPost) :
  adds_to_collection persisted from_documents ->
  appends_documents add_documents ->
  length (documents persisted) = length (metadatas persisted) ->
  first_post (post_url p) posts = Some p ->
  exists vs,
    let em := build_vectorstore from_documents add_documents
                {| vectorstore := None |} posts b in
    vectorstore em = Some vs
    /\ get_all_urls (create_searcher em)
       = keep_truthy
           (map (fun md : gmap string string => md !! "url"%string)
              (metadatas persisted))
         ++ List.filter nonempty (map post_url posts)
    /\ validate_url (create_searcher em) (post_url p) = true
    /\ post_text p <> ""%string
    /\ (first_match (post_url p) (metadatas persisted) 0 = None ->
        resolve (get vs) (post_url p) = Ok (Some (post_text p))
        /\ forall n,
             get_post_context (create_searcher em) (post_url p) n
             = Some (snippet (post_text p) (default 500 n)))
    /\ (forall old,
          resolve persisted (post_url p) = Ok (Some old) ->
          resolve (get vs) (post_url p) = Ok (Some old)
          /\ forall n,
               get_post_context (create_searcher em) (post_url p) n
               = Some (snippet old (default 500 n))).
Proof.
  intros Hfrom Hadd Hlen Hp.
  destruct (build_fresh persisted posts b Hfrom Hadd) as (vs & Hv & Hm & Hd).
  { intros ->. discriminate. }
  exists vs. cbn zeta.
  pose proof (first_match_created (post_url p) posts
                (length (metadatas persisted))) as Hc.
  rewrite Hp in Hc. destruct Hc as (j & Hj & Hdoc).
  assert (Hnew : first_match (post_url p) (metadatas persisted) 0 = None ->
                 resolve (get vs) (post_url p) = Ok (Some (post_text p))).
  { intros Hnone. apply resolve_Some.
    exists (length (metadatas persisted) + j)%nat.
    rewrite Hm, Hd, first_match_app, Hnone. simpl. split; [exact Hj|].
    rewrite <- Hlen. rewrite lookup_app_r by lia.
    replace (length (documents persisted) + j - length (documents persisted))%nat
      with j by lia.
    exact Hdoc. }
  assert (Hold : forall old,
             resolve persisted (post_url p) = Ok (Some old) ->
             resolve (get vs) (post_url p) = Ok (Some old)).
  { intros old Ho. destruct persisted as [pm pd].
    pose proof (resolve_grows pm (map metadata (create_documents posts))
                  pd (map page_content (create_documents posts))
                  (post_url p) old Ho) as Hg.
    simpl in Hm, Hd. rewrite <- Hm, <- Hd in Hg.
    destruct (get vs). exact Hg. }
  split; [exact Hv|]. split; [|split; [|split; [|split]]].
  - unfold get_all_urls, vectorstore_get. simpl. rewrite Hv. simpl.
    rewrite Hm, map_app, keep_truthy_app. f_equal. apply keep_truthy_created.
  - unfold validate_url, vectorstore_get. simpl. rewrite Hv. simpl.
    rewrite Hm, first_match_app.
    destruct (first_match (post_url p) (metadatas persisted) 0);
      [reflexivity|].
    simpl. rewrite Hj. reflexivity.
  - apply post_text_nonempty.
  - intros Hnone. split; [apply Hnew, Hnone|].
    intros n. eapply get_post_context_resolve; [exact Hv | apply Hnew, Hnone].
  - intros old Ho. split; [apply Hold, Ho|].
    intros n. eapply get_post_context_resolve; [exact Hv | apply Hold, Ho].
Qed.

(** X7: [add_posts] never replaces or removes a record. Over a loaded
    store that keeps its documents, the listing afterwards is the old
    listing followed by the urls of the new posts, so a url added again is
    listed twice; and a url that resolved to a text before resolves to the
    same text afterwards, so for a url already stored the text of the new
    post is not the one [get_post_context] returns. *)
Theorem add_posts_accumulates (self : EmbeddingsManager) (vs : Chroma)
    (new_posts : list ScrapedPost) :
  keeps_documents from_documents add_documents ->
  vectorstore self = Some vs ->
  truth vs = true ->
  let self' := add_posts from_documents add_documents self new_posts in
  get_all_urls (create_searcher self')
  = get_all_urls (create_searcher self)
    ++ List.filter nonempty (map post_url new_posts)
  /\ (forall u text,
        resolve (get vs) u = Ok (Some text) ->
        (exists vs', vectorstore self' = Some vs'
                     /\ resolve (get vs') u = Ok (Some text))
        /\ forall n,
             get_post_context (create_searcher self') u n
             = get_post_context (create_searcher self) u n).
Proof.
  intros [_ Hadd] Hv Ht. cbn zeta.
  unfold add_posts. rewrite Hv, Ht. simpl.
  assert (Hr : forall u text,
             resolve (get vs) u = Ok (Some text) ->
             resolve (get (add_documents vs (create_documents new_posts))) u
             = Ok (Some text)).
  { intros u text H. rewrite Hadd. destruct (get vs) as [m d].
    apply resolve_grows, H. }
  split.
  - unfold get_all_urls, vectorstore_get. simpl. rewrite Hv. simpl.
    rewrite Hadd. simpl. rewrite map_app, keep_truthy_app.
    f_equal. apply keep_truthy_created.
  - intros u text H. split.
    + eexists. split; [reflexivity|]. apply Hr, H.
    + intros n.
      rewrite (get_post_context_resolve
                 (create_searcher
                    {| vectorstore :=
                         Some (add_documents vs (create_documents new_posts)) |})
                 _ u text n eq_refl (Hr u text H)).
      rewrite (get_post_context_resolve (create_searcher self) vs u text n Hv H).
      reflexivity.
Qed.

End Stored.

Section Initialised.

Variable from_documents : list Document -> Chroma.
Variable add_documents : Chroma -> list Document -> Chroma.
Variable open_collection : result Chroma.
Variable collection_count : Chroma -> result Z.

Lemma build_vectorstore_Some (self : EmbeddingsManager)
    (posts : list ScrapedPost) (b : bool) :
  posts <> [] ->
  vectorstore (build_vectorstore from_documents add_documents self posts b)
  <> None.
Proof.
  intros Hne. unfold build_vectorstore. destruct b; simpl; [|discriminate].
  destruct (create_documents posts) as [|d docs] eqn:E.
  { destruct posts; [contradiction | discriminate]. }
  change (batches (length (d :: docs)) 10 (d :: docs))
    with (firstn 10 (d :: docs)
          :: batches (length docs) 10 (skipn 10 (d :: docs))).
  cbn [fold_left].
  destruct (vectorstore self); cbn [build_batch];
    rewrite fold_build_Some; discriminate.
Qed.

Lemma posts_truthy_nonempty (posts : option (list ScrapedPost)) :
  posts_truthy posts = true -> default [] posts <> [].
Proof. destruct posts as [[|p l]|]; simpl; congruence. Qed.

Lemma load_vectorstore_Some (self : EmbeddingsManager) (vs : Chroma) :
  fst (load_vectorstore open_collection collection_count self) = Some vs <->
  exists c, open_collection = Ok vs /\ collection_count vs = Ok c /\ 0 < c.
Proof.
  unfold load_vectorstore.
  destruct open_collection as [vs0|e0]; simpl.
  2:{ split; [discriminate | intros (c & H & _); discriminate]. }
  destruct (collection_count vs0) as [c0|e1] eqn:Ec; simpl.
  2:{ split; [discriminate|]. intros (c & [= <-] & H & _). congruence. }
  destruct (c0 >? 0) eqn:E; simpl; rewrite Z.gtb_ltb in E.
  - apply Z.ltb_lt in E. split.
    + intros [= <-]. eauto.
    + intros (c & [= <-] & _). reflexivity.
  - apply Z.ltb_ge in E. split; [discriminate|].
    intros (c & [= <-] & H & Hc). rewrite Ec in H. injection H as <-. lia.
Qed.

Lemma load_vectorstore_manager (self : EmbeddingsManager) (vs : Chroma) :
  fst (load_vectorstore open_collection collection_count self) = Some vs ->
  snd (load_vectorstore open_collection collection_count self)
  = {| vectorstore := Some vs |}.
Proof.
  unfold load_vectorstore.
  destruct open_collection as [vs0|e0]; simpl; [|discriminate].
  destruct (collection_count vs0) as [c0|e1]; simpl; [|discriminate].
  destruct (c0 >? 0); simpl; [|discriminate].
  intros [= <-]. reflexivity.
Qed.

(** X8: [initialize_database] returns a manager that holds a store, or
    raises. It raises exactly when there are no posts and no usable
    persisted collection (one that opens, counts more than 0 documents and
    is truthy), and then with the [ValueError] "No existing vectorstore
    found ...". When a usable collection is there and no rebuild with posts
    is asked for, the manager holds that collection and the posts passed
    are not written. *)
Theorem initialize_database_result (posts : option (list ScrapedPost))
    (force_rebuild : bool) :
  let init := initialize_database from_documents add_documents
                open_collection collection_count posts force_rebuild in
  let usable :=
    exists vs c, open_collection = Ok vs /\ collection_count vs = Ok c
                 /\ 0 < c /\ truth vs = true in
  (forall m, init = Ok m -> vectorstore m <> None)
  /\ (forall e, init = Raise e <->
                e = no_vectorstore /\ posts_truthy posts = false /\ ~ usable)
  /\ (forall vs c,
        open_collection = Ok vs -> collection_count vs = Ok c -> 0 < c ->
        truth vs = true ->
        force_rebuild && posts_truthy posts = false ->
        init = Ok {| vectorstore := Some vs |}).
Proof.
  cbn zeta. unfold initialize_database.
  destruct (force_rebuild && posts_truthy posts) eqn:Ef.
  { apply andb_prop in Ef. destruct Ef as [_ Hp]. split; [|split].
    - intros m H.
      replace m with (build_vectorstore from_documents add_documents
                        {| vectorstore := None |} (default [] posts) true)
        by congruence.
      apply build_vectorstore_Some, posts_truthy_nonempty, Hp.
    - intros e. split; [discriminate|]. intros (_ & H & _). congruence.
    - discriminate. }
  unfold get_or_create_vectorstore.
  pose proof (load_vectorstore_Some {| vectorstore := None |}) as Hl.
  pose proof (load_vectorstore_manager {| vectorstore := None |}) as Hm.
  destruct (load_vectorstore open_collection collection_count
              {| vectorstore := None |}) as [existing self1].
  simpl in Hl, Hm.
  destruct (store_truthy existing) eqn:Et.
  - destruct existing as [vs|]; [|discriminate]. simpl in Et.
    rewrite (Hm vs eq_refl).
    destruct (proj1 (Hl vs) eq_refl) as (c & Ho & Hc & Hpos).
    split; [|split].
    + intros m [= <-]. discriminate.
    + intros e. split; [discriminate|]. intros (_ & _ & H).
      exfalso. apply H. exists vs, c. auto.
    + intros vs' c' H. rewrite Ho in H. injection H as <-. reflexivity.
  - assert (Hno : ~ exists vs c, open_collection = Ok vs
                     /\ collection_count vs = Ok c /\ 0 < c
                     /\ truth vs = true).
    { intros (vs & c & Ho & Hc & Hpos & Htr).
      assert (He : existing = Some vs) by (apply Hl; eauto).
      subst existing. simpl in Et. congruence. }
    destruct (posts_truthy posts) eqn:Ep; (split; [|split]).
    + intros m H.
      replace m with (build_vectorstore from_documents add_documents
                        self1 (default [] posts) true)
        by congruence.
      apply build_vectorstore_Some, posts_truthy_nonempty, Ep.
    + intros e. split; [discriminate|]. intros (_ & H & _). congruence.
    + intros vs c Ho Hc Hpos Htr _. exfalso. apply Hno. eauto 10.
    + discriminate.
    + intros e. split.
      * intros [= <-]. auto.
      * intros (-> & _ & _). reflexivity.
    + intros vs c Ho Hc Hpos Htr _. exfalso. apply Hno. eauto 10.
Qed.

End Initialised.

Section Searched.

Local Open Scope Q_scope.

(** *** Lengths of strings *)

Lemma length_app_string (s1 s2 : string) :
  String.length (s1 +:+ s2) = (String.length s1 + String.length s2)%nat.
Proof.
  induction s1 as [|c s1 IH]; [reflexivity|].
  change (String c s1 +:+ s2) with (String c (s1 +:+ s2)).
  simpl. rewrite IH. reflexivity.
Qed.

Lemma substring_length_le (n : nat) (s : string) :
  (String.length (String.substring 0 n s) <= n)%nat.
Proof.
  revert s. induction n as [|n IH]; intros [|c s]; simpl; try lia.
  specialize (IH s). lia.
Qed.

Lemma snippet_length (text : string) (n : Z) :
  (0 <= n)%Z -> (len (snippet text n) <= n + 3)%Z.
Proof.
  intros Hn. unfold snippet, len, str_slice_to.
  destruct (Z.of_nat (String.length text) >? n)%Z eqn:E.
  - rewrite (proj2 (Z.leb_le 0 n) Hn), length_app_string.
    pose proof (substring_length_le (Z.to_nat n) text). simpl. lia.
  - rewrite Z.gtb_ltb in E. apply Z.ltb_ge in E. lia.
Qed.

Lemma get_post_context_Some (self : SimilaritySearcher) (u text : string)
    (n : option Z) :
  get_post_context self u n = Some text ->
  exists content, text = snippet content (default 500%Z n).
Proof.
  unfold get_post_context.
  destruct (vectorstore_get self) as [all_docs|e]; simpl; [|discriminate].
  destruct (first_match u (metadatas all_docs) 0) as [j|]; simpl;
    [|discriminate].
  destruct (document_at all_docs j); simpl; [|discriminate].
  intros [= <-]. eauto.
Qed.

(** X9: the context handed on is short. For a count [max_chars >= 0]
    the text returned by [get_post_context] has at most [max_chars + 3]
    characters, 503 with the default. For a negative [max_chars] the text
    returned for a stored url is the stored text without its last
    [- max_chars] characters (nothing of it when it is that short),
    followed by the marker: every stored text is cut from its end and
    marked, also one shorter than the cut. *)
Theorem get_post_context_length (self : SimilaritySearcher) (u : string) :
  (forall text,
      get_post_context self u None = Some text -> (len text <= 503)%Z)
  /\ (forall n text,
        (0 <= n)%Z -> get_post_context self u (Some n) = Some text ->
        (len text <= n + 3)%Z)
  /\ (forall n vs content,
        (n < 0)%Z ->
        vectorstore (embeddings_manager self) = Some vs ->
        resolve (get vs) u = Ok (Some content) ->
        get_post_context self u (Some n)
        = Some (String.substring 0
                  (String.length content - Z.to_nat (- n)) content
                +:+ "...")).
Proof.
  split; [|split].
  - intros text H. apply get_post_context_Some in H.
    destruct H as (content & ->). apply (snippet_length content 500). lia.
  - intros n text Hn H. apply get_post_context_Some in H.
    destruct H as (content & ->). apply snippet_length, Hn.
  - intros n vs content Hn Hv Hr.
    rewrite (get_post_context_resolve self vs u content (Some n) Hv Hr).
    f_equal. unfold snippet, str_slice_to, len. simpl.
    destruct (Z.of_nat (String.length content) >? n)%Z eqn:E.
    + destruct (0 <=? n)%Z eqn:E0; [apply Z.leb_le in E0; lia | reflexivity].
    + rewrite Z.gtb_ltb in E. apply Z.ltb_ge in E. lia.
Qed.

(** X10: over a store whose full scan has as many texts as metadata
    records, [get_post_context] answers [None] exactly for the urls that
    [validate_url] rejects. *)
Theorem context_iff_valid (self : SimilaritySearcher) (vs : Chroma)
    (u : string) (n : option Z) :
  vectorstore (embeddings_manager self) = Some vs ->
  length (documents (get vs)) = length (metadatas (get vs)) ->
  (get_post_context self u n = None <-> validate_url self u = false).
Proof.
  intros Hv Hlen. unfold get_post_context, validate_url, vectorstore_get.
  rewrite Hv. simpl.
  destruct (first_match u (metadatas (get vs)) 0) as [j|] eqn:E; simpl;
    [|tauto].
  apply first_match_bound in E.
  unfold document_at.
  destruct (lookup_lt_is_Some_2 (documents (get vs)) j) as [d Hd]; [lia|].
  rewrite Hd. simpl. split; discriminate.
Qed.

(** *** Nothing is lost by the sort *)

Lemma insert_desc_perm (x : Post) (l : list Post) :
  Permutation (x :: l) (insert_desc x l).
Proof.
  induction l as [|y l IH]; simpl; [reflexivity|].
  destruct (Qle_bool (similarity y) (similarity x)); [reflexivity|].
  rewrite <- IH. apply perm_swap.
Qed.

Lemma sort_desc_perm (l : list Post) : Permutation l (sort_desc l).
Proof.
  induction l as [|x l IH]; simpl; [reflexivity|].
  rewrite <- insert_desc_perm. apply perm_skip, IH.
Qed.

(** X11: how many candidates come back, and that none is lost. On the path
    that reaches the store, for [top_k >= 0], [find_similar_posts] returns
    exactly [min top_k n] entries, [n] the number of neighbours that are
    not the query and pass the threshold; when [n <= top_k] the entries
    returned, ranks apart, are a permutation of those neighbours. *)
Theorem find_similar_posts_complete (self : SimilaritySearcher)
    (query_url : string) (top_k : option Z) (vs : Chroma) (text : string)
    (results : list (Document * Q)) :
  vectorstore (embeddings_manager self) = Some vs ->
  truth vs = true ->
  resolve (get vs) query_url = Ok (Some text) ->
  text <> ""%string ->
  similarity_search_with_score vs text
    (default Config.FINAL_SUGGESTIONS top_k + 1) = Ok results ->
  (0 <= default Config.FINAL_SUGGESTIONS top_k)%Z ->
  Z.of_nat (length (find_similar_posts self query_url top_k))
  = Z.min (default Config.FINAL_SUGGESTIONS top_k)
      (Z.of_nat (length (similar_posts_loop query_url results)))
  /\ ((Z.of_nat (length (similar_posts_loop query_url results))
       <= default Config.FINAL_SUGGESTIONS top_k)%Z ->
      Permutation (map clear_rank (find_similar_posts self query_url top_k))
        (similar_posts_loop query_url results)).
Proof.
  intros Hv Ht Hr Hne Hs Hk.
  rewrite find_similar_posts_eq.
  rewrite (search_similar_run _ _ _ vs text Hv Ht Hr Hne). simpl default.
  rewrite Hs. simpl. split.
  - rewrite add_ranks_length. unfold slice_to.
    rewrite (proj2 (Z.leb_le 0 _) Hk), length_firstn, sort_desc_length. lia.
  - intros Hlen. rewrite add_ranks_clear.
    rewrite slice_to_all by (rewrite sort_desc_length; exact Hlen).
    rewrite clear_rank_id.
    + symmetry. apply sort_desc_perm.
    + intros r Hin. apply sort_desc_incl in Hin.
      eapply similar_posts_loop_unranked, Hin.
Qed.

End Searched.

Section Scraped.

Variable arun : string -> Z -> result CrawlResult.

(** *** What is extracted from one result *)

Lemma nonempty_true (s : string) : nonempty s = true -> s <> ""%string.
Proof.
  unfold nonempty. intros H ->. discriminate.
Qed.

Lemma nonempty_false (s : string) : nonempty s = false -> s = ""%string.
Proof.
  unfold nonempty. intros H. apply String.eqb_eq.
  destruct (String.eqb s ""); [reflexivity | discriminate].
Qed.

(** A title comes out only of a metadata title that is a string and keeps
    a character when stripped. *)
Lemma extract_title_Ok (r : CrawlResult) (t : string) :
  extract_title r = Ok t <->
  exists md v,
    crawl_metadata r = Some md /\ md !! "title"%string = Some (Some v)
    /\ t = strip v /\ strip v <> ""%string.
Proof.
  unfold extract_title, crawl_title.
  destruct (crawl_metadata r) as [md|].
  2:{ split; [discriminate | intros (md & v & H & _); discriminate]. }
  destruct (md !! "title"%string) as [[v|]|] eqn:Em; simpl.
  - destruct (nonempty (strip v)) eqn:E; simpl.
    + split.
      * intros [= <-]. exists md, v. repeat split; try assumption.
        apply nonempty_true, E.
      * intros (md' & v' & [= <-] & Hv & -> & _).
        rewrite Em in Hv. injection Hv as <-. reflexivity.
    + split; [discriminate|].
      intros (md' & v' & [= <-] & Hv & _ & Hne).
      rewrite Em in Hv. injection Hv as <-.
      apply nonempty_false in E. contradiction.
  - split; [discriminate|].
    intros (md' & v & [= <-] & H & _). congruence.
  - split; [discriminate|].
    intros (md' & v & [= <-] & H & _). congruence.
Qed.

Lemma extract_title_nonempty (r : CrawlResult) (t : string) :
  extract_title r = Ok t -> t <> ""%string.
Proof.
  intros H. apply extract_title_Ok in H.
  destruct H as (md & v & _ & _ & -> & Hne). exact Hne.
Qed.

Lemma extract_title_Raise (r : CrawlResult) (e : exn) :
  extract_title r = Raise e <->
  e = AttributeError
  /\ forall md v,
       crawl_metadata r = Some md ->
       md !! "title"%string = Some (Some v) -> strip v = ""%string.
Proof.
  unfold extract_title, crawl_title.
  destruct (crawl_metadata r) as [md|].
  2:{ split; [intros [= <-]; split; [reflexivity | discriminate]
             | intros (-> & _); reflexivity]. }
  destruct (md !! "title"%string) as [[v|]|] eqn:Em; simpl.
  - destruct (nonempty (strip v)) eqn:E; simpl.
    + split; [discriminate|]. intros (_ & H).
      apply nonempty_true in E. exfalso. apply E, (H md v eq_refl Em).
    + split.
      * intros [= <-]. split; [reflexivity|].
        intros md' v' [= <-] Hv. rewrite Em in Hv. injection Hv as <-.
        apply nonempty_false, E.
      * intros (-> & _). reflexivity.
  - split; [|intros (-> & _); reflexivity].
    intros [= <-]. split; [reflexivity|].
    intros md' v [= <-] Hv. congruence.
  - split; [|intros (-> & _); reflexivity].
    intros [= <-]. split; [reflexivity|].
    intros md' v [= <-] Hv. congruence.
Qed.

(** A content comes out only of a markdown that is a string. *)
Lemma extract_content_Ok (r : CrawlResult) (c : string) :
  extract_content r = Ok c <->
  exists text,
    markdown r = Some text
    /\ c = (if len (strip text) >? ScraperConfig.MAX_CONTENT_LENGTH
            then str_slice_to ScraperConfig.MAX_CONTENT_LENGTH (strip text)
            else strip text).
Proof.
  unfold extract_content. destruct (markdown r) as [text|].
  - split.
    + intros H. exists text. split; [reflexivity|].
      destruct (len (strip text) >? _); congruence.
    + intros (text' & [= <-] & ->).
      destruct (len (strip text) >? _); reflexivity.
  - split; [discriminate | intros (text & H & _); discriminate].
Qed.

Lemma extract_content_Raise (r : CrawlResult) (e : exn) :
  extract_content r = Raise e <-> e = AttributeError /\ markdown r = None.
Proof.
  unfold extract_content. destruct (markdown r) as [text|].
  - split; [|intros (_ & H); discriminate].
    destruct (len (strip text) >? _); discriminate.
  - split; [intros [= <-]; auto | intros (-> & _); reflexivity].
Qed.

Lemma extract_content_length (r : CrawlResult) (c : string) :
  extract_content r = Ok c -> len c <= ScraperConfig.MAX_CONTENT_LENGTH.
Proof.
  intros H. apply extract_content_Ok in H. destruct H as (text & _ & ->).
  destruct (len (strip text) >? ScraperConfig.MAX_CONTENT_LENGTH) eqn:E.
  - unfold str_slice_to, len. simpl.
    pose proof (substring_length_le (Z.to_nat 10000) (strip text)).
    unfold ScraperConfig.MAX_CONTENT_LENGTH. lia.
  - rewrite Z.gtb_ltb in E. apply Z.ltb_ge in E. exact E.
Qed.

(** *** The loops *)

Lemma process_batch_app (b1 b2 : list string) (n : Z)
    (acc : list ScrapedPost) :
  process_batch arun (b1 ++ b2) n acc =
  (acc' <- process_batch arun b1 n acc ;;
   process_batch arun b2 (n + Z.of_nat (length b1)) acc').
Proof.
  revert n acc. induction b1 as [|url b1 IH]; intros n acc.
  - simpl. f_equal. lia.
  - cbn [app process_batch length].
    replace (n + Z.of_nat (S (length b1))) with (n + 1 + Z.of_nat (length b1))
      by lia.
    destruct (arun url n) as [r|e]; [|apply IH].
    destruct (success r); [|apply IH].
    destruct (extract_title r) as [t|e]; simpl; [|reflexivity].
    destruct (extract_content r) as [c|e]; simpl; [apply IH | reflexivity].
Qed.

Lemma scrape_batches_seq (fuel : nat) (l : list string) (i : Z)
    (acc : list ScrapedPost) :
  (length l <= fuel)%nat ->
  scrape_batches arun (batches fuel 5 l) i acc = process_batch arun l i acc.
Proof.
  revert l i acc. induction fuel as [|fuel IH]; intros l i acc Hl.
  - destruct l; [reflexivity | simpl in Hl; lia].
  - destruct l as [|x l]; [reflexivity|].
    change (batches (S fuel) 5 (x :: l))
      with (firstn 5 (x :: l) :: batches fuel 5 (skipn 5 (x :: l))).
    assert (Hsplit : x :: l = firstn 5 (x :: l) ++ skipn 5 (x :: l))
      by (symmetry; apply firstn_skipn).
    assert (Hrest : (length (skipn 5 (x :: l)) <= fuel)%nat)
      by (rewrite length_skipn; simpl in *; lia).
    assert (Hfull : skipn 5 (x :: l) <> [] ->
                    length (firstn 5 (x :: l)) = 5%nat).
    { intros Hne. rewrite length_firstn.
      assert (length (skipn 5 (x :: l)) <> 0)%nat
        by (destruct (skipn 5 (x :: l)); [contradiction | discriminate]).
      rewrite length_skipn in H. lia. }
    transitivity
      (process_batch arun (firstn 5 (x :: l) ++ skipn 5 (x :: l)) i acc);
      [|rewrite <- Hsplit; reflexivity].
    clear Hsplit.
    generalize dependent (skipn 5 (x :: l)).
    generalize dependent (firstn 5 (x :: l)).
    intros b1 rest Hrest Hfull.
    cbn [scrape_batches]. rewrite process_batch_app.
    destruct (process_batch arun b1 i acc) as [acc'|e]; simpl; [|reflexivity].
    rewrite IH by exact Hrest.
    destruct rest as [|y r]; [reflexivity|].
    rewrite Hfull by discriminate. reflexivity.
Qed.

(** A post as the scrape leaves it: a title that is not empty and a
    content of at most [MAX_CONTENT_LENGTH] characters. *)
Lemma process_batch_Ok (batch : list string) (n : Z)
    (acc res : list ScrapedPost) :
  process_batch arun batch n acc = Ok res ->
  exists new,
    res = acc ++ new
    /\ sublist (map post_url new) batch
    /\ Forall (fun p => post_title p <> ""%string
                        /\ len (post_content p)
                           <= ScraperConfig.MAX_CONTENT_LENGTH) new.
Proof.
  revert n acc. induction batch as [|url batch IH]; intros n acc H.
  - injection H as <-. exists []. rewrite app_nil_r.
    repeat split; constructor.
  - cbn [process_batch] in H.
    assert (Hskip : process_batch arun batch (n + 1) acc = Ok res ->
                    exists new,
                      res = acc ++ new
                      /\ sublist (map post_url new) (url :: batch)
                      /\ Forall (fun p => post_title p <> ""%string
                                   /\ len (post_content p)
                                      <= ScraperConfig.MAX_CONTENT_LENGTH) new).
    { intros H'. apply IH in H'. destruct H' as (new & -> & Hs & Hf).
      exists new. repeat split; [|exact Hf]. apply sublist_cons, Hs. }
    destruct (arun url n) as [r|e]; [|exact (Hskip H)].
    destruct (success r); [|exact (Hskip H)].
    destruct (extract_title r) as [t|e] eqn:Et; simpl in H; [|discriminate].
    destruct (extract_content r) as [c|e] eqn:Ec; simpl in H; [|discriminate].
    apply IH in H. destruct H as (new & -> & Hs & Hf).
    eexists (_ :: new). rewrite <- app_assoc. split; [reflexivity|].
    split; [apply sublist_skip, Hs|].
    constructor; [|exact Hf]. simpl. split.
    + eapply extract_title_nonempty, Et.
    + eapply extract_content_length, Ec.
Qed.

(** Where a post of the result comes from: a successful crawl of its url,
    under the session number of the url's place. *)
Lemma process_batch_origin (batch : list string) (n : Z)
    (acc res : list ScrapedPost) :
  process_batch arun batch n acc = Ok res ->
  exists new,
    res = acc ++ new
    /\ Forall (fun p =>
                 exists (j : nat) r md v,
                   batch !! j = Some (post_url p)
                   /\ arun (post_url p) (n + Z.of_nat j) = Ok r
                   /\ success r = true
                   /\ crawl_metadata r = Some md
                   /\ md !! "title"%string = Some (Some v)
                   /\ post_title p = strip v
                   /\ extract_content r = Ok (post_content p)) new.
Proof.
  revert n acc. induction batch as [|url batch IH]; intros n acc H.
  - injection H as <-. exists []. rewrite app_nil_r. split; constructor.
  - cbn [process_batch] in H.
    assert (Hshift : forall new : list ScrapedPost,
              Forall (fun p =>
                 exists (j : nat) r md v,
                   batch !! j = Some (post_url p)
                   /\ arun (post_url p) (n + 1 + Z.of_nat j) = Ok r
                   /\ success r = true
                   /\ crawl_metadata r = Some md
                   /\ md !! "title"%string = Some (Some v)
                   /\ post_title p = strip v
                   /\ extract_content r = Ok (post_content p)) new ->
              Forall (fun p =>
                 exists (j : nat) r md v,
                   (url :: batch) !! j = Some (post_url p)
                   /\ arun (post_url p) (n + Z.of_nat j) = Ok r
                   /\ success r = true
                   /\ crawl_metadata r = Some md
                   /\ md !! "title"%string = Some (Some v)
                   /\ post_title p = strip v
                   /\ extract_content r = Ok (post_content p)) new).
    { intros new Hf. eapply List.Forall_impl; [|exact Hf].
      intros p (j & r & md & v & H1 & H2 & H3).
      exists (S j), r, md, v. split; [exact H1|]. split; [|exact H3].
      rewrite <- H2. f_equal. lia. }
    destruct (arun url n) as [r|e] eqn:Ea.
    2:{ apply IH in H. destruct H as (new & -> & Hf). exists new. auto. }
    destruct (success r) eqn:Es.
    2:{ apply IH in H. destruct H as (new & -> & Hf). exists new. auto. }
    destruct (extract_title r) as [t|e] eqn:Et; simpl in H; [|discriminate].
    destruct (extract_content r) as [c|e] eqn:Ec; simpl in H; [|discriminate].
    apply IH in H. destruct H as (new & -> & Hf).
    eexists (_ :: new). rewrite <- app_assoc. split; [reflexivity|].
    constructor; [|apply Hshift, Hf]. simpl.
    apply extract_title_Ok in Et. destruct Et as (md & v & Hmd & Hv & -> & _).
    exists 0%nat, r, md, v. rewrite Z.add_0_r. auto 10.
Qed.

(** No successful crawl is dropped. *)
Lemma process_batch_covers (batch : list string) (n : Z)
    (acc res : list ScrapedPost) (j : nat) (u : string) (r : CrawlResult) :
  process_batch arun batch n acc = Ok res ->
  batch !! j = Some u -> arun u (n + Z.of_nat j) = Ok r -> success r = true ->
  exists new, res = acc ++ new /\ In u (map post_url new).
Proof.
  revert n acc j. induction batch as [|url batch IH]; intros n acc j H Hj Ha Hs.
  - destruct j; discriminate.
  - cbn [process_batch] in H. destruct j as [|j].
    + simpl in Hj. injection Hj as ->. rewrite Z.add_0_r in Ha.
      rewrite Ha, Hs in H.
      destruct (extract_title r) as [t|e]; simpl in H; [|discriminate].
      destruct (extract_content r) as [c|e]; simpl in H; [|discriminate].
      apply process_batch_Ok in H. destruct H as (new & -> & _).
      eexists (_ :: new). rewrite <- app_assoc. split; [reflexivity|].
      simpl. auto.
    + simpl in Hj.
      replace (n + Z.of_nat (S j)) with (n + 1 + Z.of_nat j) in Ha by lia.
      destruct (arun url n) as [r0|e0]; [|eapply IH; eassumption].
      destruct (success r0); [|eapply IH; eassumption].
      destruct (extract_title r0) as [t|e]; simpl in H; [|discriminate].
      destruct (extract_content r0) as [c|e]; simpl in H; [|discriminate].
      destruct (IH _ _ _ H Hj Ha Hs) as (new & -> & Hin).
      eexists (_ :: new). rewrite <- app_assoc. split; [reflexivity|].
      simpl. auto.
Qed.

Lemma process_batch_Raise (batch : list string) (n : Z)
    (acc : list ScrapedPost) (e : exn) :
  process_batch arun batch n acc = Raise e <->
  e = AttributeError
  /\ exists (j : nat) url r,
       batch !! j = Some url /\ arun url (n + Z.of_nat j) = Ok r
       /\ success r = true
       /\ ((forall md v,
              crawl_metadata r = Some md ->
              md !! "title"%string = Some (Some v) -> strip v = ""%string)
           \/ markdown r = None).
Proof.
  revert n acc. induction batch as [|url batch IH]; intros n acc.
  - simpl. split; [discriminate|]. intros (_ & j & u & r & H & _).
    destruct j; discriminate.
  - cbn [process_batch].
    assert (Hskip : forall acc',
                    (forall r, arun url n = Ok r -> success r = true ->
                               exists t c, extract_title r = Ok t
                                           /\ extract_content r = Ok c) ->
                    (process_batch arun batch (n + 1) acc' = Raise e <->
                     e = AttributeError
                     /\ exists (j : nat) u r,
                          (url :: batch) !! j = Some u
                          /\ arun u (n + Z.of_nat j) = Ok r
                          /\ success r = true
                          /\ ((forall md v,
                                 crawl_metadata r = Some md ->
                                 md !! "title"%string = Some (Some v) ->
                                 strip v = ""%string)
                              \/ markdown r = None))).
    { intros acc' Hhead. rewrite IH. split.
      - intros (-> & j & u & r & H1 & H2 & H3 & H4). split; [reflexivity|].
        exists (S j), u, r. repeat split; try assumption.
        rewrite <- H2. f_equal. lia.
      - intros (-> & j & u & r & H1 & H2 & H3 & H4). split; [reflexivity|].
        destruct j as [|j].
        + simpl in H1. injection H1 as <-.
          rewrite Z.add_0_r in H2. exfalso.
          destruct (Hhead r H2 H3) as (t & c & Ht & Hc).
          destruct H4 as [H4|H4].
          * assert (extract_title r = Raise AttributeError)
              by (apply extract_title_Raise; auto).
            congruence.
          * assert (extract_content r = Raise AttributeError)
              by (apply extract_content_Raise; auto).
            congruence.
        + exists j, u, r. repeat split; try assumption.
          rewrite <- H2. f_equal. lia. }
    destruct (arun url n) as [r|e0] eqn:Ea;
      [|apply Hskip; intros; discriminate].
    destruct (success r) eqn:Es;
      [|apply Hskip; intros r' [= <-]; congruence].
    destruct (extract_title r) as [t|e1] eqn:Et; simpl.
    + destruct (extract_content r) as [c|e1] eqn:Ec; simpl.
      * apply Hskip. intros r' [= <-] _. eauto.
      * apply extract_content_Raise in Ec. destruct Ec as [-> Hn]. split.
        -- intros [= <-]. split; [reflexivity|].
           exists 0%nat, url, r. rewrite Z.add_0_r. auto.
        -- intros (-> & _). reflexivity.
    + apply extract_title_Raise in Et. destruct Et as [-> Hn]. split.
      * intros [= <-]. split; [reflexivity|].
        exists 0%nat, url, r. rewrite Z.add_0_r. auto.
      * intros (-> & _). reflexivity.
Qed.

(** X12: batching does not change what is scraped. [scrape_all] returns
    what one pass over all the urls returns, each url crawled once under
    the session number of its position in the list. *)
Theorem scrape_all_sequential (urls : list string) :
  scrape_all arun urls = process_batch arun urls 0 [].
Proof.
  unfold scrape_all. apply scrape_batches_seq. lia.
Qed.

(** X13: what a completed scrape returns. The urls of the posts are urls
    of the input in the order of the input, each at most once per place;
    every url whose crawl came back with success is among them, the others
    are left out. Every post comes from a successful crawl of its url: its
    title is the stripped metadata title, which is not empty, and its
    content is the stripped markdown cut to [MAX_CONTENT_LENGTH]
    characters. *)
Theorem scraped_posts (urls : list string) (posts : list ScrapedPost) :
  scrape_all arun urls = Ok posts ->
  sublist (map post_url posts) urls
  /\ (forall (j : nat) u r,
        urls !! j = Some u -> arun u (Z.of_nat j) = Ok r ->
        success r = true -> In u (map post_url posts))
  /\ Forall (fun p =>
               exists (j : nat) r md v text,
                 urls !! j = Some (post_url p)
                 /\ arun (post_url p) (Z.of_nat j) = Ok r
                 /\ success r = true
                 /\ crawl_metadata r = Some md
                 /\ md !! "title"%string = Some (Some v)
                 /\ post_title p = strip v
                 /\ markdown r = Some text
                 /\ post_content p
                    = (if len (strip text) >? ScraperConfig.MAX_CONTENT_LENGTH
                       then str_slice_to ScraperConfig.MAX_CONTENT_LENGTH
                              (strip text)
                       else strip text)) posts
  /\ Forall (fun p => post_title p <> ""%string
                      /\ len (post_content p)
                         <= ScraperConfig.MAX_CONTENT_LENGTH) posts
  /\ (length posts <= length urls)%nat.
Proof.
  unfold scrape_all. rewrite scrape_batches_seq by lia. intros H.
  pose proof (process_batch_Ok _ _ _ _ H) as (new & Hnew & Hs & Hf).
  pose proof (process_batch_origin _ _ _ _ H) as (new' & Hnew' & Ho).
  simpl in Hnew, Hnew'. subst new new'.
  split; [exact Hs|]. split; [|split; [|split; [exact Hf|]]].
  - intros j u r Hj Ha Hsucc.
    destruct (process_batch_covers _ _ _ _ j u r H Hj Ha Hsucc)
      as (new & -> & Hin).
    exact Hin.
  - eapply List.Forall_impl; [|exact Ho].
    intros p (j & r & md & v & H1 & H2 & H3 & H4 & H5 & H6 & H7).
    apply extract_content_Ok in H7. destruct H7 as (text & Ht & Hc).
    exists j, r, md, v, text. rewrite Z.add_0_l in H2. auto 10.
  - apply sublist_length in Hs. rewrite length_map in Hs. exact Hs.
Qed.

(** X14: what aborts a scrape. A task that raised and a result without
    success only leave their url out. [scrape_all] raises exactly when
    from some successful result no post can be made: its metadata offers
    no title (the metadata is [None], or the key is absent, or its value
    is [None], or the string is empty once stripped), or its markdown is
    [None]. It then raises [AttributeError] (from a method called on
    [None], or from the read of [result.title]), and the posts scraped so
    far are not returned. *)
Theorem scrape_all_raises (urls : list string) (e : exn) :
  scrape_all arun urls = Raise e <->
  e = AttributeError
  /\ exists (j : nat) url r,
       urls !! j = Some url /\ arun url (Z.of_nat j) = Ok r
       /\ success r = true
       /\ ((forall md v,
              crawl_metadata r = Some md ->
              md !! "title"%string = Some (Some v) -> strip v = ""%string)
           \/ markdown r = None).
Proof.
  unfold scrape_all. rewrite scrape_batches_seq by lia.
  rewrite process_batch_Raise. reflexivity.
Qed.

End Scraped.

Section Fetched.

Variable arun : string -> Z -> result CrawlResult.
Variable sitemap_locs : result (list (option string)).

Lemma keep_truthy_elem (u : string) (l : list (option string)) :
  In u (keep_truthy l) <-> u <> ""%string /\ In (Some u) l.
Proof.
  induction l as [|x l IH]; simpl; [tauto|].
  destruct x as [v|]; simpl.
  - destruct (String.eqb v "") eqn:E; simpl.
    + apply String.eqb_eq in E. subst v. rewrite IH. split.
      * intros (Hne & H). auto.
      * intros (Hne & [[= <-]|H]); [contradiction | auto].
    + apply String.eqb_neq in E. rewrite IH. split.
      * intros [<-|(Hne & H)]; auto.
      * intros (Hne & [[= <-]|H]); auto.
  - rewrite IH. split.
    + intros (Hne & H). auto.
    + intros (Hne & [H|H]); [discriminate | auto].
Qed.

(** X15: the urls that are scraped. [scrape_all_posts] scrapes the texts
    of the sitemap's [<loc>] elements that are not empty, in document
    order: every post returned has such a url, in that order. When the
    request or the parse of the sitemap raises, it returns no post and
    raises nothing. *)
Theorem scrape_all_posts_urls :
  (forall e, sitemap_locs = Raise e ->
             scrape_all_posts arun sitemap_locs = Ok [])
  /\ scrape_all_posts arun sitemap_locs
     = scrape_all arun (fetch_sitemap_urls sitemap_locs)
  /\ (forall posts,
        scrape_all_posts arun sitemap_locs = Ok posts ->
        sublist (map post_url posts) (fetch_sitemap_urls sitemap_locs)
        /\ Forall (fun p => post_url p <> ""%string
                            /\ exists locs, sitemap_locs = Ok locs
                                            /\ In (Some (post_url p)) locs)
             posts).
Proof.
  assert (Heq : scrape_all_posts arun sitemap_locs
                = scrape_all arun (fetch_sitemap_urls sitemap_locs)).
  { unfold scrape_all_posts.
    destruct (fetch_sitemap_urls sitemap_locs); reflexivity. }
  split; [|split; [exact Heq|]].
  - intros e H. unfold scrape_all_posts, fetch_sitemap_urls. rewrite H.
    reflexivity.
  - intros posts H. rewrite Heq in H.
    unfold scrape_all in H. rewrite scrape_batches_seq in H by lia.
    apply process_batch_Ok in H. destruct H as (new & -> & Hs & _).
    simpl. split; [exact Hs|].
    apply List.Forall_forall. intros p Hp.
    assert (Hu : In (post_url p) (fetch_sitemap_urls sitemap_locs)).
    { apply list_elem_of_In. eapply sublist_submseteq, elem_of_submseteq in Hs;
        [exact Hs|].
      apply list_elem_of_In, in_map, Hp. }
    unfold fetch_sitemap_urls in Hu.
    destruct sitemap_locs as [locs|e]; [|destruct Hu].
    apply keep_truthy_elem in Hu. destruct Hu as [Hne Hin].
    split; [exact Hne|]. exists locs. auto.
Qed.

End Fetched.

(** X16: the peak of the memory log. After any sequence of [log_memory]
    calls the peak is at least the peak before and at least every reading
    of the sequence, and it is the peak before or one of the readings. *)
Theorem peak_memory_invariant (peak_memory : Z) (readings : list Z) :
  peak_memory <= fold_left log_memory readings peak_memory
  /\ Forall (fun current_mem =>
               current_mem <= fold_left log_memory readings peak_memory)
       readings
  /\ (fold_left log_memory readings peak_memory = peak_memory
      \/ In (fold_left log_memory readings peak_memory) readings).
Proof.
  revert peak_memory. induction readings as [|r l IH]; intros peak; simpl.
  - repeat split; [lia | constructor | auto].
  - destruct (IH (log_memory peak r)) as (H1 & H2 & H3).
    assert (Hp : peak <= log_memory peak r /\ r <= log_memory peak r
                 /\ (log_memory peak r = peak \/ log_memory peak r = r)).
    { unfold log_memory. destruct (r >? peak) eqn:E.
      - rewrite Z.gtb_ltb in E. apply Z.ltb_lt in E. lia.
      - rewrite Z.gtb_ltb in E. apply Z.ltb_ge in E. lia. }
    destruct Hp as (Hp1 & Hp2 & Hp3).
    split; [lia|]. split; [constructor; [lia | exact H2]|].
    destruct H3 as [H3|H3]; [|auto].
    rewrite H3. destruct Hp3 as [->| ->]; auto.
Qed.

Section Page.

Variable reason_prompt_format :
  string -> string -> option string -> string -> result string.
Variable anchor_prompt_format : string -> option string -> result string.
Variable llm_invoke : string -> result string.

Lemma elem_In (u : string) (l : list string) : elem u l = true <-> In u l.
Proof.
  unfold elem. rewrite existsb_exists. split.
  - intros (x & Hx & E). apply String.eqb_eq in E. subst. exact Hx.
  - intros H. exists u. split; [exact H | apply String.eqb_refl].
Qed.

Lemma get_all_urls_In (self : SimilaritySearcher) (u : string) :
  In u (get_all_urls self) <-> u <> ""%string /\ validate_url self u = true.
Proof.
  unfold get_all_urls, validate_url.
  destruct (vectorstore_get self) as [all_docs|e]; simpl.
  2:{ split; [intros [] | intros (_ & H); discriminate]. }
  rewrite keep_truthy_In.
  pose proof (first_match_Some u (metadatas all_docs) 0) as Hm.
  destruct (first_match u (metadatas all_docs) 0) as [j|].
  - split; [intros (Hne & _); auto|]. intros (Hne & _). split; [exact Hne|].
    apply Hm. eauto.
  - split; [|intros (_ & H); discriminate]. intros (_ & H).
    apply Hm in H. destruct H as (j & H). discriminate.
Qed.

Lemma find_similar_posts_entries (self : SimilaritySearcher) (q : string)
    (top_k : option Z) :
  (forall r, In r (find_similar_posts self q top_k) -> url r <> Some q)
  /\ (forall (i : nat) r,
        find_similar_posts self q top_k !! i = Some r ->
        rank r = Some (Z.of_nat i + 1))
  /\ (0 <= default Config.FINAL_SUGGESTIONS top_k ->
      Z.of_nat (length (find_similar_posts self q top_k))
      <= default Config.FINAL_SUGGESTIONS top_k).
Proof.
  rewrite find_similar_posts_eq.
  destruct (search_similar _ _ _) as [out|e] eqn:E.
  2:{ repeat split; [intros r [] | intros i r H; destruct i; discriminate
                    | simpl; auto]. }
  apply search_similar_Ok in E. simpl in E.
  destruct E as (vs & text & results & _ & _ & _ & _ & _ & ->).
  split; [|split].
  - intros r Hr. apply add_ranks_In in Hr. destruct Hr as (r0 & j & Hr0 & ->).
    apply slice_to_incl, sort_desc_incl, similar_posts_loop_In in Hr0.
    destruct Hr0 as (doc & score & _ & Hu & _ & ->). simpl.
    unfold url_is in Hu. apply bool_decide_eq_false in Hu. exact Hu.
  - intros i r H. apply add_ranks_lookup in H.
    destruct H as (r0 & _ & ->). simpl. f_equal. lia.
  - intros Hk. rewrite add_ranks_length. apply slice_to_length, Hk.
Qed.

(** The five pages, and when each is shown. *)
Lemma find_button_cases (manager : EmbeddingsManager) (url_input : string) :
  let searcher := create_searcher manager in
  let shown := find_button reason_prompt_format anchor_prompt_format
                 llm_invoke manager url_input in
  (url_input = ""%string /\ shown = EnterUrl)
  \/ (url_input <> ""%string /\ validate_url searcher url_input = false
      /\ exists available more, shown = UrlNotFound available more)
  \/ (url_input <> ""%string /\ validate_url searcher url_input = true
      /\ ((find_similar_posts searcher url_input None = []
           /\ shown = NoSimilarPosts)
          \/ (find_similar_posts searcher url_input None <> []
              /\ ((exists enhanced_results,
                     map post enhanced_results
                     = find_similar_posts searcher url_input None
                     /\ shown = Suggestions enhanced_results)
                  \/ ((exists p,
                         In p (find_similar_posts searcher url_input None)
                         /\ title p = None)
                      /\ shown = Uncaught))))).
Proof.
  cbn zeta. unfold find_button.
  destruct (nonempty url_input) eqn:En; simpl.
  2:{ left. unfold nonempty in En. apply negb_false_iff, String.eqb_eq in En.
      auto. }
  apply nonempty_true in En. right.
  destruct (elem url_input (get_all_urls (create_searcher manager))) eqn:Ee;
    simpl.
  2:{ left. split; [exact En|]. split; [|eauto].
      destruct (validate_url (create_searcher manager) url_input) eqn:Ev;
        [|reflexivity].
      assert (elem url_input (get_all_urls (create_searcher manager)) = true)
        by (apply elem_In, get_all_urls_In; auto).
      congruence. }
  apply elem_In, get_all_urls_In in Ee. destruct Ee as [_ Ev].
  right. split; [exact En|]. split; [exact Ev|].
  destruct (find_similar_posts (create_searcher manager) url_input None)
    as [|r rest] eqn:Ef; [left; auto|].
  right. split; [discriminate|].
  destruct (vectorstore manager) as [vs|] eqn:Hv.
  2:{ unfold validate_url, vectorstore_get in Ev. simpl in Ev.
      rewrite Hv in Ev. discriminate. }
  match goal with
  | |- context [process_all_suggestions _ _ _ ?t ?l] =>
      pose proof (process_all_suggestions_cases reason_prompt_format
                    anchor_prompt_format llm_invoke t l) as Hc;
      destruct (process_all_suggestions reason_prompt_format
                  anchor_prompt_format llm_invoke t l) as [res|]
  end.
  - left. exists res. destruct Hc as (H1 & _). auto.
  - right. auto.
Qed.

(** X17: what the page shows after the search button. It asks for a url
    exactly when the input is empty, and reports the url as not found
    exactly when [validate_url] rejects it. The suggestions shown are the
    posts of [find_similar_posts] in its order, so the number [#i] shown
    beside a suggestion is its rank, at most 5 are shown, and none is the
    url asked for. For a stored url whose search raises (an empty stored
    text, a store that is falsy or fails) the page says that no similar
    post was found. The handler fails only on a similar post whose title
    is [None]. *)
Theorem find_button_pages (manager : EmbeddingsManager) (url_input : string) :
  let searcher := create_searcher manager in
  let shown := find_button reason_prompt_format anchor_prompt_format
                 llm_invoke manager url_input in
  (shown = EnterUrl <-> url_input = ""%string)
  /\ (url_input <> ""%string ->
      ((exists available more, shown = UrlNotFound available more) <->
       validate_url searcher url_input = false))
  /\ (forall enhanced_results,
        shown = Suggestions enhanced_results ->
        map post enhanced_results = find_similar_posts searcher url_input None
        /\ enhanced_results <> []
        /\ (length enhanced_results <= 5)%nat
        /\ forall (i : nat) s,
             enhanced_results !! i = Some s ->
             rank (post s) = Some (Z.of_nat i + 1)
             /\ url (post s) <> Some url_input)
  /\ (url_input <> ""%string -> validate_url searcher url_input = true ->
      forall e,
        search_similar manager url_input (Some Config.FINAL_SUGGESTIONS)
        = Raise e ->
        shown = NoSimilarPosts)
  /\ (shown = Uncaught ->
      exists p, In p (find_similar_posts searcher url_input None)
                /\ title p = None).
Proof.
  cbn zeta.
  pose proof (find_button_cases manager url_input) as Hc. cbn zeta in Hc.
  pose proof (find_similar_posts_entries (create_searcher manager)
                url_input None) as (Hurl & Hrank & Hlen).
  split; [|split; [|split; [|split]]].
  - destruct Hc as [(Hu & ->)|[(Hu & _ & a & m & ->)|(Hu & _ & Hc)]].
    + tauto.
    + split; [discriminate | contradiction].
    + split; [|contradiction].
      destruct Hc as [(_ & ->)|(_ & [(l & _ & ->)|(_ & ->)])]; discriminate.
  - intros Hne.
    destruct Hc as [(Hu & _)|[(_ & Hv & a & m & ->)|(_ & Hv & Hc)]].
    + contradiction.
    + split; [auto | eauto].
    + rewrite Hv. split; [|discriminate]. intros (a & m & H).
      destruct Hc as [(_ & E)|(_ & [(l & _ & E)|(_ & E)])];
        rewrite E in H; discriminate.
  - intros l H.
    destruct Hc as [(_ & E)|[(_ & _ & a & m & E)|(_ & _ & Hc)]];
      try (rewrite E in H; discriminate).
    destruct Hc as [(_ & E)|(Hne & [(l' & Hmap & E)|(_ & E)])];
      try (rewrite E in H; discriminate).
    rewrite E in H. injection H as <-.
    split; [exact Hmap|]. split; [|split].
    + intros ->. simpl in Hmap. congruence.
    + rewrite <- (length_map post), Hmap.
      specialize (Hlen ltac:(simpl; unfold Config.FINAL_SUGGESTIONS; lia)).
      simpl in Hlen. unfold Config.FINAL_SUGGESTIONS in Hlen. lia.
    + intros i s Hs.
      assert (Hp : find_similar_posts (create_searcher manager) url_input None
                   !! i = Some (post s)).
      { rewrite <- Hmap, list_lookup_fmap, Hs. reflexivity. }
      split; [apply Hrank, Hp|].
      apply Hurl. apply list_elem_of_In. eapply list_elem_of_lookup_2, Hp.
  - intros Hne Hv e He.
    assert (Hf : find_similar_posts (create_searcher manager) url_input None
                 = []).
    { rewrite find_similar_posts_eq. simpl. rewrite He. reflexivity. }
    destruct Hc as [(Hu & _)|[(_ & Hv' & _)|(_ & _ & Hc)]];
      [contradiction | congruence |].
    destruct Hc as [(_ & E)|(Hne' & _)]; [exact E | contradiction].
  - intros H.
    destruct Hc as [(_ & E)|[(_ & _ & a & m & E)|(_ & _ & Hc)]];
      try (rewrite E in H; discriminate).
    destruct Hc as [(_ & E)|(_ & [(l' & _ & E)|(Hp & _)])];
      try (rewrite E in H; discriminate).
    exact Hp.
Qed.

End Page.

(** ** The properties at the example inputs *)

Section MoreInstances.

Import Examples MoreExamples.
Local Open Scope Q_scope.

Lemma examples_keep_documents :
  keeps_documents from_documents_ex add_documents_ex.
Proof. split; reflexivity. Qed.

(** X4 for five elements in batches of two. *)
Lemma batches_partition_witness :
  concat (batches 5 2 [1; 2; 3; 4; 5]%nat) = [1; 2; 3; 4; 5]%nat
  /\ batches 5 2 [1; 2; 3; 4; 5]%nat = [[1; 2]; [3; 4]; [5]]%nat
  /\ Forall (fun b => (1 <= length b <= 2)%nat) (batches 5 2 [1; 2; 3; 4; 5]%nat).
Proof.
  assert (H : (0 < 2)%nat) by lia.
  destruct (batches_partition 2 [1; 2; 3; 4; 5]%nat H) as (H1 & H2 & _).
  split; [exact H1|]. split; [reflexivity | exact H2].
Defined.

Lemma examples_add_to_collection (old : list Document) :
  adds_to_collection (records old) (from_documents_into old)
  /\ appends_documents add_documents_ex.
Proof.
  split.
  - intros docs _. unfold from_documents_into, Examples.store_of, records.
    simpl. rewrite !map_app. reflexivity.
  - intros vs docs. reflexivity.
Qed.

(** X5 over a directory whose collection already holds the document of
    the post a: the posts a (scraped again) and b are built without the
    progress bar, and the old record of a stays in front of the new one. *)
Lemma build_vectorstore_contents_witness :
  exists vs',
    vectorstore (build_vectorstore
                   (from_documents_into (create_documents [post_a]))
                   add_documents_ex
                   {| vectorstore := None |} [post_a_again; post_b] false)
    = Some vs'
    /\ metadatas (get vs')
       = map metadata (create_documents [post_a; post_a_again; post_b])
    /\ documents (get vs')
       = map page_content (create_documents [post_a; post_a_again; post_b]).
Proof.
  destruct (examples_add_to_collection (create_documents [post_a]))
    as [Hfrom Hadd].
  destruct (build_vectorstore_contents
              (from_documents_into (create_documents [post_a]))
              add_documents_ex (records (create_documents [post_a]))
              {| vectorstore := None |} [post_a_again; post_b] Hfrom Hadd)
    as (_ & _ & _ & H).
  apply H. discriminate.
Defined.

(** X6 over the same directory: the post b, new to the collection, is
    found with its own text; the url a, built again, is listed twice and
    still resolves to the text persisted before. *)
Lemma ingested_posts_are_found_witness :
  exists vs,
    let em := build_vectorstore
                (from_documents_into (create_documents [post_a]))
                add_documents_ex
                {| vectorstore := None |} [post_a_again; post_b] true in
    vectorstore em = Some vs
    /\ get_all_urls (create_searcher em) = ["a"; "a"; "b"]%string
    /\ validate_url (create_searcher em) "b" = true
    /\ resolve (get vs) "b" = Ok (Some (post_text post_b))
    /\ resolve (get vs) "a" = Ok (Some (post_text post_a)).
Proof.
  destruct (examples_add_to_collection (create_documents [post_a]))
    as [Hfrom Hadd].
  destruct (ingested_posts_are_found
              (from_documents_into (create_documents [post_a]))
              add_documents_ex (records (create_documents [post_a]))
              [post_a_again; post_b] true post_b Hfrom Hadd
              eq_refl eq_refl)
    as (vs & Hv & Hurls & Hval & _ & Hnew & _).
  destruct (ingested_posts_are_found
              (from_documents_into (create_documents [post_a]))
              add_documents_ex (records (create_documents [post_a]))
              [post_a_again; post_b] true post_a_again Hfrom Hadd
              eq_refl eq_refl)
    as (vs' & Hv' & _ & _ & _ & _ & Hold).
  cbn zeta in *. rewrite Hv in Hv'. injection Hv' as <-.
  exists vs. split; [exact Hv|]. split; [|split; [exact Hval|split]].
  - rewrite Hurls. reflexivity.
  - apply Hnew. reflexivity.
  - apply (Hold (post_text post_a)). vm_compute. reflexivity.
Defined.

(** X7 for the post a added again, with a new content, to the store of
    the posts a and b: the url a is listed twice and still resolves to the
    first text. *)
Lemma add_posts_accumulates_witness :
  let self := {| vectorstore := Some store_ab |} in
  let self' := add_posts from_documents_ex add_documents_ex self
                 [post_a_again] in
  get_all_urls (create_searcher self') = ["a"; "b"; "a"]%string
  /\ resolve (get store_ab) "a" = Ok (Some (post_text post_a))
  /\ forall n,
       get_post_context (create_searcher self') "a" n
       = get_post_context (create_searcher self) "a" n.
Proof.
  cbn zeta.
  assert (Hr : resolve (get store_ab) "a" = Ok (Some (post_text post_a)))
    by (vm_compute; reflexivity).
  destruct (add_posts_accumulates from_documents_ex add_documents_ex
              {| vectorstore := Some store_ab |} store_ab [post_a_again]
              examples_keep_documents eq_refl eq_refl) as [H1 H2].
  split; [|split; [exact Hr|]].
  - rewrite H1. vm_compute. reflexivity.
  - apply (H2 "a"%string (post_text post_a) Hr).
Defined.

(** X9 at the store of the documents a, b, c: with the default the text
    "text of b" comes back whole; with [max_chars = -3] it loses its last
    three characters and gains the marker; with [max_chars = -20] nothing
    of it is left but the marker. *)
Example get_post_context_cuts :
  get_post_context searcher_abc "b" None = Some "text of b"%string
  /\ get_post_context searcher_abc "b" (Some (-3)%Z) = Some "text o..."%string
  /\ get_post_context searcher_abc "b" (Some (-20)%Z) = Some "..."%string.
Proof. repeat split; vm_compute; reflexivity. Qed.

(** X10 at the store of the documents a, b, c. *)
Lemma context_iff_valid_witness :
  get_post_context searcher_abc "unknown-id" None = None <->
  validate_url searcher_abc "unknown-id" = false.
Proof.
  apply (context_iff_valid searcher_abc store_abc "unknown-id" None);
    reflexivity.
Defined.

(** X11 at the scenario a, b, c: one neighbour passes, two were asked
    for. *)
Lemma find_similar_posts_complete_witness :
  Z.of_nat (length (find_similar_posts searcher_abc "a" (Some 2%Z)))
  = Z.min 2 1
  /\ Permutation
       (map clear_rank (find_similar_posts searcher_abc "a" (Some 2%Z)))
       (similar_posts_loop "a"
          [(docA, 2 # 10); (docB, 8 # 10); (docC, 14 # 10)]).
Proof.
  destruct (find_similar_posts_complete searcher_abc "a" (Some 2%Z)
              store_abc "text of a"
              [(docA, 2 # 10); (docB, 8 # 10); (docC, 14 # 10)])
    as [H1 H2].
  - reflexivity.
  - reflexivity.
  - vm_compute. reflexivity.
  - discriminate.
  - reflexivity.
  - simpl. lia.
  - split; [exact H1|]. apply H2. vm_compute. discriminate.
Defined.

(** X13 for five urls, of which u2 raises and u3 fails. *)
Lemma scraped_posts_witness :
  exists posts,
    scrape_all arun_ex ["u1"; "u2"; "u3"; "u5"; "u6"]%string = Ok posts
    /\ map post_url posts = ["u1"; "u5"; "u6"]%string
    /\ map post_title posts
       = ["Title of u1"; "Title of u5"; "Title of u6"]%string
    /\ sublist (map post_url posts) ["u1"; "u2"; "u3"; "u5"; "u6"]%string
    /\ Forall (fun p => post_title p <> ""%string
                        /\ (len (post_content p)
                            <= ScraperConfig.MAX_CONTENT_LENGTH)%Z) posts.
Proof.
  eexists. split; [vm_compute; reflexivity|].
  split; [reflexivity|]. split; [reflexivity|].
  assert (H : scrape_all arun_ex ["u1"; "u2"; "u3"; "u5"; "u6"]%string
              = Ok [{| post_url := "u1"; post_title := "Title of u1";
                       post_content := "some body" |};
                    {| post_url := "u5"; post_title := "Title of u5";
                       post_content := "some body" |};
                    {| post_url := "u6"; post_title := "Title of u6";
                       post_content := "some body" |}])
    by (vm_compute; reflexivity).
  destruct (scraped_posts arun_ex _ _ H) as (H1 & _ & _ & H2 & _).
  split; [exact H1 | exact H2].
Defined.

(** With u4 in the list, whose metadata has no title, the scrape raises
    and the posts of u1 and u5 are lost with it. *)
Example scrape_all_aborts :
  scrape_all arun_ex ["u1"; "u4"; "u5"]%string = Raise AttributeError.
Proof. vm_compute. reflexivity. Qed.

End MoreInstances.
